(** * BAC-BO-BOT: a shallow embedding of [main.py]

    The development follows the source file top-down:

    - [Py]: the few Python built-ins the bot relies on (exceptions,
      [in] on strings, [str.split], [str.lower], [int]);
    - [enviar_mensagem_resiliente]: the resilient send helper;
    - [atualizar_resultados_elephant]: the three-tier result feed;
    - [estrategia_alta_assertividade]: the prediction picker;
    - [enviar_palpite]: one pass of the posting loop and its iteration;
    - [BotMonitor]: the activity monitor;
    - [main] and the script: the polling loop and the restart loop;
    - the handlers of /start, /status, /palpite, /reactions and of the
      reaction buttons, with [gerar_palpite_com_animacao].

    Network, clock and random generator are inputs of the model: every
    call whose answer comes from outside the process takes that answer from
    an explicit environment value, so the theorems hold for every behaviour
    of the outside world. *)

From Stdlib Require Import ZArith QArith Qminmax Qround Bool List String Ascii Lia.
From Stdlib Require Import Floats Lqa Sorted Permutation.
From Stdlib Require Import DecimalString DecimalPos DecimalN.
From ExtLib Require Import Structures.Monad Structures.MonadExc Structures.MonadState.
Import ListNotations.
Import MonadNotation.

Set Warnings "-inexact-float,-register-all".

Open Scope string_scope.
Open Scope list_scope.
Open Scope Z_scope.

(* ================================================================== *)
(** ** Python built-ins *)
(* ================================================================== *)

Module Py.

(** The exception classes that occur in the modelled code.  All of them
    derive from [Exception], so a bare [except Exception] catches each. *)
Inductive Exc : Type :=
| ValueError
| IndexError
| TypeError
| AttributeError
| KeyError
| ZeroDivisionError
| NameError (name : string)
| UnboundLocalError (name : string)
| RequestException.

(** Outcome of a statement that may raise. *)
Inductive Res (A : Type) : Type :=
| Ok (a : A)
| Raise (e : Exc).
Arguments Ok {A} a.
Arguments Raise {A} e.

#[global] Instance Monad_Res : Monad Res :=
  {| ret := fun A (a : A) => Ok a;
     bind := fun A B (c : Res A) (k : A -> Res B) =>
               match c with
               | Ok a => k a
               | Raise e => Raise e
               end |}.

#[global] Instance Exc_Res : MonadExc Exc Res :=
  {| raise := fun A (e : Exc) => Raise e;
     catch := fun A (c : Res A) (handler : Exc -> Res A) =>
                match c with
                | Ok a => Ok a
                | Raise e => handler e
                end |}.

(** A program over a store [St] that leaves a trace of [Ev]: it ends
    normally or by an exception, and in both cases the assignments and
    the trace up to that point stand, as they do for Python globals. *)
Definition Prog (St Ev A : Type) : Type := St -> Res A * St * list Ev.

#[global] Instance Monad_Prog {St Ev : Type} : Monad (Prog St Ev) :=
  {| ret := fun A (a : A) => (fun st => (Ok a, st, []) : Res A * St * list Ev);
     bind := fun A B (c : Prog St Ev A) (k : A -> Prog St Ev B) =>
               fun st =>
                 match c st with
                 | (Ok a, st', tr) =>
                   match k a st' with
                   | (r, st'', tr') => (r, st'', tr ++ tr')
                   end
                 | (Raise e, st', tr) => (Raise e, st', tr)
                 end |}.

#[global] Instance Exc_Prog {St Ev : Type} : MonadExc Exc (Prog St Ev) :=
  {| raise := fun A (e : Exc) => (fun st => (Raise e, st, []) : Res A * St * list Ev);
     catch := fun A (c : Prog St Ev A) (handler : Exc -> Prog St Ev A) =>
                fun st =>
                  match c st with
                  | (Ok a, st', tr) => (Ok a, st', tr)
                  | (Raise e, st', tr) =>
                    match handler e st' with
                    | (r, st'', tr') => (r, st'', tr ++ tr')
                    end
                  end |}.

#[global] Instance State_Prog {St Ev : Type} : MonadState St (Prog St Ev) :=
  {| get := fun st => (Ok st, st, []);
     put := fun st' _ => (Ok tt, st', []) |}.

(** A statement that only leaves a trace, and one that only computes. *)
Definition emit {St Ev : Type} (ev : Ev) : Prog St Ev unit :=
  fun st => (Ok tt, st, [ev]).

Definition lift {St Ev A : Type} (r : Res A) : Prog St Ev A :=
  fun st => (r, st, []).

(** [sub in s] on strings. *)
Fixpoint contains (sub s : string) : bool :=
  if String.prefix sub s then true
  else match s with
       | EmptyString => false
       | String _ s' => contains sub s'
       end.

Fixpoint drop (n : nat) (s : string) : string :=
  match n, s with
  | O, _ => s
  | S n', String _ s' => drop n' s'
  | S _, EmptyString => EmptyString
  end.

(** The text that follows the first occurrence of [sep] in [s]. *)
Fixpoint after_first (sep s : string) : option string :=
  if String.prefix sep s then Some (drop (String.length sep) s)
  else match s with
       | EmptyString => None
       | String _ s' => after_first sep s'
       end.

(** The text that precedes the first occurrence of [sep] in [s]; all of
    [s] when [sep] does not occur. *)
Fixpoint before_first (sep s : string) : string :=
  if String.prefix sep s then EmptyString
  else match s with
       | EmptyString => EmptyString
       | String c s' => String c (before_first sep s')
       end.

(** [s.split(sep)] for a non-empty [sep]: cut at each occurrence, scanning
    from the left.  Every cut consumes at least one character, so
    [length s] rounds are enough. *)
Fixpoint split_rounds (rounds : nat) (sep s : string) : list string :=
  match rounds with
  | O => [s]
  | S n =>
    match after_first sep s with
    | None => [s]
    | Some rest => before_first sep s :: split_rounds n sep rest
    end
  end.

Definition split (sep s : string) : list string :=
  split_rounds (String.length s) sep s.

(** [l[i]] on a list. *)
Definition item {A : Type} (l : list A) (i : nat) : Res A :=
  match nth_error l i with
  | Some a => Ok a
  | None => Raise IndexError
  end.

(** [s.lower()], on the ASCII letters. *)
Definition lower_ascii (c : ascii) : ascii :=
  let n := nat_of_ascii c in
  if ((65 <=? n)%nat && (n <=? 90)%nat)%bool then ascii_of_nat (n + 32) else c.

Fixpoint lower (s : string) : string :=
  match s with
  | EmptyString => EmptyString
  | String c s' => String (lower_ascii c) (lower s')
  end.

(** White space as [int] and [str.strip] see it (ASCII range). *)
Definition is_space (c : ascii) : bool :=
  let n := nat_of_ascii c in
  (((9 <=? n)%nat && (n <=? 13)%nat) || ((28 <=? n)%nat && (n <=? 32)%nat))%bool.

Fixpoint lstrip (s : string) : string :=
  match s with
  | EmptyString => EmptyString
  | String c s' => if is_space c then lstrip s' else s
  end.

Fixpoint rstrip (s : string) : string :=
  match s with
  | EmptyString => EmptyString
  | String c s' =>
    match rstrip s' with
    | EmptyString => if is_space c then EmptyString else String c EmptyString
    | r => String c r
    end
  end.

Definition digit_value (c : ascii) : option Z :=
  let n := nat_of_ascii c in
  if ((48 <=? n)%nat && (n <=? 57)%nat)%bool then Some (Z.of_nat (n - 48)) else None.

(** Decimal digits with the single underscores Python allows between two
    digits.  [after_digit] tells whether the previous character was a
    digit. *)
Fixpoint digits (acc : Z) (after_digit : bool) (s : string) : option Z :=
  match s with
  | EmptyString => if after_digit then Some acc else None
  | String c s' =>
    match digit_value c with
    | Some d => digits (10 * acc + d) true s'
    | None =>
      if (Ascii.eqb c "_" && after_digit)%bool then digits acc false s' else None
    end
  end.

(** [int(s)] for a string in base ten: surrounding white space, an
    optional sign, then the digits.  Digits outside ASCII are not
    modelled. *)
Definition int (s : string) : Res Z :=
  let t := rstrip (lstrip s) in
  let parsed :=
    match t with
    | String "-" r => option_map Z.opp (digits 0 false r)
    | String "+" r => digits 0 false r
    | _ => digits 0 false t
    end in
  match parsed with
  | Some z => Ok z
  | None => Raise ValueError
  end.

(** [time.sleep(secs)] refuses a negative duration; the value returned is
    the time slept.  Durations too long for the clock of the platform
    (centuries) and numerals longer than the interpreter converts are
    outside the model. *)
Definition time_sleep (secs : Z) : Res Q :=
  if secs <? 0 then Raise ValueError else Ok (inject_Z secs).

(** [d.get(key, default)] on a dictionary kept as an association list. *)
Fixpoint dict_get {V : Type} (d : list (string * V)) (key : string) (default : V) : V :=
  match d with
  | [] => default
  | (k, v) :: d' => if String.eqb k key then v else dict_get d' key default
  end.

End Py.

Local Open Scope monad_scope.

(* ================================================================== *)
(** ** The resilient send helper (main.py, 174-246) *)
(* ================================================================== *)

Inductive ChatId : Type :=
| ChatInt (id : Z)
| ChatNome (handle : string).

Record Message : Type := { message_id : Z }.

(** What one call of [bot.send_message] does: it returns the message
    sent, or raises an exception whose text is [error_msg]. *)
Inductive SendResult : Type :=
| SendOk (m : Message)
| SendErr (error_msg : string).

(** The Telegram side: the outcome of the [k]-th call of
    [bot.send_message] made by the helper, for each destination. *)
Definition Bot : Type := nat -> ChatId -> SendResult.

Inductive Event : Type :=
| EvSend (chat_id : ChatId) (attempt : nat) (r : SendResult)
| EvSleep (secs : Q)
| EvActivity.

(** The first argument may be a single id or a list of them. *)
Inductive ChatIds : Type :=
| UmChat (chat_id : ChatId)
| ListaChats (l : list ChatId).

(** Lines 221-226: the wait extracted from the API answer and slept on,
    [int(error_msg.split("retry after ")[1])] plus one. *)
Definition rate_limit_wait (error_msg : string) : Py.Res Q :=
  piece <- Py.item (Py.split "retry after " error_msg) 1 ;;
  wait_time <- Py.int piece ;;
  Py.time_sleep (wait_time + 1).

(** Lines 202-241, the loop [for attempt in range(retry_count)] from
    attempt number [attempt] on, with [restantes] attempts left.  [k]
    counts the calls of [bot.send_message] made so far.  Durations are
    rationals: [timeout] and both growth factors are exact in binary
    floating point for the values the call sites use. *)
Fixpoint tentativas (bot : Bot) (chat_id : ChatId) (restantes attempt k : nat)
         (backoff : Q) : option Message * nat * list Event :=
  match restantes with
  | O => (None, k, [])
  | S r =>
    let res := bot k chat_id in
    match res with
    | SendOk sent_msg => (Some sent_msg, S k, [EvSend chat_id attempt res])
    | SendErr error_msg =>
      if Py.contains "Too Many Requests: retry after" error_msg then
        match rate_limit_wait error_msg with
        | Py.Ok slept =>
          let '(m, k', tr) := tentativas bot chat_id r (S attempt) (S k) backoff in
          (m, k', EvSend chat_id attempt res :: EvSleep slept :: tr)
        | Py.Raise _ =>
          (* except (ValueError, IndexError) *)
          let '(m, k', tr) :=
            tentativas bot chat_id r (S attempt) (S k) (Qmin (backoff * 2) 30) in
          (m, k', EvSend chat_id attempt res :: EvSleep backoff :: tr)
        end
      else if Py.contains "chat not found" (Py.lower error_msg) then
        (None, S k, [EvSend chat_id attempt res])
      else
        let '(m, k', tr) :=
          tentativas bot chat_id r (S attempt) (S k) (Qmin (backoff * 1.5) 15) in
        (m, k', EvSend chat_id attempt res :: EvSleep backoff :: tr)
    end
  end.

(** Lines 195-241, the loop [for chat_id in chat_ids]. *)
Fixpoint destinos (bot : Bot) (chat_ids : list ChatId) (retry_count : nat)
         (timeout : Q) (k : nat) : option Message * bool * list Event :=
  match chat_ids with
  | [] => (None, false, [])
  | chat_id :: rest =>
    match tentativas bot chat_id retry_count 0 k timeout with
    | (Some sent_msg, _, tr) => (Some sent_msg, true, tr)
    | (None, k', tr) =>
      let '(m, success, tr') := destinos bot rest retry_count timeout k' in
      (m, success, tr ++ tr')
    end
  end.

Definition enviar_mensagem_resiliente (bot : Bot) (chat_ids : ChatIds)
           (retry_count : nat) (timeout : Q) : option Message * bool * list Event :=
  let chat_ids := match chat_ids with
                  | UmChat c => [c]
                  | ListaChats l => l
                  end in
  let '(sent_msg, success, tr) := destinos bot chat_ids retry_count timeout 0 in
  (sent_msg, success, tr ++ [EvActivity]).

(** Defaults of the signature. *)
Definition retry_count_default : nat := 3.
Definition timeout_default : Q := 2.

(* ================================================================== *)
(** ** The result feed (main.py, 291-476) *)
(* ================================================================== *)

(** The three outcomes of a round, as the source writes them. *)
Definition vermelho : string := "🔴".
Definition azul : string := "🔵".
Definition laranja : string := "🟠".

Definition COLOR_MAPPING : list (string * string) :=
  [("red", vermelho); ("blue", azul); ("orange", laranja)].

(** The global dictionary [resultados_anteriores].  The three last keys
    are absent from the dictionary the module starts with. *)
Record Resultados : Type := {
  ultimos_10 : list string;
  frequencia : list (string * float);
  tendencia : string;
  ultima_atualizacao : Q;
  resultado_atual : option string;
  timestamp_rodada : option string;
  fonte : option string
}.

(** Lines 293-298; [carregado] is [time.time()] when the module loads. *)
Definition resultados_iniciais (carregado : Q) : Resultados :=
  {| ultimos_10 := [vermelho; azul; azul; laranja; vermelho;
                    laranja; azul; vermelho; azul; laranja];
     frequencia := [(vermelho, 0.33%float); (azul, 0.40%float); (laranja, 0.27%float)];
     tendencia := azul;
     ultima_atualizacao := carregado;
     resultado_atual := None;
     timestamp_rodada := None;
     fonte := None |}.

(** A decoded JSON document.  In [JObj] the keys are distinct, as in the
    dictionary [response.json()] builds. *)
Inductive Json : Type :=
| JNull
| JBool (b : bool)
| JNum (q : Q)
| JStr (s : string)
| JArr (l : list Json)
| JObj (d : list (string * Json)).

(** What [session.get(BACBO_RESULTS_API, timeout=5)] gives: an exception,
    or a response with its status and what [response.json()] does. *)
Inductive RespostaApi : Type :=
| ApiRaises (e : Py.Exc)
| ApiResponse (status_code : Z) (json : Py.Res Json).

(** What [session.get(BACBO_GAME_URL, timeout=5)] gives.  The parsed page
    is seen through the two selections the code makes: the element
    [.game-results-container], if any, and within it the [class]
    attribute of each [.result-item]. *)
Inductive RespostaPagina : Type :=
| PaginaRaises (e : Py.Exc)
| PaginaResponse (status_code : Z) (results_container : option (list (list string))).

(** The outside world during one call.  [gerador s i] is the [i]-th
    value of [random.random()] after [random.seed(s)]. *)
Record Rede : Type := {
  time_time : Q;
  api : RespostaApi;
  pagina : RespostaPagina;
  time_seed : Q;
  gerador : Z -> nat -> float;
  strftime_hms : string
}.

Inductive Nivel : Type := INFO | WARNING | ERROR.

(** One call of [logger]: level, the fixed part of the text, and the
    exception the text reports, if any. *)
Record LogRec : Type := {
  nivel : Nivel;
  texto : string;
  causa : option Py.Exc
}.

(** The store of the function: the global it reads and writes, and
    whether the local names [data] and [soup] are bound (line 466 asks
    [locals()]). *)
Record FeedSt : Type := {
  resultados_anteriores : Resultados;
  data_in_locals : bool;
  soup_in_locals : bool
}.

Definition Feed : Type -> Type := Py.Prog FeedSt LogRec.

Definition logger (n : Nivel) (t : string) (c : option Py.Exc) : Feed unit :=
  Py.emit {| nivel := n; texto := t; causa := c |}.

Definition bind_data : Feed unit :=
  st <- get ;;
  put {| resultados_anteriores := resultados_anteriores st;
         data_in_locals := true;
         soup_in_locals := soup_in_locals st |}.

Definition bind_soup : Feed unit :=
  st <- get ;;
  put {| resultados_anteriores := resultados_anteriores st;
         data_in_locals := data_in_locals st;
         soup_in_locals := true |}.

(** [x.get(key, default)] on a decoded value: only a dictionary has
    [get]. *)
Definition json_get (x : Json) (key : string) (default : Json) : Py.Res Json :=
  match x with
  | JObj d => Py.Ok (Py.dict_get d key default)
  | _ => Py.Raise Py.AttributeError
  end.

Fixpoint chars (s : string) : list Json :=
  match s with
  | EmptyString => []
  | String c s' => JStr (String c EmptyString) :: chars s'
  end.

(** [x[:10]] followed by iteration: a list gives its first ten items, a
    string its first ten characters; nothing else can be sliced. *)
Definition slice_10 (x : Json) : Py.Res (list Json) :=
  match x with
  | JArr l => Py.Ok (firstn 10 l)
  | JStr s => Py.Ok (firstn 10 (chars s))
  | JObj _ => Py.Raise Py.KeyError
  | _ => Py.Raise Py.TypeError
  end.

(** [COLOR_MAPPING.get(result_color, "🟠")]: lists and dictionaries
    cannot be hashed. *)
Definition color_get (result_color : Json) : Py.Res string :=
  match result_color with
  | JStr s => Py.Ok (Py.dict_get COLOR_MAPPING s laranja)
  | JArr _ | JObj _ => Py.Raise Py.TypeError
  | _ => Py.Ok laranja
  end.

(** Lines 361-365. *)
Fixpoint api_rounds (rounds : list Json) : Py.Res (list string) :=
  match rounds with
  | [] => Py.Ok []
  | round_data :: rest =>
    result_color <- json_get round_data "result" (JStr "orange") ;;
    emoji_result <- color_get result_color ;;
    recent_results <- api_rounds rest ;;
    ret (emoji_result :: recent_results)
  end.

(** Lines 353-374, the body of the first [try]. *)
Definition via_api (env : Rede) : Feed (string * list string) :=
  match api env with
  | ApiRaises e => raise e
  | ApiResponse status_code json =>
    if status_code =? 200 then
      logger INFO "Conseguiu obter dados via API de resultados" None ;;
      data <- Py.lift json ;;
      bind_data ;;
      rounds <- Py.lift (json_get data "rounds" (JArr [])) ;;
      rounds <- Py.lift (slice_10 rounds) ;;
      recent_results <- Py.lift (api_rounds rounds) ;;
      match recent_results with
      | novo_resultado :: _ =>
        logger INFO "Resultado atual via API" None ;;
        ret (novo_resultado, recent_results)
      | [] => raise Py.ValueError
      end
    else raise Py.ValueError
  end.

Definition mem (x : string) (l : list string) : bool :=
  existsb (String.eqb x) l.

(** Lines 395-404. *)
Definition item_emoji (classes : list string) : string :=
  if mem "result-red" classes then vermelho
  else if mem "result-blue" classes then azul
  else laranja.

(** Lines 381-415, the body of the second [try]. *)
Definition via_scraping (env : Rede) : Feed (string * list string) :=
  logger INFO "Tentando obter via web scraping da página do jogo" None ;;
  match pagina env with
  | PaginaRaises e => raise e
  | PaginaResponse status_code results_container =>
    if status_code =? 200 then
      bind_soup ;;
      match results_container with
      | Some result_items =>
        let recent_results := map item_emoji (firstn 10 result_items) in
        match recent_results with
        | novo_resultado :: _ =>
          logger INFO "Resultado atual via scraping" None ;;
          ret (novo_resultado, recent_results)
        | [] => raise Py.ValueError
        end
      | None => raise Py.ValueError
      end
    else raise Py.ValueError
  end.

(** [itertools.accumulate(weights)]. *)
Fixpoint accumulate (acc : float) (weights : list float) : list float :=
  match weights with
  | [] => []
  | w :: ws => let acc' := (acc + w)%float in acc' :: accumulate acc' ws
  end.

(** [bisect(cum_weights, x, 0, hi)] on a non-decreasing list: the first
    position below [hi] whose entry exceeds [x], else [hi]. *)
Fixpoint bisect (cum_weights : list float) (x : float) (hi : nat) : nat :=
  match hi, cum_weights with
  | S h, c :: cs => if PrimFloat.ltb x c then O else S (bisect cs x h)
  | _, _ => O
  end.

(** [random.choices(population, weights=weights, k=1)[0]], given the
    value [u] that [random.random()] returns for it. *)
Definition choices_1 (population : list string) (weights : list float) (u : float) : string :=
  let cum_weights :=
    match weights with
    | [] => []
    | w :: ws => w :: accumulate w ws
    end in
  let total := (last cum_weights 0 + 0)%float in
  let hi := (List.length population - 1)%nat in
  nth (bisect cum_weights (u * total)%float hi) population laranja.

(** [int(x)] on a float read as a rational: truncation towards zero. *)
Definition int_of_time (t : Q) : Z := Z.quot (Qnum t) (Zpos (Qden t)).

Definition weights : list float := [0.35%float; 0.35%float; 0.30%float].

(** Lines 422-435: [novo_resultado] is the first draw after seeding with
    the minute, the window the next ten. *)
Definition sorteio (env : Rede) : string * list string :=
  let cores := [vermelho; azul; laranja] in
  let random := gerador env (int_of_time (time_seed env) / 60) in
  let novo_resultado := choices_1 cores weights (random 0%nat) in
  let recent_results :=
    map (fun i => choices_1 cores weights (random (S i))) (seq 0 10) in
  (novo_resultado, recent_results).

(** Lines 421-437. *)
Definition simulacao (env : Rede) : Feed (string * list string) :=
  let '(novo_resultado, recent_results) := sorteio env in
  logger INFO "Resultado via simulação (fallback)" None ;;
  ret (novo_resultado, recent_results).

(** [contador[resultado] = contador.get(resultado, 0) + 1]. *)
Fixpoint conta (contador : list (string * Z)) (resultado : string) : list (string * Z) :=
  match contador with
  | [] => [(resultado, 0 + 1)]
  | (k, v) :: rest =>
    if String.eqb k resultado then (k, v + 1) :: rest
    else (k, v) :: conta rest resultado
  end.

(** The binary64 quotient of two small non-negative integers. *)
Definition quociente (a b : Z) : float :=
  (PrimFloat.of_uint63 (Uint63.of_Z a) / PrimFloat.of_uint63 (Uint63.of_Z b))%float.

(** [a / b] on two integers below 2^53: the correctly rounded quotient. *)
Definition truediv (a b : Z) : Py.Res float :=
  if b =? 0 then Py.Raise Py.ZeroDivisionError
  else Py.Ok (quociente a b).

Fixpoint frequencias (contador : list (string * Z)) (total : Z)
  : Py.Res (list (string * float)) :=
  match contador with
  | [] => Py.Ok []
  | (cor, n) :: rest =>
    f <- truediv n total ;;
    fs <- frequencias rest total ;;
    ret ((cor, f) :: fs)
  end.

(** [max(contador.keys(), key=lambda k: contador[k])]: the first key, in
    insertion order, that carries the largest count. *)
Fixpoint max_key (best : string * Z) (rest : list (string * Z)) : string :=
  match rest with
  | [] => fst best
  | (k, v) :: rest' => if snd best <? v then max_key (k, v) rest' else max_key best rest'
  end.

Definition Qltb (a b : Q) : bool := negb (Qle_bool b a).

(** Lines 439-470, from the window to the new dictionary. *)
Definition registar (env : Rede) (novo_resultado : string) (recent_results : list string)
  : Feed unit :=
  let ultimos := recent_results in
  let ultimos := if (10 <? List.length ultimos)%nat then firstn 10 ultimos else ultimos in
  let contador := fold_left conta ultimos [(vermelho, 0); (azul, 0); (laranja, 0)] in
  let total := Z.of_nat (List.length ultimos) in
  frequencia <- Py.lift (frequencias contador total) ;;
  tendencia <- match contador with
               | [] => raise Py.ValueError
               | kv :: rest => ret (max_key kv rest)
               end ;;
  st <- get ;;
  put {| resultados_anteriores :=
           {| ultimos_10 := ultimos;
              frequencia := frequencia;
              tendencia := tendencia;
              ultima_atualizacao := time_time env;
              resultado_atual := Some novo_resultado;
              timestamp_rodada := Some (strftime_hms env);
              fonte := Some (if data_in_locals st then "API Elephant Bet"
                             else if soup_in_locals st then "Web Scraping"
                             else "Simulação (Fallback)") |};
         data_in_locals := data_in_locals st;
         soup_in_locals := soup_in_locals st |} ;;
  logger INFO "Resultado atual da Elephant Bet" None.

(** Lines 351-437: the three sources, each tried when the one before
    it raised. *)
Definition obtem (env : Rede) : Feed (string * list string) :=
  catch (via_api env)
    (fun api_error =>
       logger WARNING "Falha ao obter dados via API" (Some api_error) ;;
       catch (via_scraping env)
         (fun scraping_error =>
            logger ERROR "Falha ao fazer scraping da página" (Some scraping_error) ;;
            logger WARNING "Usando fallback para simulação de resultados" None ;;
            simulacao env)).

(** Lines 340-476. *)
Definition atualizar_resultados_elephant_corpo (env : Rede) : Feed Resultados :=
  st <- get ;;
  let tempo_atual := time_time env in
  if Qltb (tempo_atual - ultima_atualizacao (resultados_anteriores st)) 10 then
    ret (resultados_anteriores st)
  else
    catch
      (logger INFO "Obtendo resultados da Elephant Bet (dados reais)" None ;;
       '(novo_resultado, recent_results) <- obtem env ;;
       registar env novo_resultado recent_results)
      (fun e => logger ERROR "Erro ao obter resultados da Elephant Bet" (Some e)) ;;
    st' <- get ;;
    ret (resultados_anteriores st').

(** The function as its callers see it: on entry no local is bound. *)
Definition atualizar_resultados_elephant (env : Rede) (global : Resultados)
  : Py.Res Resultados * Resultados * list LogRec :=
  match atualizar_resultados_elephant_corpo env
          {| resultados_anteriores := global;
             data_in_locals := false;
             soup_in_locals := false |} with
  | (r, st, logs) => (r, resultados_anteriores st, logs)
  end.

(* ================================================================== *)
(** ** Module-level state (main.py, 254-298 and 478-488) *)
(* ================================================================== *)

(** The score counters, lines 255-261. *)
Record Placar : Type := {
  acertos : Z;
  erros : Z;
  total : Z;
  greens_seguidos : Z;
  reds_seguidos : Z;
  max_greens_seguidos : Z;
  max_reds_seguidos : Z
}.

(** The five locals [old_acertos], [old_erros], [old_total],
    [old_max_greens] and [old_max_reds] of [enviar_palpite], which lines
    1000-1004 bind together. *)
Record Antigos : Type := {
  old_acertos : Z;
  old_erros : Z;
  old_total : Z;
  old_max_greens : Z;
  old_max_reds : Z
}.

(** The store the picker and the posting loop work on: the globals they
    name, then the locals of [enviar_palpite] that outlive one pass of
    its loop.  [consecutive_errors] is [None] while the module has no
    such name; [antigos] is [None] while the five locals are unbound. *)
Record Estado : Type := {
  placar : Placar;
  contagem_gales : Z;
  modo_defensivo : bool;
  PADRAO_ATUAL : string;
  consecutive_errors : option Z;
  resultados : Resultados;
  ultimo_placar : Q;
  canal_ids : list ChatId;
  antigos : option Antigos
}.

Definition set_acertos (v : Z) (p : Placar) : Placar :=
  {| acertos := v; erros := erros p; total := total p;
     greens_seguidos := greens_seguidos p; reds_seguidos := reds_seguidos p;
     max_greens_seguidos := max_greens_seguidos p;
     max_reds_seguidos := max_reds_seguidos p |}.

Definition set_erros (v : Z) (p : Placar) : Placar :=
  {| acertos := acertos p; erros := v; total := total p;
     greens_seguidos := greens_seguidos p; reds_seguidos := reds_seguidos p;
     max_greens_seguidos := max_greens_seguidos p;
     max_reds_seguidos := max_reds_seguidos p |}.

Definition set_total (v : Z) (p : Placar) : Placar :=
  {| acertos := acertos p; erros := erros p; total := v;
     greens_seguidos := greens_seguidos p; reds_seguidos := reds_seguidos p;
     max_greens_seguidos := max_greens_seguidos p;
     max_reds_seguidos := max_reds_seguidos p |}.

Definition set_greens_seguidos (v : Z) (p : Placar) : Placar :=
  {| acertos := acertos p; erros := erros p; total := total p;
     greens_seguidos := v; reds_seguidos := reds_seguidos p;
     max_greens_seguidos := max_greens_seguidos p;
     max_reds_seguidos := max_reds_seguidos p |}.

Definition set_reds_seguidos (v : Z) (p : Placar) : Placar :=
  {| acertos := acertos p; erros := erros p; total := total p;
     greens_seguidos := greens_seguidos p; reds_seguidos := v;
     max_greens_seguidos := max_greens_seguidos p;
     max_reds_seguidos := max_reds_seguidos p |}.

Definition set_max_greens_seguidos (v : Z) (p : Placar) : Placar :=
  {| acertos := acertos p; erros := erros p; total := total p;
     greens_seguidos := greens_seguidos p; reds_seguidos := reds_seguidos p;
     max_greens_seguidos := v;
     max_reds_seguidos := max_reds_seguidos p |}.

Definition set_max_reds_seguidos (v : Z) (p : Placar) : Placar :=
  {| acertos := acertos p; erros := erros p; total := total p;
     greens_seguidos := greens_seguidos p; reds_seguidos := reds_seguidos p;
     max_greens_seguidos := max_greens_seguidos p;
     max_reds_seguidos := v |}.

Definition set_placar (v : Placar) (s : Estado) : Estado :=
  {| placar := v; contagem_gales := contagem_gales s;
     modo_defensivo := modo_defensivo s; PADRAO_ATUAL := PADRAO_ATUAL s;
     consecutive_errors := consecutive_errors s; resultados := resultados s;
     ultimo_placar := ultimo_placar s; canal_ids := canal_ids s;
     antigos := antigos s |}.

Definition set_contagem_gales (v : Z) (s : Estado) : Estado :=
  {| placar := placar s; contagem_gales := v;
     modo_defensivo := modo_defensivo s; PADRAO_ATUAL := PADRAO_ATUAL s;
     consecutive_errors := consecutive_errors s; resultados := resultados s;
     ultimo_placar := ultimo_placar s; canal_ids := canal_ids s;
     antigos := antigos s |}.

Definition set_modo_defensivo (v : bool) (s : Estado) : Estado :=
  {| placar := placar s; contagem_gales := contagem_gales s;
     modo_defensivo := v; PADRAO_ATUAL := PADRAO_ATUAL s;
     consecutive_errors := consecutive_errors s; resultados := resultados s;
     ultimo_placar := ultimo_placar s; canal_ids := canal_ids s;
     antigos := antigos s |}.

Definition set_PADRAO_ATUAL (v : string) (s : Estado) : Estado :=
  {| placar := placar s; contagem_gales := contagem_gales s;
     modo_defensivo := modo_defensivo s; PADRAO_ATUAL := v;
     consecutive_errors := consecutive_errors s; resultados := resultados s;
     ultimo_placar := ultimo_placar s; canal_ids := canal_ids s;
     antigos := antigos s |}.

Definition set_consecutive_errors (v : option Z) (s : Estado) : Estado :=
  {| placar := placar s; contagem_gales := contagem_gales s;
     modo_defensivo := modo_defensivo s; PADRAO_ATUAL := PADRAO_ATUAL s;
     consecutive_errors := v; resultados := resultados s;
     ultimo_placar := ultimo_placar s; canal_ids := canal_ids s;
     antigos := antigos s |}.

Definition set_resultados (v : Resultados) (s : Estado) : Estado :=
  {| placar := placar s; contagem_gales := contagem_gales s;
     modo_defensivo := modo_defensivo s; PADRAO_ATUAL := PADRAO_ATUAL s;
     consecutive_errors := consecutive_errors s; resultados := v;
     ultimo_placar := ultimo_placar s; canal_ids := canal_ids s;
     antigos := antigos s |}.

Definition set_ultimo_placar (v : Q) (s : Estado) : Estado :=
  {| placar := placar s; contagem_gales := contagem_gales s;
     modo_defensivo := modo_defensivo s; PADRAO_ATUAL := PADRAO_ATUAL s;
     consecutive_errors := consecutive_errors s; resultados := resultados s;
     ultimo_placar := v; canal_ids := canal_ids s;
     antigos := antigos s |}.

Definition set_canal_ids (v : list ChatId) (s : Estado) : Estado :=
  {| placar := placar s; contagem_gales := contagem_gales s;
     modo_defensivo := modo_defensivo s; PADRAO_ATUAL := PADRAO_ATUAL s;
     consecutive_errors := consecutive_errors s; resultados := resultados s;
     ultimo_placar := ultimo_placar s; canal_ids := v;
     antigos := antigos s |}.

Definition set_antigos (v : option Antigos) (s : Estado) : Estado :=
  {| placar := placar s; contagem_gales := contagem_gales s;
     modo_defensivo := modo_defensivo s; PADRAO_ATUAL := PADRAO_ATUAL s;
     consecutive_errors := consecutive_errors s; resultados := resultados s;
     ultimo_placar := ultimo_placar s; canal_ids := canal_ids s;
     antigos := v |}.

Definition CANAL_ID : ChatId := ChatInt (-1002510265632).
Definition CANAL_ID_ALT : ChatId := ChatInt 1002510265632.
Definition CANAL_HANDLE : ChatId := ChatNome "@bacboprediction1".

Definition max_gales : Z := 1.

Definition placar_zero : Placar :=
  {| acertos := 0; erros := 0; total := 0;
     greens_seguidos := 0; reds_seguidos := 0;
     max_greens_seguidos := 0; max_reds_seguidos := 0 |}.

(** The store when [enviar_palpite] is entered right after the module
    has loaded, at clock reading [t]. *)
Definition estado_inicial (t : Q) : Estado :=
  {| placar := placar_zero;
     contagem_gales := 0;
     modo_defensivo := false;
     PADRAO_ATUAL := "COMBINAÇÃO";
     consecutive_errors := None;
     resultados := resultados_iniciais t;
     ultimo_placar := t;
     canal_ids := [CANAL_ID; CANAL_ID_ALT; CANAL_HANDLE];
     antigos := None |}.

(* ================================================================== *)
(** ** What the posting loop leaves behind *)
(* ================================================================== *)

(** Which of the three families of status lines heads the message; the
    wording inside a family is drawn at random and carries no data. *)
Inductive Status : Type :=
| ACERTAMOS
| ERRAMOS_ADAPTANDO
| ERRAMOS.

(** The prediction message of lines 1162-1172, by the values its
    template interpolates.  [m_taxa] is the rate of the last line,
    beside the counters; the bonus block of a hit carries the pick of
    the bonus and otherwise fixed text. *)
Record Mensagem : Type := {
  m_status : Status;
  m_palpite : string;
  m_bonus : option string;
  m_modo_indicador : bool;
  m_acertos : Z;
  m_erros : Z;
  m_taxa : Q
}.

Inductive Evento : Type :=
| ELog (r : LogRec)
| EDorme (secs : Q)
| EPlacar (canal_id : ChatId) (p : Placar)
| EReinicio (canal_id : ChatId) (a : Antigos)
| EPalpite (destino : ChatId) (direto : bool) (m : Mensagem)
| EEspera (canal_id : ChatId)
| EApaga (canal_id : ChatId).

Definition Loop : Type -> Type := Py.Prog Estado Evento.

Definition regista (n : Nivel) (t : string) (c : option Py.Exc) : Loop unit :=
  Py.emit (ELog {| nivel := n; texto := t; causa := c |}).

Definition atribui (f : Estado -> Estado) : Loop unit :=
  st <- get ;; put (f st).

Definition no_placar (f : Placar -> Placar) : Loop unit :=
  atribui (fun st => set_placar (f (placar st)) st).

(** A call of [atualizar_resultados_elephant()] from the picker or the
    loop: it works on the global [resultados_anteriores]. *)
Definition chama_atualizar (env : Rede) : Loop Resultados :=
  fun st =>
    match atualizar_resultados_elephant env (resultados st) with
    | (r, global, logs) => (r, set_resultados global st, map ELog logs)
    end.

(* ================================================================== *)
(** ** The prediction picker (main.py, 490-738) *)
(* ================================================================== *)

Definition laranja_e_azul : string := "🟠+🔵 Laranja e Azul".
Definition laranja_e_vermelho : string := "🟠+🔴 Laranja e Vermelho".
Definition so_laranja : string := "🟠 Laranja".
Definition so_azul : string := "🔵 Azul".
Definition so_vermelho : string := "🔴 Vermelho".
Definition azul_e_vermelho : string := "🔵+🔴 Azul e Vermelho".

(** Lines 504-511. *)
Definition estrategias : list string :=
  [laranja_e_azul; laranja_e_vermelho; so_laranja; so_azul; so_vermelho; azul_e_vermelho].

(** The module [prediction_generator], which is not part of the source
    tree: [None] when the import fails, else the two names the bot takes
    from it. *)
Record PredictionGenerator : Type := {
  ultimo_pred : option string;
  generate_intelligent_prediction : Py.Res string
}.

(** Clock and generator as one call of the picker reads them:
    [time.strftime('%H')], [time.strftime('%M')], and the position
    [random.choice] draws (taken modulo the length of its argument). *)
Record Momento : Type := {
  hora_atual : Z;
  minuto_atual : Z;
  random_choice : nat
}.

(** [random.choice(seq)]. *)
Definition choice (seq : list string) (draw : nat) : Py.Res string :=
  match seq with
  | [] => Py.Raise Py.IndexError
  | x :: _ => Py.Ok (nth (draw mod List.length seq) seq x)
  end.

(** [l.remove(x)] when [x in l]. *)
Fixpoint list_remove (x : string) (l : list string) : list string :=
  match l with
  | [] => []
  | y :: l' => if String.eqb y x then l' else y :: list_remove x l'
  end.

(** Lines 546-549. *)
Definition filtra (ultimo_palpite : option string) : list string :=
  let estrategias_filtradas := estrategias in
  match ultimo_palpite with
  | Some u =>
    if (mem u estrategias_filtradas && (1 <? List.length estrategias_filtradas)%nat)%bool
    then list_remove u estrategias_filtradas
    else estrategias_filtradas
  | None => estrategias_filtradas
  end.

(** Line 554: the colour of the last three results when they agree. *)
Definition sequencia (ultimos : list string) : option string :=
  if (3 <=? List.length ultimos)%nat then
    match rev ultimos with
    | u1 :: u2 :: u3 :: _ =>
      if (String.eqb u1 u2 && String.eqb u2 u3)%bool then Some u1 else None
    | _ => None
    end
  else None.

(** [contador[resultado] += 1]. *)
Fixpoint incrementa (contador : list (string * Z)) (resultado : string)
  : Py.Res (list (string * Z)) :=
  match contador with
  | [] => Py.Raise Py.KeyError
  | (k, v) :: rest =>
    if String.eqb k resultado then Py.Ok ((k, v + 1) :: rest)
    else rest' <- incrementa rest resultado ;; ret ((k, v) :: rest')
  end.

Fixpoint conta_todos (contador : list (string * Z)) (l : list string)
  : Py.Res (list (string * Z)) :=
  match l with
  | [] => Py.Ok contador
  | resultado :: l' =>
    contador' <- incrementa contador resultado ;; conta_todos contador' l'
  end.

(** Lines 583-589: the colours with no occurrence among [ultimos[-5:]],
    in the order of the dictionary; none when the window is shorter than
    five. *)
Definition ausentes (ultimos : list string) : Py.Res (list string) :=
  if (5 <=? List.length ultimos)%nat then
    contador <- conta_todos [(vermelho, 0); (azul, 0); (laranja, 0)]
                            (skipn (List.length ultimos - 5) ultimos) ;;
    ret (map fst (filter (fun kv => snd kv =? 0) contador))
  else Py.Ok [].

(** Lines 618-688, the choice by hour of the day. *)
Definition por_horario (ultimo_palpite : option string) (ultimos : list string)
           (tendencia : string) (m : Momento) (modo_defensivo : bool) : Py.Res string :=
  let hora_atual := hora_atual m in
  let minuto_atual := minuto_atual m in
  if ((6 <=? hora_atual) && (hora_atual <? 12))%bool then
    ret (if modo_defensivo then so_azul else laranja_e_azul)
  else if ((12 <=? hora_atual) && (hora_atual <? 18))%bool then
    if (3 <=? List.length ultimos)%nat then
      match rev ultimos with
      | u1 :: u2 :: _ =>
        if negb (String.eqb u1 u2) then
          if String.eqb u1 azul then ret laranja_e_vermelho
          else if String.eqb u1 vermelho then ret laranja_e_azul
          else ret (if minuto_atual mod 2 =? 0 then laranja_e_vermelho else laranja_e_azul)
        else
          if String.eqb tendencia azul then ret laranja_e_azul
          else if String.eqb tendencia vermelho then ret laranja_e_vermelho
          else ret so_laranja
      | _ => raise Py.IndexError
      end
    else ret laranja_e_azul
  else if ((18 <=? hora_atual) && (hora_atual <? 24))%bool then
    if modo_defensivo then ret so_vermelho
    else
      match ultimo_palpite with
      | Some u => ret (if String.eqb u laranja_e_vermelho then laranja_e_azul
                       else laranja_e_vermelho)
      | None => ret laranja_e_vermelho
      end
  else
    if modo_defensivo then ret so_laranja
    else
      let palpite :=
        if minuto_atual <? 20 then laranja_e_azul
        else if minuto_atual <? 40 then laranja_e_vermelho
        else so_laranja in
      match ultimo_palpite with
      | Some u =>
        if String.eqb palpite u then
          let remaining :=
            filter (fun p => negb (String.eqb p palpite)) (filtra ultimo_palpite) in
          match remaining with
          | [] => ret palpite
          | _ => choice remaining (random_choice m)
          end
        else ret palpite
      | None => ret palpite
      end.

(** Lines 545-688: the three rules in order.  Every path through the
    hour buckets returns, so lines 690-723 (the choice by trend) are
    never reached and have no counterpart here. *)
Definition escolha (ultimo_palpite : option string) (ultimos : list string)
           (tendencia : string) (m : Momento) (modo_defensivo : bool) : Py.Res string :=
  match sequencia ultimos with
  | Some cor_repetida =>
    if modo_defensivo then
      if String.eqb cor_repetida azul then ret so_vermelho
      else if String.eqb cor_repetida vermelho then ret so_azul
      else ret (if 12 <=? hora_atual m then so_vermelho else so_azul)
    else
      if String.eqb cor_repetida azul then ret laranja_e_vermelho
      else if String.eqb cor_repetida vermelho then ret laranja_e_azul
      else ret (if minuto_atual m mod 2 =? 0 then laranja_e_vermelho else laranja_e_azul)
  | None =>
    faltam <- ausentes ultimos ;;
    match faltam with
    | cor_ausente :: _ =>
      if modo_defensivo then
        if String.eqb cor_ausente laranja then ret so_laranja
        else if String.eqb cor_ausente azul then ret so_azul
        else ret so_vermelho
      else
        if String.eqb cor_ausente laranja then ret so_laranja
        else if String.eqb cor_ausente azul then ret laranja_e_azul
        else ret laranja_e_vermelho
    | [] => por_horario ultimo_palpite ultimos tendencia m modo_defensivo
    end
  end.

(** Lines 500-738.  The picker returns its pick with the two globals
    [contagem_gales] and [modo_defensivo] as they stand on return. *)
Definition estrategia_alta_assertividade (pg : option PredictionGenerator)
           (env : Rede) (m : Momento) : Loop (string * Z * bool) :=
  catch
    (let ultimo_palpite :=
       match pg with
       | Some g => ultimo_pred g
       | None => None
       end in
     chama_atualizar env ;;
     st <- get ;;
     let ultimos := ultimos_10 (resultados st) in
     let tendencia := tendencia (resultados st) in
     (if max_gales <=? contagem_gales st then
        atribui (set_modo_defensivo true) ;;
        atribui (set_contagem_gales 0) ;;
        regista INFO "Ativando modo defensivo - limite de gales atingido" None
      else ret tt) ;;
     st <- get ;;
     palpite <- Py.lift (escolha ultimo_palpite ultimos tendencia m (modo_defensivo st)) ;;
     ret (palpite, contagem_gales st, modo_defensivo st))
    (fun e =>
       regista ERROR "Erro na estratégia de alta assertividade" (Some e) ;;
       st <- get ;;
       match pg with
       | Some g =>
         palpite <- Py.lift (generate_intelligent_prediction g) ;;
         ret (palpite, contagem_gales st, modo_defensivo st)
       | None =>
         regista WARNING "Usando estratégia de fallback de emergência" None ;;
         palpite <- Py.lift (choice [laranja_e_azul; laranja_e_vermelho] (random_choice m)) ;;
         ret (palpite, contagem_gales st, modo_defensivo st)
       end).

(** Lines 907-911. *)
Definition gerar_palpite := estrategia_alta_assertividade.

(* ================================================================== *)
(** ** The posting loop (main.py, 913-1330) *)
(* ================================================================== *)

(** Lines 277-289. *)
Definition resultado_mapa : list (string * list (string * bool)) :=
  [(azul,     [(so_azul, true); (so_laranja, false); (so_vermelho, false);
               (laranja_e_azul, true); (laranja_e_vermelho, false);
               (azul_e_vermelho, true)]);
   (vermelho, [(so_azul, false); (so_laranja, false); (so_vermelho, true);
               (laranja_e_azul, false); (laranja_e_vermelho, true);
               (azul_e_vermelho, true)]);
   (laranja,  [(so_azul, false); (so_laranja, true); (so_vermelho, false);
               (laranja_e_azul, true); (laranja_e_vermelho, true);
               (azul_e_vermelho, false)])].

(** The outside world during one pass of the loop body: clock, Telegram,
    the two collaborators' inputs for each of their calls, and the
    generator. *)
Record Entradas : Type := {
  agora : Q;
  envia_placar : ChatId -> bool;
  envia_reinicio : ChatId -> bool;
  prediction_generator : option PredictionGenerator;
  rede_palpite : Rede;
  momento_palpite : Momento;
  rede_resultado : Rede;
  random_random : float;
  rede_bonus : Rede;
  momento_bonus : Momento;
  envia_palpite : ChatId -> SendResult;
  reenvia_palpite : ChatId -> SendResult;
  PRIMEIRO_USUARIO_ID : option Z;
  envia_direto : SendResult;
  envia_espera : bool;
  apaga_espera : bool
}.

(** Lines 956-967. *)
Fixpoint placar_canais (e : Entradas) (p : Placar) (canais : list ChatId) : Loop unit :=
  match canais with
  | [] => ret tt
  | canal_id :: rest =>
    if envia_placar e canal_id then
      Py.emit (EPlacar canal_id p) ;;
      Py.emit (EDorme 30)
    else
      regista ERROR "Erro ao enviar placar para o canal" None ;;
      placar_canais e p rest
  end.

(** Lines 929-970. *)
Definition placar_periodico (e : Entradas) : Loop unit :=
  st <- get ;;
  let tempo_passado := (agora e - ultimo_placar st)%Q in
  if Qle_bool 600 tempo_passado then
    placar_canais e (placar st) (canal_ids st) ;;
    atribui (set_ultimo_placar (agora e))
  else ret tt.

(** Lines 990-996. *)
Fixpoint reinicio_canais (e : Entradas) (a : Antigos) (canais : list ChatId) : Loop unit :=
  match canais with
  | [] => ret tt
  | canal_id :: rest =>
    if envia_reinicio e canal_id then Py.emit (EReinicio canal_id a)
    else
      regista ERROR "Erro ao enviar mensagem de reinício para o canal" None ;;
      reinicio_canais e a rest
  end.

(** Reading a local of [enviar_palpite]. *)
Definition le_local {A : Type} (nome : string) (v : option A) : Loop A :=
  match v with
  | Some a => ret a
  | None => raise (Py.UnboundLocalError nome)
  end.

(** Line 974, the pair of thresholds. *)
Definition limite_atingido (p : Placar) : bool :=
  ((150 <=? acertos p) && (50 <=? erros p) && (0 <? total p))%bool.

(** Lines 974-1016.  The text of [mensagem_reinicio] is built first,
    from the locals [old_acertos] to [old_max_reds]; these are assigned
    only further down, at lines 1000-1004. *)
Definition reinicio_placar (e : Entradas) : Loop unit :=
  st <- get ;;
  let p := placar st in
  if limite_atingido p then
    a <- le_local "old_acertos" (antigos st) ;;
    (if old_total a =? 0 then raise Py.ZeroDivisionError else ret tt) ;;
    catch
      (reinicio_canais e a (canal_ids st) ;;
       atribui (set_antigos (Some {| old_acertos := acertos p;
                                     old_erros := erros p;
                                     old_total := total p;
                                     old_max_greens := max_greens_seguidos p;
                                     old_max_reds := max_reds_seguidos p |})) ;;
       no_placar (set_acertos 0) ;;
       no_placar (set_erros 0) ;;
       no_placar (set_total 0) ;;
       no_placar (set_greens_seguidos 0) ;;
       no_placar (set_reds_seguidos 0) ;;
       no_placar (set_max_greens_seguidos 0) ;;
       no_placar (set_max_reds_seguidos 0) ;;
       regista INFO "Contadores de placar reiniciados com sucesso" None)
      (fun ex => regista ERROR "Erro ao reiniciar o placar" (Some ex))
  else ret tt.

(** [if resultado_real:] holds for a string that is not empty. *)
Definition truthy (resultado_real : option string) : option string :=
  match resultado_real with
  | Some EmptyString => None
  | other => other
  end.

(** Lines 1038-1063: the prediction is scored against the outcome the
    feed reports, or by a draw when it reports none; the value is
    [acertou]. *)
Definition avalia (e : Entradas) (resultado_real : option string) (palpite : string)
  : Loop bool :=
  match truthy resultado_real with
  | Some resultado_real =>
    let acertou := Py.dict_get (Py.dict_get resultado_mapa resultado_real []) palpite false in
    (if acertou then atribui (set_consecutive_errors (Some 0))
     else
       st <- get ;;
       match consecutive_errors st with
       | None => raise (Py.NameError "consecutive_errors")
       | Some n =>
         atribui (set_consecutive_errors (Some (n + 1))) ;;
         if 5 <=? n + 1 then
           no_placar (set_acertos 0) ;;
           no_placar (set_erros 5) ;;
           no_placar (set_total 5) ;;
           atribui (set_consecutive_errors (Some 0))
         else ret tt
       end) ;;
    ret acertou
  | None => ret (PrimFloat.ltb 0.25%float (random_random e))
  end.

(** Lines 1066-1097. *)
Definition acerto (e : Entradas) : Loop (Status * option string) :=
  no_placar (fun p => set_acertos (acertos p + 1) p) ;;
  no_placar (fun p => set_greens_seguidos (greens_seguidos p + 1) p) ;;
  no_placar (set_reds_seguidos 0) ;;
  no_placar (fun p => if max_greens_seguidos p <? greens_seguidos p
                      then set_max_greens_seguidos (greens_seguidos p) p else p) ;;
  atribui (set_contagem_gales 0) ;;
  '(palpite_bonus, _, _) <-
     estrategia_alta_assertividade (prediction_generator e) (rede_bonus e) (momento_bonus e) ;;
  ret (ACERTAMOS, Some palpite_bonus).

(** Lines 1100-1151. *)
Definition erro : Loop (Status * option string) :=
  no_placar (fun p => set_erros (erros p + 1) p) ;;
  no_placar (fun p => set_reds_seguidos (reds_seguidos p + 1) p) ;;
  no_placar (set_greens_seguidos 0) ;;
  no_placar (fun p => if max_reds_seguidos p <? reds_seguidos p
                      then set_max_reds_seguidos (reds_seguidos p) p else p) ;;
  atribui (fun st => set_contagem_gales (contagem_gales st + 1) st) ;;
  st <- get ;;
  if max_gales <=? contagem_gales st then
    atribui (fun st =>
               set_PADRAO_ATUAL
                 (if String.eqb (PADRAO_ATUAL st) "COMBINAÇÃO" then "ALTERNADO"
                  else if String.eqb (PADRAO_ATUAL st) "ALTERNADO" then "REPETIDO"
                  else "COMBINAÇÃO") st) ;;
    atribui (set_contagem_gales 0) ;;
    ret (ERRAMOS_ADAPTANDO, None)
  else
    atribui (fun st => set_contagem_gales (contagem_gales st + 1) st) ;;
    ret (ERRAMOS, None).

(** Lines 1154-1157. *)
Definition taxa_de (greens_seguidos : Z) : Q :=
  let taxa_base := 50%Q in
  let bonus_taxa := Qmin (inject_Z (greens_seguidos * 2)) 49 in
  (taxa_base + bonus_taxa)%Q.

(** Lines 1153-1172. *)
Definition compoe (status : Status) (palpite : string) (bonus : option string)
  : Loop Mensagem :=
  st <- get ;;
  let taxa := taxa_de (greens_seguidos (placar st)) in
  ret {| m_status := status;
         m_palpite := palpite;
         m_bonus := bonus;
         m_modo_indicador := modo_defensivo st;
         m_acertos := acertos (placar st);
         m_erros := erros (placar st);
         m_taxa := taxa |}.

(** Lines 1221-1227, the wait before the second try. *)
Definition tempo_espera (erro_str : string) : Py.Res Q :=
  piece <- Py.item (Py.split "retry after " erro_str) 1 ;;
  tempo_espera <- Py.int piece ;;
  Py.time_sleep (tempo_espera + 2).

(** Lines 1177-1248.  The test [if success: break] opens the body, so
    the loop variable has moved on when the loop is left that way; the
    value is [success] with the last binding of [canal_id]. *)
Fixpoint envia_canais (e : Entradas) (mensagem : Mensagem) (canais : list ChatId)
         (success : bool) (canal_id : option ChatId) : Loop (bool * option ChatId) :=
  match canais with
  | [] => ret (success, canal_id)
  | c :: rest =>
    if success then ret (success, Some c)
    else
      match envia_palpite e c with
      | SendOk _ =>
        Py.emit (EPalpite c false mensagem) ;;
        atribui (set_canal_ids [c]) ;;
        envia_canais e mensagem rest true (Some c)
      | SendErr erro_str =>
        regista ERROR "Erro ao enviar para o canal" None ;;
        if Py.contains "Too Many Requests: retry after" erro_str then
          match tempo_espera erro_str with
          | Py.Ok slept =>
            Py.emit (EDorme slept) ;;
            match reenvia_palpite e c with
            | SendOk _ =>
              Py.emit (EPalpite c false mensagem) ;;
              atribui (set_canal_ids [c]) ;;
              envia_canais e mensagem rest true (Some c)
            | SendErr _ =>
              regista ERROR "Erro ao retentar envio" None ;;
              envia_canais e mensagem rest false (Some c)
            end
          | Py.Raise parse_err =>
            regista ERROR "Erro ao extrair tempo de espera" (Some parse_err) ;;
            envia_canais e mensagem rest false (Some c)
          end
        else envia_canais e mensagem rest false (Some c)
      end
  end.

(** Lines 1251-1294. *)
Definition envia_usuario (e : Entradas) (mensagem : Mensagem) : Loop unit :=
  regista ERROR "Não foi possível enviar para nenhum canal" None ;;
  match PRIMEIRO_USUARIO_ID e with
  | Some user_id =>
    match envia_direto e with
    | SendOk _ => Py.emit (EPalpite (ChatInt user_id) true mensagem)
    | SendErr _ => regista ERROR "Erro ao enviar mensagem direta para o usuário" None
    end
  | None => regista ERROR "Nenhum usuário registrado para envio direto" None
  end.

(** Lines 1297-1327. *)
Definition espera (e : Entradas) (canal_id : option ChatId) : Loop unit :=
  catch
    (canal_id <- le_local "canal_id" canal_id ;;
     if envia_espera e then
       Py.emit (EEspera canal_id) ;;
       Py.emit (EDorme 20) ;;
       (if apaga_espera e then Py.emit (EApaga canal_id)
        else regista ERROR "Erro ao apagar mensagem temporária" None) ;;
       Py.emit (EDorme 5)
     else raise Py.RequestException)
    (fun ex =>
       regista ERROR "Erro ao enviar mensagem temporária" (Some ex) ;;
       Py.emit (EDorme 25)).

(** Lines 929-1028: scoreboard, restart of the counters, and the pick
    for this pass. *)
Definition preparo (e : Entradas) : Loop string :=
  placar_periodico e ;;
  reinicio_placar e ;;
  '(palpite, gales, modo_def) <-
     gerar_palpite (prediction_generator e) (rede_palpite e) (momento_palpite e) ;;
  ret palpite.

(** Lines 1038-1172: the scoring step, from [resultado_real] to the
    message. *)
Definition pontuacao (e : Entradas) (resultado_real : option string) (palpite : string)
  : Loop Mensagem :=
  acertou <- avalia e resultado_real palpite ;;
  '(status, bonus) <- (if acertou : bool then acerto e else erro) ;;
  compoe status palpite bonus.

(** Lines 1174-1327: the message goes out. *)
Definition entrega (e : Entradas) (mensagem : Mensagem) : Loop unit :=
  atribui (set_canal_ids [CANAL_ID; CANAL_ID_ALT; CANAL_HANDLE]) ;;
  '(success, canal_id) <-
     envia_canais e mensagem [CANAL_ID; CANAL_ID_ALT; CANAL_HANDLE] false None ;;
  (if success : bool then ret tt else envia_usuario e mensagem) ;;
  espera e canal_id.

(** Lines 928-1327, the body of the outer [try]. *)
Definition corpo (e : Entradas) : Loop unit :=
  palpite <- preparo e ;;
  no_placar (fun p => set_total (total p + 1) p) ;;
  dados_elephant <- chama_atualizar (rede_resultado e) ;;
  mensagem <- pontuacao e (resultado_atual dados_elephant) palpite ;;
  entrega e mensagem.

(** Lines 927-1330: one pass of [while bot_monitor.running]. *)
Definition passo (e : Entradas) : Loop unit :=
  catch (corpo e)
    (fun ex =>
       regista ERROR "Erro ao enviar palpite" (Some ex) ;;
       Py.emit (EDorme 30)).

(** The loop, for as many passes as the world lets it run. *)
Fixpoint enviar_palpite (es : list Entradas) : Loop unit :=
  match es with
  | [] => ret tt
  | e :: rest => passo e ;; enviar_palpite rest
  end.

(** The prediction messages a trace posts. *)
Fixpoint palpites (tr : list Evento) : list Mensagem :=
  match tr with
  | [] => []
  | EPalpite _ _ m :: rest => m :: palpites rest
  | _ :: rest => palpites rest
  end.

(* ================================================================== *)
(** ** The activity monitor (main.py, 47-118) *)
(* ================================================================== *)

(** The attributes of [BotMonitor].  The queue of errors is kept with
    its oldest entry first.  Clock readings are rationals, as in the
    feed. *)
Record BotMonitor : Type := {
  last_activity : Q;
  max_silence : Q;
  restart_count : Z;
  restart_limit : Z;
  restart_times : list Q;
  running : bool;
  error_queue : list string;
  admin_chat_ids : list Z
}.

Definition set_last_activity (v : Q) (m : BotMonitor) : BotMonitor :=
  {| last_activity := v; max_silence := max_silence m;
     restart_count := restart_count m; restart_limit := restart_limit m;
     restart_times := restart_times m; running := running m;
     error_queue := error_queue m; admin_chat_ids := admin_chat_ids m |}.

Definition set_restart_count (v : Z) (m : BotMonitor) : BotMonitor :=
  {| last_activity := last_activity m; max_silence := max_silence m;
     restart_count := v; restart_limit := restart_limit m;
     restart_times := restart_times m; running := running m;
     error_queue := error_queue m; admin_chat_ids := admin_chat_ids m |}.

Definition set_restart_times (v : list Q) (m : BotMonitor) : BotMonitor :=
  {| last_activity := last_activity m; max_silence := max_silence m;
     restart_count := restart_count m; restart_limit := restart_limit m;
     restart_times := v; running := running m;
     error_queue := error_queue m; admin_chat_ids := admin_chat_ids m |}.

Definition set_running (v : bool) (m : BotMonitor) : BotMonitor :=
  {| last_activity := last_activity m; max_silence := max_silence m;
     restart_count := restart_count m; restart_limit := restart_limit m;
     restart_times := restart_times m; running := v;
     error_queue := error_queue m; admin_chat_ids := admin_chat_ids m |}.

Definition set_error_queue (v : list string) (m : BotMonitor) : BotMonitor :=
  {| last_activity := last_activity m; max_silence := max_silence m;
     restart_count := restart_count m; restart_limit := restart_limit m;
     restart_times := restart_times m; running := running m;
     error_queue := v; admin_chat_ids := admin_chat_ids m |}.

Definition set_admin_chat_ids (v : list Z) (m : BotMonitor) : BotMonitor :=
  {| last_activity := last_activity m; max_silence := max_silence m;
     restart_count := restart_count m; restart_limit := restart_limit m;
     restart_times := restart_times m; running := running m;
     error_queue := error_queue m; admin_chat_ids := v |}.

(** What the monitor writes to the log: the fixed part of the text and
    the value it reports. *)
Inductive MonLog : Type :=
| LogInicializado
| LogErroCritico (error : string)
| LogAdministrador (chat_id : Z).

(** A method of the monitor: it works on the attributes and may log. *)
Definition Mon : Type -> Type := Py.Prog BotMonitor MonLog.

Definition muda (f : BotMonitor -> BotMonitor) : Mon unit :=
  self <- get ;; put (f self).

(** Lines 49-65; [now] is what [time.time()] returns. *)
Definition BotMonitor_init (now : Q) (max_silence : Q) (restart_limit : Z)
  : BotMonitor * list MonLog :=
  ({| last_activity := now;
      max_silence := max_silence;
      restart_count := 0;
      restart_limit := restart_limit;
      restart_times := [];
      running := true;
      error_queue := [];
      admin_chat_ids := [] |},
   [LogInicializado]).

(** Line 118, with the defaults of the signature. *)
Definition bot_monitor_inicial (now : Q) : BotMonitor :=
  fst (BotMonitor_init now 60 5).

(** Lines 67-69. *)
Definition register_activity (now : Q) : Mon unit :=
  muda (set_last_activity now).

(** Lines 71-74. *)
Definition check_activity (now : Q) : Mon bool :=
  self <- get ;;
  let time_since_last := (now - last_activity self)%Q in
  ret (Qle_bool time_since_last (max_silence self)).

(** Lines 76-81. *)
Definition can_restart (now : Q) : Mon bool :=
  self <- get ;;
  muda (set_restart_times (filter (fun t => Qltb (now - t) 3600) (restart_times self))) ;;
  self <- get ;;
  ret (Z.of_nat (List.length (restart_times self)) <? restart_limit self).

(** Lines 83-86. *)
Definition register_restart (now : Q) : Mon unit :=
  self <- get ;;
  muda (set_restart_times (restart_times self ++ [now])) ;;
  self <- get ;;
  muda (set_restart_count (restart_count self + 1)).

(** Lines 88-90. *)
Definition report_error (error : string) : Mon unit :=
  self <- get ;;
  muda (set_error_queue (error_queue self ++ [error])).

(** Lines 92-96: [while not self.error_queue.empty()], on a queue that
    holds [pendentes]. *)
Fixpoint esvazia (pendentes : list string) : Mon unit :=
  match pendentes with
  | [] => ret tt
  | error :: resto =>
    muda (set_error_queue resto) ;;
    Py.emit (LogErroCritico error) ;;
    esvazia resto
  end.

Definition process_errors : Mon unit :=
  self <- get ;;
  esvazia (error_queue self).

(** [x in l] on a list of integers. *)
Definition mem_Z (x : Z) (l : list Z) : bool := existsb (Z.eqb x) l.

(** Lines 98-102. *)
Definition register_admin (chat_id : Z) : Mon unit :=
  self <- get ;;
  if negb (mem_Z chat_id (admin_chat_ids self)) then
    muda (set_admin_chat_ids (admin_chat_ids self ++ [chat_id])) ;;
    Py.emit (LogAdministrador chat_id)
  else ret tt.

(** [divmod(x, y)] for a positive [y]: the floor of the quotient and
    what is left. *)
Definition divmod (x y : Q) : Q * Q :=
  let q := inject_Z (Qfloor (x / y)) in
  (q, (x - y * q)%Q).

(** The dictionary of lines 110-115.  The text of [uptime] is kept by
    the three integers it shows, and that of [last_activity] by the
    clock reading it formats. *)
Record StatusReport : Type := {
  uptime : Z * Z * Z;
  sr_restart_count : Z;
  active : bool;
  sr_last_activity : Q
}.

(** Lines 104-115; [now] and [now'] are the two readings of the clock,
    the second one by [check_activity]. *)
Definition get_status_report (now now' : Q) : Mon StatusReport :=
  self <- get ;;
  let uptime := (now - last_activity self)%Q in
  let '(hours, remainder) := divmod uptime 3600 in
  let '(minutes, seconds) := divmod remainder 60 in
  ativo <- check_activity now' ;;
  ret {| uptime := (int_of_time hours, int_of_time minutes, int_of_time seconds);
         sr_restart_count := restart_count self;
         active := ativo;
         sr_last_activity := last_activity self |}.

(* ================================================================== *)
(** ** The polling loop of [main] (main.py, 2103-2157) *)
(* ================================================================== *)

(** An exception that [bot.polling] raises: its text, and whether its
    class is one of the three connection errors of line 2132. *)
Record ErroPolling : Type := {
  ep_texto : string;
  ep_conexao : bool
}.

(** The outside world during one pass of the loop: what [bot.polling]
    does ([None] when it returns) and whether [bot.get_me()] goes
    through afterwards. *)
Record Volta : Type := {
  v_polling : option ErroPolling;
  v_get_me : bool
}.








(** How the loop leaves the function: by returning, or through
    [sys.exit(1)]. *)
Inductive Fim : Type :=
| Regressa
| Exit1.


(* ================================================================== *)
(** ** The restart loop of the script (main.py, 2160-2215) *)
(* ================================================================== *)

(** How a call of [main()] ends: it returns, it is left through
    [KeyboardInterrupt] or [SystemExit] (as by the [sys.exit(1)] of its
    polling loop), or it raises an [Exception]. *)
Inductive FimMain : Type :=
| MainRegressa
| MainSaida
| MainErro (texto : string).


(** The outside world during one pass of the restart loop: how [main()]
    ends, and whether the note to the administrator goes through. *)
Record Arranque : Type := {
  ar_main : FimMain;
  ar_notifica : bool
}.

Inductive LogArranque : Type :=
| LogFlaskIndisponivel
| LogIniciando
| LogEncerradoManualmente
| LogErroFatal (retry_count : Z) (texto : string)
| LogReiniciarEm (retry_delay : Q)
| LogTentativasExcedidas
| LogWatchdog.

Inductive EvArranque : Type :=
| GLog (l : LogArranque)
| GMain
| GNotifica (admin_id : Z) (texto : string) (retry_count : Z) (ok : bool)
| GDorme (secs : Q).

Definition max_retry : Z := 10.

(** Lines 2175-2203, with [restantes] passes left before [retry_count]
    reaches [max_retry]; the value is [retry_count] when the loop is
    left, after the trace.  [mundo k] is the world of the pass numbered
    [k]. *)
Fixpoint ciclo_arranque (restantes : nat) (mundo : nat -> Arranque) (k : nat) (retry_delay : Q)
  : list EvArranque * Z :=
  let retry_count := max_retry - Z.of_nat restantes in
  match restantes with
  | O => ([], retry_count)
  | S r =>
    match ar_main (mundo k) with
    | MainRegressa => ([GMain], retry_count)
    | MainSaida => ([GMain; GLog LogEncerradoManualmente], retry_count)
    | MainErro e =>
      let retry_count := retry_count + 1 in
      let '(tr, fim) := ciclo_arranque r mundo (S k) (Qmin (retry_delay * 1.5) 300) in
      ([GMain;
        GLog (LogErroFatal retry_count e);
        GLog (LogReiniciarEm retry_delay);
        GNotifica 6515136130 e retry_count (ar_notifica (mundo k));
        GDorme retry_delay] ++ tr,
       fim)
    end
  end.

(** Lines 2160-2215: the script when it is run as a program.  [flask]
    tells whether the import of line 2163 works. *)
Definition script (flask : bool) (mundo : nat -> Arranque) : list EvArranque * Fim :=
  let '(tr, retry_count) := ciclo_arranque 10 mundo 0 30 in
  ((if flask then [] else [GLog LogFlaskIndisponivel])
     ++ [GLog LogIniciando] ++ tr
     ++ (if max_retry <=? retry_count
         then [GLog LogTentativasExcedidas; GLog LogWatchdog]
         else []),
   if max_retry <=? retry_count then Exit1 else Regressa).

(* ================================================================== *)
(** ** Reactions to predictions (main.py, 740-754, 1719-1800, 1877-1915) *)
(* ================================================================== *)

(** Lines 741-750. *)
Definition REACTION_EMOJIS : list (string * string) :=
  [("like", "👍"); ("love", "❤️"); ("fire", "🔥"); ("thinking", "🤔"); ("sad", "😢"); ("angry", "😡"); ("money", "💰"); ("lucky", "🍀")].

(** What a name bound to a prediction can hold: the label, or the
    triple that the picker returns. *)
Inductive Valor : Type :=
| VStr (s : string)
| VTuplo (palpite : string) (gales : Z) (defesa : bool).

(** One entry of [prediction_messages]: the prediction and the count of
    each reaction, in the order of insertion. *)
Record Previsao : Type := {
  prediction : Valor;
  reactions : list (string * Z)
}.

(** The dictionary [prediction_messages], by message id, in the order of
    insertion. *)
Definition Mensagens : Type := list (Z * Previsao).

(** [{emoji: 0 for emoji in REACTION_EMOJIS.values()}]. *)
Definition reacoes_zero : list (string * Z) :=
  map (fun kv => (snd kv, 0)) REACTION_EMOJIS.

(** [message_id in prediction_messages]. *)
Definition tem_mensagem (message_id : Z) (d : Mensagens) : bool :=
  existsb (fun kv => fst kv =? message_id) d.

(** [d[k]] on a dictionary with keys that are strings. *)
Fixpoint dict_item {V : Type} (d : list (string * V)) (key : string) : Py.Res V :=
  match d with
  | [] => Py.Raise Py.KeyError
  | (k, v) :: d' => if String.eqb k key then Py.Ok v else dict_item d' key
  end.

(** [d.get(k)], which is [None] for a key that is missing. *)
Fixpoint dict_get_opt {V : Type} (d : list (string * V)) (key : string) : option V :=
  match d with
  | [] => None
  | (k, v) :: d' => if String.eqb k key then Some v else dict_get_opt d' key
  end.

(** [d[k] += 1]. *)
Fixpoint soma_um (d : list (string * Z)) (key : string) : Py.Res (list (string * Z)) :=
  match d with
  | [] => Py.Raise Py.KeyError
  | (k, v) :: d' =>
    if String.eqb k key then Py.Ok ((k, v + 1) :: d')
    else d'' <- soma_um d' key ;; ret ((k, v) :: d'')
  end.

(** [prediction_messages[message_id]["reactions"][emoji] += 1], for a
    message that is in the dictionary. *)
Fixpoint reage (d : Mensagens) (message_id : Z) (emoji : string) : Py.Res Mensagens :=
  match d with
  | [] => Py.Raise Py.KeyError
  | (k, v) :: d' =>
    if k =? message_id then
      r <- soma_um (reactions v) emoji ;;
      ret ((k, {| prediction := prediction v; reactions := r |}) :: d')
    else d'' <- reage d' message_id emoji ;; ret ((k, v) :: d'')
  end.

(** [prediction_messages[message_id]["reactions"]]. *)
Fixpoint reacoes_de (d : Mensagens) (message_id : Z) : Py.Res (list (string * Z)) :=
  match d with
  | [] => Py.Raise Py.KeyError
  | (k, v) :: d' => if k =? message_id then Py.Ok (reactions v) else reacoes_de d' message_id
  end.

(** A callback query as [handle_reaction] reads it, and what Telegram
    does with the two calls the handler may make. *)
Record Callback : Type := {
  cb_id : string;
  cb_message_id : Z;
  cb_chat_id : Z;
  cb_data : string;
  cb_text : string;
  cb_responde : bool;
  cb_edita : bool
}.

(** What the handler of reactions does towards Telegram and the log.
    The text of the edited message is built from the text the message
    had and from the counts above zero; it is kept by these two. *)
Inductive EvReacao : Type :=
| RResponde (callback_id : string) (emoji : string) (count : Z)
| RIndisponivel (callback_id : string)
| REdita (chat_id message_id : Z) (current_text : string) (positivas : list (string * Z))
| RLogEdicao.

(** Lines 1750-1754: the reactions with a count above zero. *)
Definition positivas (r : list (string * Z)) : list (string * Z) :=
  filter (fun ec => 0 <? snd ec) r.

(** Lines 1721-1800.  A call of Telegram that fails raises; only the
    edit of the message is guarded. *)
Definition handle_reaction (call : Callback) : Py.Prog Mensagens EvReacao unit :=
  reaction_type <- Py.lift (Py.item (Py.split "_" (cb_data call)) 1) ;;
  prediction_messages <- get ;;
  if tem_mensagem (cb_message_id call) prediction_messages then
    match dict_get_opt REACTION_EMOJIS reaction_type with
    | Some emoji =>
      if String.eqb emoji "" then ret tt
      else
        novo <- Py.lift (reage prediction_messages (cb_message_id call) emoji) ;;
        put novo ;;
        r <- Py.lift (reacoes_de novo (cb_message_id call)) ;;
        count <- Py.lift (dict_item r emoji) ;;
        (if cb_responde call then Py.emit (RResponde (cb_id call) emoji count)
         else raise Py.RequestException) ;;
        if cb_edita call then
          Py.emit (REdita (cb_chat_id call) (cb_message_id call) (cb_text call) (positivas r))
        else Py.emit RLogEdicao
    | None => ret tt
    end
  else
    if cb_responde call then Py.emit (RIndisponivel (cb_id call))
    else raise Py.RequestException.

(** [all_reactions[emoji] += count], after the key has been entered with
    0 when it was missing. *)
Fixpoint soma_em (all_reactions : list (string * Z)) (emoji : string) (count : Z)
  : list (string * Z) :=
  match all_reactions with
  | [] => [(emoji, 0 + count)]
  | (k, v) :: resto =>
    if String.eqb k emoji then (k, v + count) :: resto
    else (k, v) :: soma_em resto emoji count
  end.

(** Lines 1893-1898. *)
Definition soma_reacoes (prediction_messages : Mensagens) : list (string * Z) :=
  fold_left
    (fun all_reactions kv =>
       fold_left (fun all_reactions ec => soma_em all_reactions (fst ec) (snd ec))
                 (reactions (snd kv)) all_reactions)
    prediction_messages [].

(** Where [x] goes in a list that is sorted by falling count, behind the
    entries with a larger count. *)
Fixpoint insere (x : string * Z) (l : list (string * Z)) : list (string * Z) :=
  match l with
  | [] => [x]
  | y :: resto => if snd x <? snd y then y :: insere x resto else x :: y :: resto
  end.

(** [sorted(items, key=lambda x: x[1], reverse=True)]: by falling
    count, entries of equal count in the order they had. *)
Definition sorted_reverse (l : list (string * Z)) : list (string * Z) :=
  fold_right insere [] l.

(** The three texts of [reactions_cmd]; the statistics by their lines. *)
Inductive TextoReacoes : Type :=
| TSemPalpites
| TSemReacoes
| TEstatisticas (linhas : list (string * Z)).

(** Lines 1888-1913: the text that [reactions_cmd] answers with. *)
Definition texto_reacoes (prediction_messages : Mensagens) : TextoReacoes :=
  match prediction_messages with
  | [] => TSemPalpites
  | _ =>
    let all_reactions := soma_reacoes prediction_messages in
    match all_reactions with
    | [] => TSemReacoes
    | _ =>
      if fold_left Z.add (map snd all_reactions) 0 =? 0 then TSemReacoes
      else
        let sorted_reactions := sorted_reverse all_reactions in
        TEstatisticas (filter (fun ec => 0 <? snd ec) sorted_reactions)
    end
  end.

(* ================================================================== *)
(** ** Commands (main.py, 756-905, 1332-1379, 1428-1518, 1547-1648,
       1877-1915) *)
(* ================================================================== *)

(** The globals the commands share with the posting loop and with each
    other. *)
Record Mundo : Type := {
  estado : Estado;
  bot_monitor : BotMonitor;
  primeiro_usuario_id : option Z;
  prediction_messages : Mensagens
}.

Definition set_estado (v : Estado) (w : Mundo) : Mundo :=
  {| estado := v; bot_monitor := bot_monitor w;
     primeiro_usuario_id := primeiro_usuario_id w;
     prediction_messages := prediction_messages w |}.

Definition set_bot_monitor (v : BotMonitor) (w : Mundo) : Mundo :=
  {| estado := estado w; bot_monitor := v;
     primeiro_usuario_id := primeiro_usuario_id w;
     prediction_messages := prediction_messages w |}.

Definition set_primeiro_usuario_id (v : option Z) (w : Mundo) : Mundo :=
  {| estado := estado w; bot_monitor := bot_monitor w;
     primeiro_usuario_id := v;
     prediction_messages := prediction_messages w |}.

Definition set_prediction_messages (v : Mensagens) (w : Mundo) : Mundo :=
  {| estado := estado w; bot_monitor := bot_monitor w;
     primeiro_usuario_id := primeiro_usuario_id w;
     prediction_messages := v |}.

(** [psutil], as [status_cmd] reads it. *)
Record Recursos : Type := {
  cpu_percent : Q;
  memoria_mb : Q;
  threads : Z
}.

(** The texts the commands send, each by the values its template
    interpolates. *)
Inductive Texto : Type :=
| TBoasVindas (username : string)
| TBoasVindasSimples
| TStatus (total acertos erros : Z) (taxa : Q) (greens_seguidos : Z)
          (relatorio : StatusReport) (recursos : option Recursos)
| TStatusVazio (recursos : option Recursos)
| TRegistadoParaAlertas
| TAnalisando
| TQuadro (frame : string)
| TCalculando (percentagem : option Z)
| TGerandoFinal
| TPalpiteGerado (palpite : string) (info_adicional : bool * option Z)
| TProblema
| TPalpiteEmergencia (palpite : string)
| TPersonalizado (acertou : bool) (palpite : Valor) (bonus : option Valor) (hora : string)
| TErroPalpite (e : Py.Exc)
| TReacoes (t : TextoReacoes).

(** What a command does that can be seen from outside: the calls of
    Telegram with their outcome, the waits, the threads it starts, and
    what it and its collaborators log. *)
Inductive Acao : Type :=
| AEnvia (chat_id : Z) (t : Texto) (ok : bool)
| AEdita (chat_id message_id : Z) (t : Texto) (ok : bool)
| AApaga (chat_id message_id : Z) (ok : bool)
| ADorme (secs : Q)
| AThread (user_id : Z)
| ALog (r : LogRec)
| APicker (ev : Evento)
| AMonitor (l : MonLog).

Definition Cmd : Type -> Type := Py.Prog Mundo Acao.

(** A call of the picker or of the feed: it works on their globals. *)
Definition no_estado {A : Type} (c : Loop A) : Cmd A :=
  fun w => match c (estado w) with
           | (r, st', tr) => (r, set_estado st' w, map APicker tr)
           end.

(** A call of a method of [bot_monitor]. *)
Definition no_bot_monitor {A : Type} (c : Mon A) : Cmd A :=
  fun w => match c (bot_monitor w) with
           | (r, self', tr) => (r, set_bot_monitor self' w, map AMonitor tr)
           end.

Definition anota (n : Nivel) (t : string) (c : option Py.Exc) : Cmd unit :=
  Py.emit (ALog {| nivel := n; texto := t; causa := c |}).

Definition altera (f : Mundo -> Mundo) : Cmd unit :=
  w <- get ;; put (f w).

(** [bot.send_message(chat_id, ...)]: the message Telegram returns, or
    the exception it raises. *)
Definition envia (chat_id : Z) (t : Texto) (r : SendResult) : Cmd Message :=
  match r with
  | SendOk m => Py.emit (AEnvia chat_id t true) ;; ret m
  | SendErr _ => Py.emit (AEnvia chat_id t false) ;; raise Py.RequestException
  end.

Definition dorme (secs : Q) : Cmd unit := Py.emit (ADorme secs).

(** *** /start (lines 1332-1378) *)

(** [msg.from_user.username or "usuário"]. *)
Definition nome_de (username : option string) : string :=
  match username with
  | Some (String c s) => String c s
  | _ => "usuário"
  end.

(** Lines 1334-1378.  [boas_vindas] and [simples] are what Telegram does
    with the welcome and with the plain text sent when the welcome
    failed. *)
Definition start_cmd (user_id : Z) (username : option string)
           (boas_vindas simples : SendResult) : Cmd unit :=
  let username := nome_de username in
  w <- get ;;
  match primeiro_usuario_id w with
  | None =>
    altera (set_primeiro_usuario_id (Some user_id)) ;;
    anota INFO "Primeiro usuário registrado" None
  | Some _ => ret tt
  end ;;
  catch
    (envia user_id (TBoasVindas username) boas_vindas ;;
     Py.emit (AThread user_id) ;;
     anota INFO "Iniciando envio de palpites automáticos para o usuário" None)
    (fun e =>
       anota ERROR "Erro ao enviar mensagem de boas-vindas" (Some e) ;;
       envia user_id TBoasVindasSimples simples ;;
       ret tt).

(** *** /status (lines 1428-1518) *)

(** The outside world during one call of [status_cmd]: the three
    readings of the clock, [psutil], and Telegram. *)
Record MundoStatus : Type := {
  ms_agora : Q;
  ms_agora_relatorio : Q;
  ms_agora_atividade : Q;
  ms_psutil : Py.Res Recursos;
  ms_envia_status : SendResult;
  ms_envia_registado : SendResult
}.

(** Lines 1430-1518.  The names [greens_seguidos] and
    [max_greens_seguidos] are bound to integers at lines 258 and 260, so
    the tests of lines 1444 and 1449 fail; the rate of lines 1454-1457
    is computed as at lines 1154-1157.  The text sent while no
    prediction has been counted is not an f-string: it shows its
    placeholders as they are written. *)
Definition status_cmd (ms : MundoStatus) (chat_id from_user_id : Z) : Cmd unit :=
  no_bot_monitor (register_activity (ms_agora ms)) ;;
  status_monitor <-
    no_bot_monitor (get_status_report (ms_agora_relatorio ms) (ms_agora_atividade ms)) ;;
  w <- get ;;
  let p := placar (estado w) in
  recursos <-
    match ms_psutil ms with
    | Py.Ok r => ret (Some r)
    | Py.Raise e =>
      anota ERROR "Erro ao obter informações do sistema" (Some e) ;; ret None
    end ;;
  let status_msg :=
    if 0 <? total p then
      TStatus (total p) (acertos p) (erros p) (taxa_de (greens_seguidos p))
              (greens_seguidos p) status_monitor recursos
    else TStatusVazio recursos in
  envia chat_id status_msg (ms_envia_status ms) ;;
  no_bot_monitor (register_admin from_user_id) ;;
  w <- get ;;
  if negb (mem_Z from_user_id (admin_chat_ids (bot_monitor w))) then
    envia chat_id TRegistadoParaAlertas (ms_envia_registado ms) ;; ret tt
  else ret tt.

(** *** The animated pick (lines 756-905) *)

(** The outside world during one call of [gerar_palpite_com_animacao].
    [an_edita k] tells whether the call numbered [k] of
    [update_text_safely] goes through; a failed one is logged at debug
    level only.  [an_pg] is the module [prediction_generator] as the
    picker finds it, and [an_gerador] what the call of
    [generate_intelligent_prediction] at line 848 does. *)
Record Animacao : Type := {
  an_agora : Q;
  an_inicial : SendResult;
  an_direto : bool;
  an_edita : nat -> bool;
  an_apaga : bool;
  an_pg : option PredictionGenerator;
  an_rede : Rede;
  an_momento : Momento;
  an_gerador : Py.Res string;
  an_choice : nat;
  an_problema : SendResult;
  an_choice_emergencia : nat;
  an_emergencia : SendResult
}.

(** Lines 858-863: the warning of the defensive mode, and the gales
    when there are any. *)
Definition info_adicional (defesa : bool) (gales : Z) : bool * option Z :=
  (defesa, if 0 <? gales then Some gales else None).

(** Lines 799-805.  The logger drops what is below INFO (line 29), so
    the failure leaves no record. *)
Definition update_text_safely (a : Animacao) (chat_id message_id : Z) (k : nat) (t : Texto)
  : Cmd bool :=
  Py.emit (AEdita chat_id message_id t (an_edita a k)) ;;
  ret (an_edita a k).

(** Lines 829-857: the pick, with [palpite_result] when line 830 bound
    it. *)
Definition palpite_final (a : Animacao)
  : Cmd (option (string * Z * bool) * (string * Z * bool)) :=
  catch
    (palpite_result <-
       no_estado (estrategia_alta_assertividade (an_pg a) (an_rede a) (an_momento a)) ;;
     anota INFO "Palpite gerado com sucesso" None ;;
     ret (Some palpite_result, palpite_result))
    (fun e =>
       anota ERROR "Erro ao gerar palpite" (Some e) ;;
       match an_pg a with
       | Some _ =>
         palpite <- Py.lift (an_gerador a) ;;
         anota INFO "Usando prediction_generator como fallback" None ;;
         ret (None, (palpite, 0, false))
       | None =>
         palpite <- Py.lift (choice [laranja_e_azul; laranja_e_vermelho] (an_choice a)) ;;
         anota WARNING "Usando palpite de emergência" None ;;
         ret (None, (palpite, 0, false))
       end).

(** Lines 767-881, the body of the outer [try]. *)
Definition animacao (a : Animacao) (chat_id : Z) : Cmd (string * Z * bool) :=
  no_bot_monitor (register_activity (an_agora a)) ;;
  match an_inicial a with
  | SendErr _ =>
    Py.emit (AEnvia chat_id TAnalisando false) ;;
    anota ERROR "Erro ao enviar mensagem inicial" (Some Py.RequestException) ;;
    palpite_fallback <-
      no_estado (estrategia_alta_assertividade (an_pg a) (an_rede a) (an_momento a)) ;;
    let '(palpite_str, _, _) := palpite_fallback in
    Py.emit (AEnvia chat_id (TPalpiteGerado palpite_str (false, None)) (an_direto a)) ;;
    anota WARNING "Usando fallback direto sem animação" None ;;
    ret palpite_fallback
  | SendOk msg =>
    Py.emit (AEnvia chat_id TAnalisando true) ;;
    anota INFO "Iniciando animação de palpite para chat_id" None ;;
    let update := update_text_safely a chat_id (message_id msg) in
    dorme 0.2 ;; update 0%nat (TQuadro "⏳") ;;
    dorme 0.2 ;; update 1%nat (TQuadro "⌛") ;;
    update 2%nat (TCalculando None) ;;
    dorme 0.2 ;;
    dorme 0.2 ;; update 3%nat (TCalculando (Some 50)) ;;
    dorme 0.2 ;; update 4%nat (TCalculando (Some 100)) ;;
    update 5%nat TGerandoFinal ;;
    dorme 0.3 ;;
    '(palpite_result, (palpite, gales, defesa)) <- palpite_final a ;;
    update 6%nat (TPalpiteGerado palpite (info_adicional defesa gales)) ;;
    dorme 1 ;;
    Py.emit (AApaga chat_id (message_id msg) (an_apaga a)) ;;
    match palpite_result with
    | Some r => ret r
    | None => raise (Py.UnboundLocalError "palpite_result")
    end
  end.

(** Lines 883-905, the handler of the outer [try]. *)
Definition protecao_total (a : Animacao) (chat_id : Z) (e : Py.Exc)
  : Cmd (string * Z * bool) :=
  anota ERROR "Erro crítico na geração de palpite com animação" (Some e) ;;
  catch
    (envia chat_id TProblema (an_problema a) ;;
     palpite_emergencia <-
       Py.lift (choice [laranja_e_azul; laranja_e_vermelho] (an_choice_emergencia a)) ;;
     envia chat_id (TPalpiteEmergencia palpite_emergencia) (an_emergencia a) ;;
     anota WARNING "Usando palpite de emergência após falha" None ;;
     ret (palpite_emergencia, 0, false))
    (fun _ => ret (laranja_e_azul, 0, false)).

(** Lines 756-905. *)
Definition gerar_palpite_com_animacao (a : Animacao) (chat_id : Z)
  : Cmd (string * Z * bool) :=
  catch (animacao a chat_id) (protecao_total a chat_id).

(** *** /palpite (lines 1547-1648) *)

(** [x.startswith(prefix)]: a string has the method, a tuple has not. *)
Definition startswith (x : Valor) (prefixo : string) : Py.Res bool :=
  match x with
  | VStr s => Py.Ok (String.prefix prefixo s)
  | VTuplo _ _ _ => Py.Raise Py.AttributeError
  end.

(** Lines 1569-1581. *)
Definition compara (palpite : Valor) (resultado_real : string) : Py.Res bool :=
  b <- startswith palpite (laranja ++ "+" ++ azul)%string ;;
  if b : bool then ret (mem resultado_real [laranja; azul])
  else
    b <- startswith palpite (laranja ++ "+" ++ vermelho)%string ;;
    if b : bool then ret (mem resultado_real [laranja; vermelho])
    else
      b <- startswith palpite laranja ;;
      if b : bool then ret (String.eqb resultado_real laranja)
      else
        b <- startswith palpite azul ;;
        if b : bool then ret (String.eqb resultado_real azul)
        else
          b <- startswith palpite vermelho ;;
          if b : bool then ret (String.eqb resultado_real vermelho)
          else ret false.

(** [d[k] = v] on the dictionary of messages. *)
Fixpoint dict_set (d : Mensagens) (k : Z) (v : Previsao) : Mensagens :=
  match d with
  | [] => [(k, v)]
  | (k', v') :: d' => if k' =? k then (k', v) :: d' else (k', v') :: dict_set d' k v
  end.

(** The outside world during one run of the thread of [palpite_cmd]. *)
Record MundoPalpite : Type := {
  mp_animacao : Animacao;
  mp_rede : Rede;
  mp_random : float;
  mp_pg_bonus : option PredictionGenerator;
  mp_rede_bonus : Rede;
  mp_momento_bonus : Momento;
  mp_hora : string;
  mp_envia : SendResult;
  mp_envia_erro : SendResult
}.

(** Lines 1556-1645, the function the thread runs.  What
    [gerar_palpite_com_animacao] returns, a triple on every path, is
    bound to [palpite] as it is. *)
Definition gerar_palpite_thread (mp : MundoPalpite) (user_id : Z) : Cmd unit :=
  catch
    ('(p, gales, defesa) <- gerar_palpite_com_animacao (mp_animacao mp) user_id ;;
     let palpite := VTuplo p gales defesa in
     dados_elephant <- no_estado (chama_atualizar (mp_rede mp)) ;;
     acertou <-
       match truthy (resultado_atual dados_elephant) with
       | Some resultado_real =>
         acertou <- Py.lift (compara palpite resultado_real) ;;
         anota INFO "Resultado da Elephant Bet" None ;;
         ret acertou
       | None =>
         anota WARNING "Usando fallback para validação de acerto/erro" None ;;
         ret (PrimFloat.ltb 0.25%float (mp_random mp))
       end ;;
     bonus <-
       (if acertou : bool then
          '(b, g, d) <-
             no_estado (estrategia_alta_assertividade (mp_pg_bonus mp) (mp_rede_bonus mp)
                                                      (mp_momento_bonus mp)) ;;
          ret (Some (VTuplo b g d))
        else ret None) ;;
     sent_msg <- envia user_id (TPersonalizado acertou palpite bonus (mp_hora mp))
                       (mp_envia mp) ;;
     w <- get ;;
     altera (set_prediction_messages
               (dict_set (prediction_messages w) (message_id sent_msg)
                         {| prediction := palpite; reactions := reacoes_zero |})))
    (fun e =>
       envia user_id (TErroPalpite e) (mp_envia_erro mp) ;;
       ret tt).

(** *** /reactions (lines 1877-1915) *)

Definition reactions_cmd (now : Q) (user_id : Z) (resposta : SendResult) : Cmd unit :=
  no_bot_monitor (register_activity now) ;;
  w <- get ;;
  envia user_id (TReacoes (texto_reacoes (prediction_messages w))) resposta ;;
  ret tt.

(* ================================================================== *)
(** * Statements: the notions the properties are phrased in *)
(* ================================================================== *)

(** *** Texts of Telegram errors *)

(** Characters of [s] all differ from [c]. *)
Fixpoint sem_char (c : ascii) (s : string) : bool :=
  match s with
  | EmptyString => true
  | String a s' => negb (Ascii.eqb a c) && sem_char c s'
  end.




(** The text of a "chat not found" error: it holds these words in some
    case, and is not a rate-limit answer. *)
Definition chat_not_found (error_msg : string) : bool :=
  negb (Py.contains "Too Many Requests: retry after" error_msg)
  && Py.contains "chat not found" (Py.lower error_msg).


(** *** The feed *)

(** One of the three outcomes. *)
Definition cor_valida (c : string) : Prop :=
  c = vermelho \/ c = azul \/ c = laranja.

(** The cache of line 344 is still fresh. *)
Definition cache_fresco (env : Rede) (global : Resultados) : bool :=
  Qltb (time_time env - ultima_atualizacao global) 10.

(** A source raises, whatever the store. *)
Definition falha {A : Type} (c : Feed A) (e : Py.Exc) : Prop :=
  forall st, exists st' logs, c st = (Py.Raise e, st', logs).

(** What a source that returns hands over: a current outcome and a
    window of one to ten outcomes, each one of the three colours. *)
Definition janela_ok (novo : string) (recent : list string) : Prop :=
  cor_valida novo /\
  (1 <= List.length recent <= 10)%nat /\
  Forall cor_valida recent.

(** The log entries of lines 377 and 418. *)
Definition aviso_api (e : Py.Exc) : LogRec :=
  {| nivel := WARNING; texto := "Falha ao obter dados via API"; causa := Some e |}.

Definition erro_scraping (e : Py.Exc) : LogRec :=
  {| nivel := ERROR; texto := "Falha ao fazer scraping da página"; causa := Some e |}.

(** How often a colour occurs in a window. *)
Definition ocorrencias (c : string) (l : list string) : Z :=
  Z.of_nat (count_occ string_dec l c).

(** [sum(frequencia.values())]. *)
Definition soma_frequencias (frequencia : list (string * float)) : float :=
  fold_left (fun acc kv => (acc + snd kv)%float) frequencia 0%float.

(** Sum of the three frequencies, in the order of the dictionary, of a
    window in which the colours occur [nv], [na] and [nl] times. *)
Definition soma_tres (nv na nl : Z) : float :=
  let t := nv + na + nl in
  soma_frequencias [(vermelho, quociente nv t); (azul, quociente na t);
                    (laranja, quociente nl t)].

(** [x] is 1.0 or the binary64 number just below it,
    0.9999999999999999. *)
Definition um_ou_logo_abaixo (x : float) : bool :=
  PrimFloat.eqb x 1%float || PrimFloat.eqb x 0x1.fffffffffffffp-1%float.

(** The counts a colour can have in a window: 0 to 10. *)
Definition ate_dez : list nat := seq 0 11.

(** The check of [soma_tres] on every three counts that make a window
    of one to ten results. *)
Definition todas_as_somas : bool :=
  forallb (fun nv =>
    forallb (fun na =>
      forallb (fun nl =>
        let t := (nv + na + nl)%nat in
        if ((1 <=? t) && (t <=? 10))%nat
        then um_ou_logo_abaixo (soma_tres (Z.of_nat nv) (Z.of_nat na) (Z.of_nat nl))
        else true) ate_dez) ate_dez) ate_dez.

(** The dictionary that lines 439-467 build from a window. *)
Definition registo (env : Rede) (st : FeedSt) (novo : string) (recent : list string)
  : Resultados :=
  let t := Z.of_nat (List.length recent) in
  let nv := ocorrencias vermelho recent in
  let na := ocorrencias azul recent in
  let nl := ocorrencias laranja recent in
  {| ultimos_10 := recent;
     frequencia := [(vermelho, quociente nv t); (azul, quociente na t);
                    (laranja, quociente nl t)];
     tendencia := max_key (vermelho, nv) [(azul, na); (laranja, nl)];
     ultima_atualizacao := time_time env;
     resultado_atual := Some novo;
     timestamp_rodada := Some (strftime_hms env);
     fonte := Some (if data_in_locals st then "API Elephant Bet"
                    else if soup_in_locals st then "Web Scraping"
                    else "Simulação (Fallback)") |}.

(** *** The loop *)

(** Two stores agree on the score counters and on the names whose
    absence the loop can trip over. *)
Definition mesmo_placar (st st' : Estado) : Prop :=
  placar st' = placar st /\
  consecutive_errors st' = consecutive_errors st /\
  antigos st' = antigos st.

(** The program leaves the counters alone and its trace satisfies [T]. *)
Definition moldura (T : list Evento -> Prop) {A : Type} (c : Loop A) : Prop :=
  forall st, match c st with
             | (_, st', tr) => mesmo_placar st st' /\ T tr
             end.

(** No prediction message is posted along the trace. *)
Definition sem_palpites (tr : list Evento) : Prop := palpites tr = [].

(** Every prediction message posted along the trace is [m]. *)
Definition so_palpite (m : Mensagem) (tr : list Evento) : Prop :=
  forall m', In m' (palpites tr) -> m' = m.

(** A program that posts no prediction and leaves the counters alone. *)
Definition quieto {A : Type} (c : Loop A) : Prop := moldura sem_palpites c.

(** The log entry of line 1329. *)
Definition erro_no_passo (ex : Py.Exc) : Evento :=
  ELog {| nivel := ERROR; texto := "Erro ao enviar palpite"; causa := Some ex |}.

(** The store once the prediction of the pass has been counted
    (line 1030). *)
Definition contado (st : Estado) : Estado :=
  set_placar (set_total (total (placar st) + 1) (placar st)) st.

(** The streak of consecutive hits is not negative. *)
Definition greens_nao_negativo (st : Estado) : Prop :=
  0 <= greens_seguidos (placar st).

(** The stores the loop can be in: the one it starts from, and what a
    pass makes of such a store. *)
Inductive alcancavel : Estado -> Prop :=
| alcancavel_inicio (t : Q) : alcancavel (estado_inicial t)
| alcancavel_passo (st : Estado) (e : Entradas) (r : Py.Res unit) (st' : Estado)
                   (tr : list Evento) :
    alcancavel st -> passo e st = (r, st', tr) -> alcancavel st'.

(** *** Worlds and stores for the examples *)

(** A generator for examples: it answers by the parity of the seed. *)
Definition gerador_par (seed : Z) (i : nat) : float :=
  if Z.even seed then 0.1%float else 0.9%float.

(** A world in which neither network source answers. *)
Definition rede_muda (t : Q) : Rede :=
  {| time_time := t;
     api := ApiRaises Py.RequestException;
     pagina := PaginaRaises Py.RequestException;
     time_seed := t;
     gerador := gerador_par;
     strftime_hms := "12:00:00" |}.

(** A refresh answered by the API with six rounds: one red, four blue,
    one tie. *)
Definition rede_seis_rodadas : Rede :=
  {| time_time := 100;
     api := ApiResponse 200
              (Py.Ok (JObj [("rounds",
                             JArr [JObj [("result", JStr "red")];
                                   JObj [("result", JStr "blue")];
                                   JObj [("result", JStr "blue")];
                                   JObj [("result", JStr "blue")];
                                   JObj [("result", JStr "blue")];
                                   JObj [("result", JStr "orange")]])]));
     pagina := PaginaRaises Py.RequestException;
     time_seed := 100;
     gerador := gerador_par;
     strftime_hms := "12:00:00" |}.

(** A feed for examples: the API answers with the given rounds. *)
Definition rede_api (t : Q) (cores : list string) : Rede :=
  {| time_time := t;
     api := ApiResponse 200
              (Py.Ok (JObj [("rounds",
                             JArr (map (fun c => JObj [("result", JStr c)]) cores))]));
     pagina := PaginaRaises Py.RequestException;
     time_seed := t;
     gerador := gerador_par;
     strftime_hms := "12:00:00" |}.

(** One pass in such a world, at clock reading [t]. *)
Definition entradas_exemplo (t : Q) (hora : Z) (cores : list string) : Entradas :=
  {| agora := t;
     envia_placar := fun _ => true;
     envia_reinicio := fun _ => true;
     prediction_generator := None;
     rede_palpite := rede_api t cores;
     momento_palpite := {| hora_atual := hora; minuto_atual := 5; random_choice := 0 |};
     rede_resultado := rede_api t cores;
     random_random := 0.5%float;
     rede_bonus := rede_api t cores;
     momento_bonus := {| hora_atual := hora; minuto_atual := 5; random_choice := 0 |};
     envia_palpite := fun _ => SendOk {| message_id := 1 |};
     reenvia_palpite := fun _ => SendOk {| message_id := 1 |};
     PRIMEIRO_USUARIO_ID := None;
     envia_direto := SendErr "Forbidden: bot was blocked by the user";
     envia_espera := true;
     apaga_espera := true |}.

(** The counters at the thresholds, as a run of 150 hits and 50 misses
    leaves them. *)
Definition estado_no_limite : Estado :=
  set_placar {| acertos := 150; erros := 50; total := 200;
                greens_seguidos := 3; reds_seguidos := 0;
                max_greens_seguidos := 12; max_reds_seguidos := 4 |}
             (set_consecutive_errors (Some 0) (estado_inicial 0)).

(** A store in which four misses in a row have been scored. *)
Definition estado_quatro_erros : Estado :=
  set_placar {| acertos := 7; erros := 9; total := 16;
                greens_seguidos := 0; reds_seguidos := 4;
                max_greens_seguidos := 3; max_reds_seguidos := 4 |}
             (set_consecutive_errors (Some 4) (estado_inicial 0)).

(** A run of two hundred passes from the start: three hits, then a miss,
    fifty times over. *)
Definition corrida_ate_ao_limite : list Entradas :=
  map (fun i =>
         entradas_exemplo (inject_Z (30 * (Z.of_nat i + 1))) 8
           [if Nat.eqb (Nat.modulo i 4) 3 then "red" else "blue"])
      (seq 0 200).

(** *** The send helper as a whole *)

(** A send that went through. *)
Definition envio_ok (ev : Event) : bool :=
  match ev with
  | EvSend _ _ (SendOk _) => true
  | _ => false
  end.

(** A call of [bot.send_message], whatever its outcome. *)
Definition e_envio (ev : Event) : bool :=
  match ev with
  | EvSend _ _ _ => true
  | _ => false
  end.

(** The number of calls of [bot.send_message] along a trace. *)
Definition envios (tr : list Event) : nat := List.length (filter e_envio tr).

(** No send of the trace went through. *)
Definition sem_sucesso (tr : list Event) : Prop := forallb (fun ev => negb (envio_ok ev)) tr = true.


(** A Telegram that refuses every message with the same text. *)
Definition bot_recusa (error_msg : string) : Bot := fun _ _ => SendErr error_msg.



(** *** The feed: cache, trend and label of the source *)

(** The API answered 200 and its body was decoded, so that line 357 bound
    the local [data]. *)
Definition api_decodificada (env : Rede) : bool :=
  match api env with
  | ApiResponse status_code (Py.Ok _) => status_code =? 200
  | _ => false
  end.

(** The page answered 200, so that line 385 bound the local [soup]. *)
Definition pagina_200 (env : Rede) : bool :=
  match pagina env with
  | PaginaResponse status_code _ => status_code =? 200
  | PaginaRaises _ => false
  end.

(** The first of 🔴, 🔵, 🟠, in this order, among the colours that occur
    most often in a window. *)
Definition mais_frequente (janela : list string) : string :=
  let nv := ocorrencias vermelho janela in
  let na := ocorrencias azul janela in
  let nl := ocorrencias laranja janela in
  if ((na <=? nv) && (nl <=? nv))%bool then vermelho
  else if nl <=? na then azul
  else laranja.

(** A feed whose API answers 200 with a document that holds no round,
    and whose page cannot be fetched. *)
Definition rede_sem_rodadas (t : Q) : Rede :=
  {| time_time := t;
     api := ApiResponse 200 (Py.Ok (JObj [("rounds", JArr [])]));
     pagina := PaginaRaises Py.RequestException;
     time_seed := t;
     gerador := gerador_par;
     strftime_hms := "12:00:00" |}.

(** *** Invariants of the loop *)

(** The program keeps [P] of the store, whether it returns or raises,
    and leaves a trace that satisfies [T]. *)
Definition mantem (P : Estado -> Prop) (T : list Evento -> Prop) {A : Type} (c : Loop A)
  : Prop :=
  forall st, P st -> match c st with
                     | (_, st', tr) => P st' /\ T tr
                     end.

(** Any trace. *)
Definition qualquer (tr : list Evento) : Prop := True.

(** The score counters make sense together: none is negative, neither
    streak exceeds its record, and at most one of the two streaks is
    running. *)
Definition placar_coerente (p : Placar) : Prop :=
  0 <= acertos p /\ 0 <= erros p /\ 0 <= total p /\
  0 <= greens_seguidos p <= max_greens_seguidos p /\
  0 <= reds_seguidos p <= max_reds_seguidos p /\
  (greens_seguidos p = 0 \/ reds_seguidos p = 0).

(** The picker has no reason to turn defensive: no miss is pending and
    the mode is off. *)
Definition sem_defesa (st : Estado) : Prop :=
  contagem_gales st = 0 /\ modo_defensivo st = false.

(** What a message shows when the mode is off and the strategy was changed
    on a miss. *)
Definition mensagem_sem_defesa (m : Mensagem) : Prop :=
  m_modo_indicador m = false /\ m_status m <> ERRAMOS.

(** Every prediction message of the trace satisfies [M]. *)
Definition todo_palpite (M : Mensagem -> Prop) (tr : list Evento) : Prop :=
  forall m, In m (palpites tr) -> M m.

(** The program ends normally with a trace that satisfies [F], or by an
    exception with a trace that satisfies [N]. *)
Definition desfecho (N F : list Evento -> Prop) {A : Type} (c : Loop A) : Prop :=
  forall st, match c st with
             | (Py.Ok _, _, tr) => F tr
             | (Py.Raise _, _, tr) => N tr
             end.

(** The time slept along a trace, in seconds. *)
Fixpoint dormido (tr : list Evento) : Q :=
  match tr with
  | [] => 0
  | EDorme s :: rest => s + dormido rest
  | _ :: rest => dormido rest
  end.

(** The destinations of the prediction messages of a trace, each with
    the mark of a direct message. *)
Fixpoint postagens (tr : list Evento) : list (ChatId * bool) :=
  match tr with
  | [] => []
  | EPalpite destino direto _ :: rest => (destino, direto) :: postagens rest
  | _ :: rest => postagens rest
  end.

(** The scoreboards of a trace, each with the channel it went to. *)
Fixpoint placares (tr : list Evento) : list (ChatId * Placar) :=
  match tr with
  | [] => []
  | EPlacar canal_id p :: rest => (canal_id, p) :: placares rest
  | _ :: rest => placares rest
  end.

(** Lines 1203-1246 for one channel: the message goes through at once,
    or at the second try after a wait that Telegram asked for. *)
Definition canal_aceita (e : Entradas) (c : ChatId) : bool :=
  match envia_palpite e c with
  | SendOk _ => true
  | SendErr erro_str =>
    if Py.contains "Too Many Requests: retry after" erro_str then
      match tempo_espera erro_str, reenvia_palpite e c with
      | Py.Ok _, SendOk _ => true
      | _, _ => false
      end
    else false
  end.

(** The three destinations of line 1176. *)
Definition canais_fixos : list ChatId := [CANAL_ID; CANAL_ID_ALT; CANAL_HANDLE].

(** Lines 1018-1327 with the handler of the pass: what follows the
    scoreboard. *)
Definition depois_do_placar (e : Entradas) : Loop unit :=
  catch
    (reinicio_placar e ;;
     '(palpite, gales, modo_def) <-
        gerar_palpite (prediction_generator e) (rede_palpite e) (momento_palpite e) ;;
     no_placar (fun p => set_total (total p + 1) p) ;;
     dados_elephant <- chama_atualizar (rede_resultado e) ;;
     mensagem <- pontuacao e (resultado_atual dados_elephant) palpite ;;
     entrega e mensagem)
    (fun ex =>
       regista ERROR "Erro ao enviar palpite" (Some ex) ;;
       Py.emit (EDorme 30)).

(** Where a pass may post its prediction: nowhere; in one of the three
    channels, one that accepts it; or, when every channel has refused it,
    in a direct message to the first user. *)
Definition postagem_unica (e : Entradas) (l : list (ChatId * bool)) : Prop :=
  match l with
  | [] => True
  | [(c, false)] => In c canais_fixos /\ canal_aceita e c = true
  | [(c, true)] =>
    (exists user_id, PRIMEIRO_USUARIO_ID e = Some user_id /\ c = ChatInt user_id) /\
    forall c', In c' canais_fixos -> canal_aceita e c' = false
  | _ => False
  end.

(** The predicates of the invariants below, on stores and on traces. *)
Definition estado_coerente (st : Estado) : Prop := placar_coerente (placar st).

Definition palpites_sem_defesa : list Evento -> Prop := todo_palpite mensagem_sem_defesa.

Definition todo_estado (st : Estado) : Prop := True.

Definition sono_valido (tr : list Evento) : Prop := (0 <= dormido tr)%Q.

Definition sono_de_25 (tr : list Evento) : Prop := (25 <= dormido tr)%Q.

Definition sem_postagens (tr : list Evento) : Prop := postagens tr = [].

Definition ultimo_placar_em (u : Q) (st : Estado) : Prop := ultimo_placar st = u.

Definition sem_placares (tr : list Evento) : Prop := placares tr = [].

(** *** The activity monitor *)

(** What is done to the restarts of a monitor: one is registered, or the
    monitor is asked whether one more is allowed. *)
Inductive MonOp : Type :=
| OpRestart (now : Q)
| OpCan (now : Q).

Definition instante (op : MonOp) : Q :=
  match op with
  | OpRestart now => now
  | OpCan now => now
  end.

(** The monitor after a history of such calls. *)
Fixpoint executa (ops : list MonOp) (m : BotMonitor) : BotMonitor :=
  match ops with
  | [] => m
  | OpRestart now :: resto => executa resto (snd (fst (register_restart now m)))
  | OpCan now :: resto => executa resto (snd (fst (can_restart now m)))
  end.

(** The clock readings of the restarts registered along a history. *)
Fixpoint reinicios (ops : list MonOp) : list Q :=
  match ops with
  | [] => []
  | OpRestart now :: resto => now :: reinicios resto
  | OpCan _ :: resto => reinicios resto
  end.

(** Clock readings that never go back. *)
Fixpoint crescente (l : list Q) : Prop :=
  match l with
  | a :: (b :: _) as resto => (a <= b)%Q /\ crescente resto
  | _ => True
  end.

(** [t] lies less than an hour before [now]. *)
Definition recente (now t : Q) : bool := Qltb (now - t) 3600.


(** The monitor after the given errors have been reported, in this
    order. *)
Fixpoint reporta (errors : list string) (m : BotMonitor) : BotMonitor :=
  match errors with
  | [] => m
  | error :: resto => reporta resto (snd (fst (report_error error m)))
  end.

(** *** The polling loop *)



(** A world in which polling fails every time with the same error. *)
Definition mundo_falha (texto : string) (conexao : bool) : nat -> Volta :=
  fun _ => {| v_polling := Some {| ep_texto := texto; ep_conexao := conexao |};
              v_get_me := true |}.

(** *** The restart loop *)

(** The calls of [main()] along a trace. *)
Definition arranques (tr : list EvArranque) : nat :=
  List.length (filter (fun ev => match ev with GMain => true | _ => false end) tr).

(** The waits of a trace. *)
Fixpoint intervalos (tr : list EvArranque) : list Q :=
  match tr with
  | [] => []
  | GDorme s :: resto => s :: intervalos resto
  | _ :: resto => intervalos resto
  end.

(** The entry of the log for a manual shutdown is in the trace. *)
Definition dado_por_manual (tr : list EvArranque) : Prop :=
  In (GLog LogEncerradoManualmente) tr.

(** *** Reactions *)

(** The count a message holds for one reaction, if it has the message
    and the reaction. *)
Definition contagem_de (d : Mensagens) (message_id : Z) (emoji : string) : option Z :=
  match reacoes_de d message_id with
  | Py.Ok r => dict_get_opt r emoji
  | Py.Raise _ => None
  end.

(** What one message counts for a reaction, 0 when it has none. *)
Definition soma_de (r : list (string * Z)) (emoji : string) : Z :=
  fold_right Z.add 0 (map snd (filter (fun ec => String.eqb (fst ec) emoji) r)).

(** What all messages together count for a reaction. *)
Definition total_de (d : Mensagens) (emoji : string) : Z :=
  fold_right Z.add 0 (map (fun kv => soma_de (reactions (snd kv)) emoji) d).

(** The total entered for a reaction, 0 while it has no entry. *)
Definition valor_em (l : list (string * Z)) (e : string) : Z :=
  match dict_get_opt l e with
  | Some v => v
  | None => 0
  end.

(** Lines of statistics in the order of falling count. *)
Definition decrescente (linhas : list (string * Z)) : Prop :=
  StronglySorted (fun a b => snd b <= snd a) linhas.

(** *** Commands *)

(** The globals as the module leaves them when it is loaded at [t]
    (lines 118, 268 and 754). *)
Definition mundo_inicial (t : Q) : Mundo :=
  {| estado := estado_inicial t;
     bot_monitor := bot_monitor_inicial t;
     primeiro_usuario_id := None;
     prediction_messages := [] |}.

(** One /start: who sent it, and what Telegram does with the answers. *)
Record Start : Type := {
  s_user_id : Z;
  s_username : option string;
  s_boas_vindas : SendResult;
  s_simples : SendResult
}.

(** The globals after a run of /start commands, handled one after the
    other. *)
Fixpoint varios_start (chamadas : list Start) (w : Mundo) : Mundo :=
  match chamadas with
  | [] => w
  | c :: resto =>
    varios_start resto
      (snd (fst (start_cmd (s_user_id c) (s_username c) (s_boas_vindas c) (s_simples c) w)))
  end.

(** A pick of the last resort: one of the two double bets, with no gale
    and no defensive mode. *)
Definition de_emergencia (r : string * Z * bool) : Prop :=
  exists p, r = (p, 0, false) /\ In p [laranja_e_azul; laranja_e_vermelho].

(** The texts sent along a trace, with their destination. *)
Fixpoint enviados (tr : list Acao) : list (Z * Texto) :=
  match tr with
  | [] => []
  | AEnvia chat_id t _ :: resto => (chat_id, t) :: enviados resto
  | _ :: resto => enviados resto
  end.

(** Two stored predictions with their reactions; used as an example. *)
Definition mensagens_exemplo : Mensagens :=
  [(10, {| prediction := VStr laranja_e_azul;
           reactions := [("👍", 2); ("🔥", 0); ("💰", 5)] |});
   (11, {| prediction := VStr so_azul;
           reactions := [("👍", 1); ("🔥", 0); ("💰", 1)] |})].

(** A /status half a second after its own start, with a
    [psutil] that fails; used as an example. *)
Definition status_exemplo : MundoStatus :=
  {| ms_agora := 1000;
     ms_agora_relatorio := 1000.5;
     ms_agora_atividade := 1000.5;
     ms_psutil := Py.Raise Py.AttributeError;
     ms_envia_status := SendOk {| message_id := 3 |};
     ms_envia_registado := SendOk {| message_id := 4 |} |}.

(** Whether Telegram took the message. *)
Definition aceite (r : SendResult) : bool :=
  match r with
  | SendOk _ => true
  | SendErr _ => false
  end.

(** A /palpite at noon while the feed reports a blue round and Telegram
    takes every message; used as an example. *)
Definition palpite_exemplo : MundoPalpite :=
  {| mp_animacao :=
       {| an_agora := 100;
          an_inicial := SendOk {| message_id := 1 |};
          an_direto := true;
          an_edita := fun _ => true;
          an_apaga := true;
          an_pg := None;
          an_rede := rede_api 100 ["blue"];
          an_momento := {| hora_atual := 12; minuto_atual := 5; random_choice := 0 |};
          an_gerador := Py.Ok laranja_e_azul;
          an_choice := 0;
          an_problema := SendOk {| message_id := 2 |};
          an_choice_emergencia := 0;
          an_emergencia := SendOk {| message_id := 3 |} |};
     mp_rede := rede_api 103 ["blue"];
     mp_random := 0.5%float;
     mp_pg_bonus := None;
     mp_rede_bonus := rede_api 103 ["blue"];
     mp_momento_bonus := {| hora_atual := 12; minuto_atual := 5; random_choice := 0 |};
     mp_hora := "12:05:03";
     mp_envia := SendOk {| message_id := 4 |};
     mp_envia_erro := SendOk {| message_id := 5 |} |}.

(* ================================================================== *)
(** * Properties *)
(* ================================================================== *)

(** ** Strings *)

Section Strings.

Lemma prefix_nil (s : string) : String.prefix EmptyString s = true.
Proof. destruct s; reflexivity. Qed.



(** An occurrence of [sep] cannot reach into a text that starts with a
    character [sep] does not have. *)
Lemma prefix_stops (sep x y : string) (c : ascii) :
  sem_char c sep = true ->
  String.prefix sep (x ++ String c y)%string = String.prefix sep x.
Proof.
  revert x; induction sep as [|a sep IH]; intros x H.
  - now rewrite !prefix_nil.
  - cbn in H. apply andb_true_iff in H as [Ha Hs].
    destruct x as [|b x]; cbn.
    + destruct (ascii_dec a c) as [->|]; [|reflexivity].
      now rewrite Ascii.eqb_refl in Ha.
    + destruct (ascii_dec a b); [now apply IH | reflexivity].
Qed.

Lemma contains_cons (sub : string) (c : ascii) (s : string) :
  Py.contains sub (String c s) = false ->
  String.prefix sub (String c s) = false /\ Py.contains sub s = false.
Proof.
  cbn [Py.contains]. destruct (String.prefix sub (String c s)); [discriminate|auto].
Qed.


Lemma before_first_app (sep pre y : string) (c : ascii) :
  sem_char c sep = true ->
  Py.contains sep pre = false ->
  Py.before_first sep (pre ++ String c y)%string
  = (pre ++ Py.before_first sep (String c y))%string.
Proof.
  intros Hc. induction pre as [|a pre IH]; intros H; [reflexivity|].
  apply contains_cons in H as [Hp Hr].
  change ((String a pre ++ String c y)%string) with (String a (pre ++ String c y)).
  cbn [Py.before_first].
  change (String a (pre ++ String c y)) with ((String a pre ++ String c y)%string).
  rewrite (prefix_stops _ _ _ _ Hc), Hp. cbn. f_equal. now apply IH.
Qed.






End Strings.

(** ** Decimal numerals *)

Section Decimal.








End Decimal.

(** ** The resilient send helper *)

Section Helper.









End Helper.



(** C5.  When the first destination answers "chat not found" and the
    second accepts the message at once, the helper makes exactly two
    calls: one to the first destination, with no sleep and no second
    try, then one to the second; it returns success with the message the
    second destination produced. *)
Theorem chat_not_found_skips_to_next_target :
  forall (bot : Bot) (t1 t2 : ChatId) (rest : list ChatId)
         (retry_count : nat) (timeout : Q) (m : Message),
    (0 < retry_count)%nat ->
    (forall k, exists e, bot k t1 = SendErr e /\ chat_not_found e = true) ->
    bot 1%nat t2 = SendOk m ->
    exists e,
      bot 0%nat t1 = SendErr e /\
      enviar_mensagem_resiliente bot (ListaChats (t1 :: t2 :: rest)) retry_count timeout
      = (Some m, true,
         [EvSend t1 0 (SendErr e); EvSend t2 0 (SendOk m); EvActivity]).
Proof.
  intros bot t1 t2 rest rc timeout m Hrc H1 H2.
  destruct (H1 0%nat) as [e [He Hnf]]. exists e. split; [exact He|].
  unfold chat_not_found in Hnf. apply andb_true_iff in Hnf as [Htmr Hcnf].
  apply negb_true_iff in Htmr.
  destruct rc as [|rc]; [lia|].
  unfold enviar_mensagem_resiliente. cbn [destinos tentativas].
  rewrite He, Htmr, Hcnf. cbn [tentativas]. now rewrite H2.
Qed.

(** A run on which the theorem applies: the numeric channel id is
    unknown to Telegram, the alternate one accepts. *)
Lemma chat_not_found_skips_to_next_target_witness :
  exists e,
    (fun (k : nat) (c : ChatId) =>
       match c with
       | ChatInt (-1002510265632) =>
         SendErr "A request to the Telegram API was unsuccessful. Error code: 400. Description: Bad Request: chat not found"
       | _ => SendOk {| message_id := 41 |}
       end) 0%nat CANAL_ID = SendErr e /\
    enviar_mensagem_resiliente
      (fun (k : nat) (c : ChatId) =>
         match c with
         | ChatInt (-1002510265632) =>
           SendErr "A request to the Telegram API was unsuccessful. Error code: 400. Description: Bad Request: chat not found"
         | _ => SendOk {| message_id := 41 |}
         end)
      (ListaChats [CANAL_ID; CANAL_ID_ALT; CANAL_HANDLE]) retry_count_default timeout_default
    = (Some {| message_id := 41 |}, true,
       [EvSend CANAL_ID 0 (SendErr e);
        EvSend CANAL_ID_ALT 0 (SendOk {| message_id := 41 |}); EvActivity]).
Proof.
  apply (chat_not_found_skips_to_next_target _ CANAL_ID CANAL_ID_ALT [CANAL_HANDLE]
           retry_count_default timeout_default {| message_id := 41 |}).
  - unfold retry_count_default. lia.
  - intros k. eexists. split; reflexivity.
  - reflexivity.
Defined.

(** ** The result feed *)

(** Unfolding of the monad operations, and of nothing else. *)
Ltac mstep :=
  cbn [bind ret raise catch get put
       Py.Monad_Prog Py.Exc_Prog Py.State_Prog Py.Monad_Res Py.Exc_Res
       Py.emit Py.lift].

Ltac mstep_in H :=
  cbn [bind ret raise catch get put
       Py.Monad_Prog Py.Exc_Prog Py.State_Prog Py.Monad_Res Py.Exc_Res
       Py.emit Py.lift] in H.

Section FeedFacts.

Lemma color_mapping_valida (s : string) :
  cor_valida (Py.dict_get COLOR_MAPPING s laranja).
Proof.
  unfold cor_valida, COLOR_MAPPING. cbn [Py.dict_get].
  repeat match goal with |- context [if ?b then _ else _] => destruct b end; auto.
Qed.

Lemma color_get_valida (j : Json) (c : string) :
  color_get j = Py.Ok c -> cor_valida c.
Proof.
  destruct j; intros H; try discriminate H; injection H as <-;
    try apply color_mapping_valida; unfold cor_valida; auto.
Qed.

Lemma api_rounds_spec (rounds : list Json) (l : list string) :
  api_rounds rounds = Py.Ok l ->
  List.length l = List.length rounds /\ Forall cor_valida l.
Proof.
  revert l; induction rounds as [|r rounds IH]; intros l; cbn.
  - intros H; injection H as <-. split; [reflexivity | constructor].
  - destruct (json_get r "result" (JStr "orange")) as [rc|]; [|discriminate].
    destruct (color_get rc) as [c|] eqn:Hc; [|discriminate].
    destruct (api_rounds rounds) as [l'|]; [|discriminate].
    intros H; injection H as <-.
    destruct (IH l' eq_refl) as [Hlen Hall].
    split; [cbn; now rewrite Hlen | constructor; [now apply color_get_valida in Hc | exact Hall]].
Qed.

Lemma item_emoji_valida (classes : list string) : cor_valida (item_emoji classes).
Proof.
  unfold item_emoji, cor_valida.
  destruct (mem "result-red" classes); auto.
  destruct (mem "result-blue" classes); auto.
Qed.

Lemma choices_1_valida (u : float) :
  cor_valida (choices_1 [vermelho; azul; laranja] weights u).
Proof.
  unfold choices_1, cor_valida.
  match goal with |- context [nth ?i _ _] => generalize i end.
  intros [|[|[|i]]]; cbn [nth]; auto. destruct i; auto.
Qed.

Lemma firstn_le {A : Type} (n : nat) (l : list A) : (List.length (firstn n l) <= n)%nat.
Proof. rewrite length_firstn. lia. Qed.

Lemma slice_10_le (x : Json) (rs : list Json) :
  slice_10 x = Py.Ok rs -> (List.length rs <= 10)%nat.
Proof.
  destruct x; unfold slice_10; intros H; try discriminate H.
  - replace rs with (firstn 10 (chars s)) by congruence. apply firstn_le.
  - replace rs with (firstn 10 l) by congruence. apply firstn_le.
Qed.

Lemma via_api_ok (env : Rede) (st st' : FeedSt) (novo : string) (recent : list string)
      (logs : list LogRec) :
  via_api env st = (Py.Ok (novo, recent), st', logs) -> janela_ok novo recent.
Proof.
  unfold via_api, logger, bind_data. destruct (api env) as [e|code json]; [discriminate|].
  destruct (code =? 200); [|discriminate].
  destruct json as [data|e]; [|discriminate]. mstep.
  destruct (json_get data "rounds" (JArr [])) as [rounds|]; [|discriminate]. mstep.
  destruct (slice_10 rounds) as [rs|] eqn:Hs; [|discriminate]. mstep.
  destruct (api_rounds rs) as [l|] eqn:Hl; [|discriminate]. mstep.
  destruct l as [|x l]; [discriminate|]. mstep.
  intros H.
  assert (novo = x /\ recent = x :: l) as [-> ->] by (split; congruence).
  apply api_rounds_spec in Hl as [Hlen Hall].
  repeat split; [now inversion Hall | cbn [List.length]; lia | | exact Hall].
  rewrite Hlen. now apply slice_10_le in Hs.
Qed.

Lemma via_scraping_ok (env : Rede) (st st' : FeedSt) (novo : string) (recent : list string)
      (logs : list LogRec) :
  via_scraping env st = (Py.Ok (novo, recent), st', logs) -> janela_ok novo recent.
Proof.
  unfold via_scraping, logger, bind_soup. mstep.
  destruct (pagina env) as [e|code cont]; [discriminate|].
  destruct (code =? 200); [|discriminate]. mstep.
  destruct cont as [items|]; [|discriminate].
  destruct (map item_emoji (firstn 10 items)) as [|x l] eqn:Hm; [discriminate|]. mstep.
  intros H.
  assert (novo = x /\ recent = x :: l) as [-> ->] by (split; congruence).
  assert (Hall : Forall cor_valida (x :: l)).
  { rewrite <- Hm. apply Forall_forall. intros c Hin.
    apply in_map_iff in Hin as [cl [<- _]]. apply item_emoji_valida. }
  repeat split; [now inversion Hall | cbn [List.length]; lia | | exact Hall].
  rewrite <- Hm, length_map. apply firstn_le.
Qed.

Lemma sorteio_ok (env : Rede) : janela_ok (fst (sorteio env)) (snd (sorteio env)).
Proof.
  unfold sorteio. cbn [fst snd]. repeat split.
  - apply choices_1_valida.
  - rewrite length_map, length_seq. lia.
  - rewrite length_map, length_seq. lia.
  - apply Forall_forall. intros c Hin.
    apply in_map_iff in Hin as [i [<- _]]. apply choices_1_valida.
Qed.

End FeedFacts.

Section Frequencias.

Lemma todas_as_somas_ok : todas_as_somas = true.
Proof. vm_compute. reflexivity. Qed.

Lemma soma_tres_ok (nv na nl : Z) :
  0 <= nv -> 0 <= na -> 0 <= nl -> 1 <= nv + na + nl <= 10 ->
  um_ou_logo_abaixo (soma_tres nv na nl) = true.
Proof.
  intros Hv Ha Hl Ht.
  pose proof todas_as_somas_ok as H. unfold todas_as_somas in H.
  assert (Hin : forall z, 0 <= z <= 10 -> In (Z.to_nat z) ate_dez)
    by (intros z Hz; apply in_seq; lia).
  rewrite forallb_forall in H. specialize (H _ (Hin nv ltac:(lia))).
  rewrite forallb_forall in H. specialize (H _ (Hin na ltac:(lia))).
  rewrite forallb_forall in H. specialize (H _ (Hin nl ltac:(lia))).
  cbv zeta in H. rewrite !Z2Nat.id in H by lia.
  destruct ((1 <=? Z.to_nat nv + Z.to_nat na + Z.to_nat nl)%nat
            && (Z.to_nat nv + Z.to_nat na + Z.to_nat nl <=? 10)%nat)%bool eqn:E;
    [exact H|].
  apply andb_false_iff in E as [E|E]; apply Nat.leb_gt in E; lia.
Qed.

Lemma cores_distintas :
  String.eqb vermelho azul = false /\ String.eqb vermelho laranja = false /\
  String.eqb azul vermelho = false /\ String.eqb azul laranja = false /\
  String.eqb laranja vermelho = false /\ String.eqb laranja azul = false.
Proof. repeat split; reflexivity. Qed.

Lemma ocorrencias_um (c x : string) :
  ocorrencias c [x] = if String.eqb x c then 1 else 0.
Proof.
  unfold ocorrencias. cbn [count_occ].
  destruct (string_dec x c) as [E|E], (String.eqb_spec x c); congruence || reflexivity.
Qed.

Lemma conta_valida (nv na nl : Z) (c : string) :
  cor_valida c ->
  conta [(vermelho, nv); (azul, na); (laranja, nl)] c
  = [(vermelho, nv + ocorrencias vermelho [c]);
     (azul, na + ocorrencias azul [c]);
     (laranja, nl + ocorrencias laranja [c])].
Proof.
  destruct cores_distintas as (Hva & Hvl & Hav & Hal & Hlv & Hla).
  rewrite !ocorrencias_um.
  intros [-> | [-> | ->]]; cbn [conta];
    rewrite ?Hva, ?Hvl, ?Hav, ?Hal, ?Hlv, ?Hla, ?String.eqb_refl;
    now rewrite ?Z.add_0_r.
Qed.

Lemma ocorrencias_cons (c x : string) (l : list string) :
  ocorrencias c (x :: l) = ocorrencias c [x] + ocorrencias c l.
Proof.
  unfold ocorrencias. destruct (string_dec x c) as [E|E].
  - rewrite !count_occ_cons_eq by exact E. cbn [count_occ]. lia.
  - rewrite !count_occ_cons_neq by exact E. cbn [count_occ]. lia.
Qed.

Lemma contador_valido (l : list string) :
  Forall cor_valida l ->
  forall nv na nl,
    fold_left conta l [(vermelho, nv); (azul, na); (laranja, nl)]
    = [(vermelho, nv + ocorrencias vermelho l);
       (azul, na + ocorrencias azul l);
       (laranja, nl + ocorrencias laranja l)].
Proof.
  induction 1 as [|c l Hc Hl IH]; intros nv na nl.
  - unfold ocorrencias. cbn. now rewrite !Z.add_0_r.
  - cbn [fold_left]. rewrite (conta_valida _ _ _ _ Hc), IH.
    rewrite (ocorrencias_cons vermelho c l), (ocorrencias_cons azul c l),
            (ocorrencias_cons laranja c l).
    now rewrite !Z.add_assoc.
Qed.

Lemma ocorrencias_nonneg (c : string) (l : list string) : 0 <= ocorrencias c l.
Proof. unfold ocorrencias. lia. Qed.

(** A window of valid colours is shared among the three of them. *)
Lemma ocorrencias_total (l : list string) :
  Forall cor_valida l ->
  ocorrencias vermelho l + ocorrencias azul l + ocorrencias laranja l
  = Z.of_nat (List.length l).
Proof.
  induction 1 as [|c l Hc Hl IH]; [reflexivity|].
  rewrite (ocorrencias_cons vermelho c l), (ocorrencias_cons azul c l),
          (ocorrencias_cons laranja c l).
  cbn [List.length]. rewrite Nat2Z.inj_succ.
  assert (ocorrencias vermelho [c] + ocorrencias azul [c] + ocorrencias laranja [c] = 1).
  { destruct cores_distintas as (Hva & Hvl & Hav & Hal & Hlv & Hla).
    rewrite !ocorrencias_um.
    destruct Hc as [-> | [-> | ->]];
      now rewrite ?Hva, ?Hvl, ?Hav, ?Hal, ?Hlv, ?Hla, ?String.eqb_refl. }
  lia.
Qed.

Lemma frequencias_tres (nv na nl t : Z) :
  t <> 0 ->
  frequencias [(vermelho, nv); (azul, na); (laranja, nl)] t
  = Py.Ok [(vermelho, quociente nv t); (azul, quociente na t); (laranja, quociente nl t)].
Proof.
  intros Ht. cbn [frequencias]. unfold truediv.
  destruct (Z.eqb_spec t 0); [contradiction|]. reflexivity.
Qed.

Lemma registar_ok (env : Rede) (st : FeedSt) (novo : string) (recent : list string) :
  janela_ok novo recent ->
  registar env novo recent st
  = (Py.Ok tt,
     {| resultados_anteriores := registo env st novo recent;
        data_in_locals := data_in_locals st;
        soup_in_locals := soup_in_locals st |},
     [{| nivel := INFO; texto := "Resultado atual da Elephant Bet"; causa := None |}]).
Proof.
  intros (Hnovo & Hlen & Hall).
  unfold registar, logger.
  destruct (Nat.ltb_spec 10 (List.length recent)) as [Hgt|_]; [lia|].
  rewrite (contador_valido recent Hall 0 0 0), frequencias_tres by lia. reflexivity.
Qed.

End Frequencias.

(** Membership in a log written as appended pieces. *)
Ltac no_log := repeat (rewrite in_app_iff || cbn [In]); auto 12.

Section Refresh.

(** The chain of sources always hands over a window; what failed on the
    way is in the log, and when both network sources failed the window
    is the simulated one. *)
Lemma obtem_ok (env : Rede) (st : FeedSt) :
  exists novo recent st' logs,
    obtem env st = (Py.Ok (novo, recent), st', logs) /\
    janela_ok novo recent /\
    (forall e, falha (via_api env) e -> In (aviso_api e) logs) /\
    (forall e1 e2, falha (via_api env) e1 -> falha (via_scraping env) e2 ->
                   In (erro_scraping e2) logs /\ (novo, recent) = sorteio env).
Proof.
  unfold obtem. mstep.
  destruct (via_api env st) as [[[[novo recent]|e] st1] l1] eqn:Hapi.
  - exists novo, recent, st1, l1. split; [reflexivity|].
    split; [exact (via_api_ok _ _ _ _ _ _ Hapi)|].
    split.
    + intros e' F. unfold falha in F; destruct (F st) as (? & ? & F'). congruence.
    + intros e1 e2 F _. unfold falha in F; destruct (F st) as (? & ? & F'). congruence.
  - unfold logger at 1. mstep.
    destruct (via_scraping env st1) as [[[[novo recent]|e'] st2] l2] eqn:Hscr.
    + exists novo, recent, st2, (l1 ++ aviso_api e :: l2). split; [reflexivity|].
      split; [exact (via_scraping_ok _ _ _ _ _ _ Hscr)|].
      split.
      * intros e0 F. unfold falha in F; destruct (F st) as (? & ? & F').
        assert (e0 = e) as -> by congruence.
        no_log.
      * intros e1 e2 _ F. unfold falha in F; destruct (F st1) as (? & ? & F'). congruence.
    + unfold logger, simulacao.
      destruct (sorteio env) as [novo recent] eqn:Hs. unfold logger. mstep.
      eexists novo, recent, st2, _. split; [reflexivity|].
      split; [pose proof (sorteio_ok env) as H; now rewrite Hs in H|].
      split.
      * intros e0 F. unfold falha in F; destruct (F st) as (? & ? & F').
        assert (e0 = e) as -> by congruence.
        no_log.
      * intros e1 e2 _ F. unfold falha in F; destruct (F st1) as (? & ? & F').
        assert (e2 = e') as -> by congruence.
        split; [|reflexivity].
        no_log.
Qed.

Lemma atualizar_fresco (env : Rede) (global : Resultados) :
  cache_fresco env global = true ->
  atualizar_resultados_elephant env global = (Py.Ok global, global, []).
Proof.
  unfold cache_fresco, atualizar_resultados_elephant, atualizar_resultados_elephant_corpo.
  intros H. mstep. cbn [resultados_anteriores]. now rewrite H.
Qed.

(** A refresh past the cache window never raises: it stores and returns
    the dictionary built from the window the sources handed over. *)
Lemma atualizar_expirado (env : Rede) (global : Resultados) :
  cache_fresco env global = false ->
  exists novo recent st' logs,
    janela_ok novo recent /\
    (forall e, falha (via_api env) e -> In (aviso_api e) logs) /\
    (forall e1 e2, falha (via_api env) e1 -> falha (via_scraping env) e2 ->
                   In (erro_scraping e2) logs /\ (novo, recent) = sorteio env) /\
    atualizar_resultados_elephant env global
    = (Py.Ok (registo env st' novo recent),
       registo env st' novo recent,
       {| nivel := INFO; texto := "Obtendo resultados da Elephant Bet (dados reais)";
          causa := None |}
         :: logs
         ++ [{| nivel := INFO; texto := "Resultado atual da Elephant Bet"; causa := None |}]).
Proof.
  unfold cache_fresco, atualizar_resultados_elephant, atualizar_resultados_elephant_corpo.
  intros H. mstep. cbn [resultados_anteriores]. rewrite H. unfold logger at 1. mstep.
  set (st0 := {| resultados_anteriores := global |}).
  destruct (obtem_ok env st0) as (novo & recent & st' & logs & E & Hj & Hw & Hs).
  rewrite E, (registar_ok env st' novo recent Hj).
  exists novo, recent, st', logs. repeat (split; [assumption|]).
  cbn [resultados_anteriores app]. now rewrite app_nil_r.
Qed.

End Refresh.

(** C7.  The refresh never raises, whatever the network does: it returns
    the dictionary it leaves in the global.  Within the cache window that
    is the cached dictionary; past it, a dictionary built from a window
    of valid outcomes, each failed source is in the log with the level
    the source uses, and when both network sources failed the outcome and
    the window are the simulated ones. *)
Theorem refresh_never_raises :
  forall (env : Rede) (global : Resultados),
  exists (r : Resultados) (logs : list LogRec),
    atualizar_resultados_elephant env global = (Py.Ok r, r, logs) /\
    (cache_fresco env global = true -> r = global) /\
    (cache_fresco env global = false ->
     exists novo recent,
       janela_ok novo recent /\
       resultado_atual r = Some novo /\
       ultimos_10 r = recent /\
       (forall e, falha (via_api env) e -> In (aviso_api e) logs) /\
       (forall e1 e2, falha (via_api env) e1 -> falha (via_scraping env) e2 ->
                      In (erro_scraping e2) logs /\ (novo, recent) = sorteio env)).
Proof.
  intros env global.
  destruct (cache_fresco env global) eqn:Hc.
  - exists global, []. rewrite (atualizar_fresco _ _ Hc).
    split; [reflexivity|]. split; [reflexivity | discriminate].
  - destruct (atualizar_expirado env global Hc)
      as (novo & recent & st' & logs & Hj & Hw & Hs & R).
    rewrite R. eexists _, _. split; [reflexivity|]. split; [discriminate|]. intros _.
    exists novo, recent. repeat split; try reflexivity; try apply Hj.
    + intros e F. right. apply in_or_app. left. now apply Hw.
    + right. apply in_or_app. left. now apply (Hs e1 e2).
    + now apply (Hs e1 e2).
Qed.

(** C6.  When both network sources fail and the cache has expired, two
    refreshes that seed the generator within the same minute store the
    same simulated outcome and the same simulated window. *)
Theorem simulation_same_minute_same_outcome :
  forall (env1 env2 : Rede) (global1 global2 : Resultados) (a1 s1 a2 s2 : Py.Exc),
    falha (via_api env1) a1 -> falha (via_scraping env1) s1 ->
    falha (via_api env2) a2 -> falha (via_scraping env2) s2 ->
    cache_fresco env1 global1 = false ->
    cache_fresco env2 global2 = false ->
    (forall seed i, gerador env1 seed i = gerador env2 seed i) ->
    int_of_time (time_seed env1) / 60 = int_of_time (time_seed env2) / 60 ->
    exists r1 r2 logs1 logs2,
      atualizar_resultados_elephant env1 global1 = (Py.Ok r1, r1, logs1) /\
      atualizar_resultados_elephant env2 global2 = (Py.Ok r2, r2, logs2) /\
      resultado_atual r1 = resultado_atual r2 /\
      ultimos_10 r1 = ultimos_10 r2.
Proof.
  intros env1 env2 g1 g2 a1 s1 a2 s2 Fa1 Fs1 Fa2 Fs2 C1 C2 Hgen Hmin.
  destruct (atualizar_expirado env1 g1 C1) as (n1 & w1 & st1 & l1 & _ & _ & S1 & R1).
  destruct (atualizar_expirado env2 g2 C2) as (n2 & w2 & st2 & l2 & _ & _ & S2 & R2).
  rewrite R1, R2. eexists _, _, _, _. split; [reflexivity|]. split; [reflexivity|].
  destruct (S1 a1 s1 Fa1 Fs1) as [_ Q1]. destruct (S2 a2 s2 Fa2 Fs2) as [_ Q2].
  assert (Hs : sorteio env1 = sorteio env2).
  { unfold sorteio. rewrite Hmin, Hgen. f_equal.
    apply map_ext. intros i. now rewrite Hgen. }
  assert (n1 = n2 /\ w1 = w2) as [-> ->] by (split; congruence).
  split; reflexivity.
Qed.

Lemma simulation_same_minute_same_outcome_witness :
  exists r1 r2 logs1 logs2,
    atualizar_resultados_elephant (rede_muda 100) (resultados_iniciais 0)
    = (Py.Ok r1, r1, logs1) /\
    atualizar_resultados_elephant (rede_muda 115) (resultados_iniciais 0)
    = (Py.Ok r2, r2, logs2) /\
    resultado_atual r1 = resultado_atual r2 /\
    ultimos_10 r1 = ultimos_10 r2.
Proof.
  apply (simulation_same_minute_same_outcome
           (rede_muda 100) (rede_muda 115) (resultados_iniciais 0) (resultados_iniciais 0)
           Py.RequestException Py.RequestException Py.RequestException Py.RequestException).
  - intros st. eexists _, _. reflexivity.
  - intros st. eexists _, _. reflexivity.
  - intros st. eexists _, _. reflexivity.
  - intros st. eexists _, _. reflexivity.
  - reflexivity.
  - reflexivity.
  - reflexivity.
  - reflexivity.
Defined.

(** Seeds of different minutes need not agree: with the generator above,
    two refreshes one minute apart store different outcomes. *)
Example simulation_other_minute_may_differ :
  exists r1 r2 logs1 logs2,
    atualizar_resultados_elephant (rede_muda 100) (resultados_iniciais 0)
    = (Py.Ok r1, r1, logs1) /\
    atualizar_resultados_elephant (rede_muda 130) (resultados_iniciais 0)
    = (Py.Ok r2, r2, logs2) /\
    resultado_atual r1 = Some laranja /\
    resultado_atual r2 = Some vermelho.
Proof.
  eexists _, _, _, _. repeat split; vm_compute; reflexivity.
Qed.

(** C8, as amended.  After a refresh past the cache window the stored
    window holds one to ten outcomes, each of the three stored
    frequencies is the binary64 quotient of a colour's number of
    occurrences in the window by the length of the window, these numbers
    add up to that length, and the three frequencies, summed in the
    order of the dictionary, give 1.0 or the binary64 number just below
    it. *)
Theorem refresh_window_and_frequencies :
  forall (env : Rede) (global r g : Resultados) (logs : list LogRec),
    cache_fresco env global = false ->
    atualizar_resultados_elephant env global = (Py.Ok r, g, logs) ->
    let janela := ultimos_10 r in
    let t := Z.of_nat (List.length janela) in
    (1 <= List.length janela <= 10)%nat /\
    frequencia r = [(vermelho, quociente (ocorrencias vermelho janela) t);
                    (azul, quociente (ocorrencias azul janela) t);
                    (laranja, quociente (ocorrencias laranja janela) t)] /\
    ocorrencias vermelho janela + ocorrencias azul janela + ocorrencias laranja janela = t /\
    um_ou_logo_abaixo (soma_frequencias (frequencia r)) = true.
Proof.
  intros env global r g logs Hc Hrun.
  destruct (atualizar_expirado env global Hc)
    as (novo & recent & st' & logs' & Hj & _ & _ & R).
  rewrite R in Hrun.
  assert (r = registo env st' novo recent) as -> by congruence.
  destruct Hj as (_ & Hlen & Hall).
  cbn [registo ultimos_10 frequencia]. cbv zeta.
  pose proof (ocorrencias_total recent Hall) as Ht.
  repeat split; try lia.
  pose proof (soma_tres_ok (ocorrencias vermelho recent) (ocorrencias azul recent)
                (ocorrencias laranja recent)
                (ocorrencias_nonneg _ _) (ocorrencias_nonneg _ _) (ocorrencias_nonneg _ _))
    as Hs.
  unfold soma_tres in Hs. rewrite Ht in Hs. apply Hs. lia.
Qed.

Lemma refresh_window_and_frequencies_witness :
  let r := fst (fst (atualizar_resultados_elephant rede_seis_rodadas (resultados_iniciais 0))) in
  exists r', r = Py.Ok r' /\
    (1 <= List.length (ultimos_10 r') <= 10)%nat /\
    um_ou_logo_abaixo (soma_frequencias (frequencia r')) = true.
Proof.
  eexists. split; [vm_compute; reflexivity|].
  pose proof (refresh_window_and_frequencies rede_seis_rodadas (resultados_iniciais 0)
                _ _ _ eq_refl eq_refl) as H.
  cbv zeta in H. destruct H as (H1 & _ & _ & H4). split; [exact H1 | exact H4].
Defined.

(** C8 as first stated fails on that refresh: the three frequencies
    1/6, 4/6 and 1/6 add up to 0.9999999999999999, not to 1.0. *)
Lemma frequencies_do_not_sum_to_one :
  exists r g logs,
    atualizar_resultados_elephant rede_seis_rodadas (resultados_iniciais 0)
    = (Py.Ok r, g, logs) /\
    ultimos_10 r = [vermelho; azul; azul; azul; azul; laranja] /\
    PrimFloat.eqb (soma_frequencias (frequencia r)) 1%float = false.
Proof.
  eexists _, _, _. split; [vm_compute; reflexivity|]. split; vm_compute; reflexivity.
Qed.

(** ** The picker and the loop: what each part leaves untouched *)

Section Moldura.

(** A property of traces that the empty trace has and that appending
    keeps, such as "no prediction is posted". *)
Variable T : list Evento -> Prop.
Hypothesis T_nil : T [].
Hypothesis T_app : forall tr tr', T tr -> T tr' -> T (tr ++ tr').
Hypothesis T_log : forall r, T [ELog r].
Hypothesis T_dorme : forall secs, T [EDorme secs].

Lemma mesmo_placar_refl (st : Estado) : mesmo_placar st st.
Proof. repeat split. Qed.

Lemma mesmo_placar_trans (a b c : Estado) :
  mesmo_placar a b -> mesmo_placar b c -> mesmo_placar a c.
Proof. unfold mesmo_placar. intuition congruence. Qed.

Lemma moldura_ret {A : Type} (a : A) : moldura T (ret a).
Proof. intros st. split; [apply mesmo_placar_refl | exact T_nil]. Qed.

Lemma moldura_raise {A : Type} (e : Py.Exc) : moldura T (raise e : Loop A).
Proof. intros st. split; [apply mesmo_placar_refl | exact T_nil]. Qed.

Lemma moldura_lift {A : Type} (r : Py.Res A) : moldura T (Py.lift r).
Proof. intros st. split; [apply mesmo_placar_refl | exact T_nil]. Qed.

Lemma moldura_get : moldura T (get : Loop Estado).
Proof. intros st. split; [apply mesmo_placar_refl | exact T_nil]. Qed.

Lemma moldura_emit (ev : Evento) : T [ev] -> moldura T (Py.emit ev).
Proof. intros H st. split; [apply mesmo_placar_refl | exact H]. Qed.

Lemma moldura_regista (n : Nivel) (t : string) (c : option Py.Exc) :
  moldura T (regista n t c).
Proof. apply moldura_emit, T_log. Qed.

Lemma moldura_atribui (f : Estado -> Estado) :
  (forall st, mesmo_placar st (f st)) -> moldura T (atribui f).
Proof. intros H st. cbn. split; [apply H | exact T_nil]. Qed.

Lemma moldura_bind {A B : Type} (c : Loop A) (k : A -> Loop B) :
  moldura T c -> (forall a, moldura T (k a)) -> moldura T (bind c k).
Proof.
  intros Hc Hk st. mstep. specialize (Hc st).
  destruct (c st) as [[[a|e] st1] tr1]; [|exact Hc].
  destruct Hc as [R1 T1]. specialize (Hk a st1).
  destruct (k a st1) as [[r st2] tr2]. destruct Hk as [R2 T2].
  split; [exact (mesmo_placar_trans _ _ _ R1 R2) | now apply T_app].
Qed.

Lemma moldura_catch {A : Type} (c : Loop A) (h : Py.Exc -> Loop A) :
  moldura T c -> (forall e, moldura T (h e)) -> moldura T (catch c h).
Proof.
  intros Hc Hh st. mstep. specialize (Hc st).
  destruct (c st) as [[[a|e] st1] tr1]; [exact Hc|].
  destruct Hc as [R1 T1]. specialize (Hh e st1).
  destruct (h e st1) as [[r st2] tr2]. destruct Hh as [R2 T2].
  split; [exact (mesmo_placar_trans _ _ _ R1 R2) | now apply T_app].
Qed.

Lemma T_logs (logs : list LogRec) : T (map ELog logs).
Proof.
  induction logs as [|r logs IH]; [exact T_nil|].
  change (map ELog (r :: logs)) with ([ELog r] ++ map ELog logs).
  apply T_app; [apply T_log | exact IH].
Qed.

Lemma moldura_chama_atualizar (env : Rede) : moldura T (chama_atualizar env).
Proof.
  intros st. unfold chama_atualizar.
  destruct (atualizar_resultados_elephant env (resultados st)) as [[r g] logs].
  split; [repeat split | apply T_logs].
Qed.

Lemma moldura_le_local {A : Type} (nome : string) (v : option A) :
  moldura T (le_local nome v).
Proof. destruct v; [apply moldura_ret | apply moldura_raise]. Qed.

(** Steps that apply the lemmas above along the shape of a program. *)
Ltac moldura_passo :=
  first
    [ apply moldura_atribui; intros ?; solve [repeat split]
    | apply moldura_regista
    | apply moldura_chama_atualizar
    | apply moldura_le_local
    | apply moldura_emit; solve [apply T_dorme | apply T_log | assumption]
    | apply moldura_ret
    | apply moldura_raise
    | apply moldura_lift
    | apply moldura_get
    | apply moldura_bind; [|intros ?]
    | apply moldura_catch; [|intros ?] ].

Lemma moldura_estrategia (pg : option PredictionGenerator) (env : Rede) (m : Momento) :
  moldura T (estrategia_alta_assertividade pg env m).
Proof.
  unfold estrategia_alta_assertividade.
  repeat moldura_passo.
  - destruct (max_gales <=? contagem_gales a0); repeat moldura_passo.
  - destruct pg; repeat moldura_passo.
Qed.

Lemma moldura_placar_canais (e : Entradas) (p : Placar) (canais : list ChatId) :
  (forall c q, T [EPlacar c q]) -> moldura T (placar_canais e p canais).
Proof.
  intros HT. induction canais as [|c rest IH]; cbn [placar_canais]; [apply moldura_ret|].
  destruct (envia_placar e c); repeat moldura_passo; auto.
  apply moldura_emit, HT.
Qed.

Lemma moldura_placar_periodico (e : Entradas) :
  (forall c q, T [EPlacar c q]) -> moldura T (placar_periodico e).
Proof.
  intros HT. unfold placar_periodico. repeat moldura_passo.
  destruct (Qle_bool 600 _); repeat moldura_passo.
  now apply moldura_placar_canais.
Qed.

Lemma moldura_reinicio_canais (e : Entradas) (a : Antigos) (canais : list ChatId) :
  (forall c q, T [EReinicio c q]) -> moldura T (reinicio_canais e a canais).
Proof.
  intros HT. induction canais as [|c rest IH]; cbn [reinicio_canais]; [apply moldura_ret|].
  destruct (envia_reinicio e c); repeat moldura_passo; auto.
  apply moldura_emit, HT.
Qed.

Lemma moldura_envia_canais (e : Entradas) (m : Mensagem) (canais : list ChatId)
      (success : bool) (canal_id : option ChatId) :
  (forall c d, T [EPalpite c d m]) ->
  moldura T (envia_canais e m canais success canal_id).
Proof.
  intros HT. revert success canal_id.
  induction canais as [|c rest IH]; intros success canal_id; cbn [envia_canais];
    [apply moldura_ret|].
  destruct success; [apply moldura_ret|].
  destruct (envia_palpite e c) as [sent|erro_str].
  - repeat moldura_passo; auto. apply moldura_emit, HT.
  - repeat moldura_passo.
    destruct (Py.contains _ erro_str); [|apply IH].
    destruct (tempo_espera erro_str); repeat moldura_passo; auto.
    destruct (reenvia_palpite e c); repeat moldura_passo; auto.
    apply moldura_emit, HT.
Qed.

Lemma moldura_envia_usuario (e : Entradas) (m : Mensagem) :
  (forall c d, T [EPalpite c d m]) -> moldura T (envia_usuario e m).
Proof.
  intros HT. unfold envia_usuario. repeat moldura_passo.
  destruct (PRIMEIRO_USUARIO_ID e); repeat moldura_passo.
  destruct (envia_direto e); repeat moldura_passo. apply moldura_emit, HT.
Qed.

Lemma moldura_espera (e : Entradas) (canal_id : option ChatId) :
  (forall c, T [EEspera c]) -> (forall c, T [EApaga c]) ->
  moldura T (espera e canal_id).
Proof.
  intros H1 H2. unfold espera. repeat moldura_passo.
  destruct (envia_espera e); repeat moldura_passo.
  - apply moldura_emit, H1.
  - destruct (apaga_espera e); repeat moldura_passo. apply moldura_emit, H2.
Qed.

Lemma moldura_entrega (e : Entradas) (m : Mensagem) :
  (forall c d, T [EPalpite c d m]) ->
  (forall c, T [EEspera c]) -> (forall c, T [EApaga c]) ->
  moldura T (entrega e m).
Proof.
  intros H0 H1 H2. unfold entrega.
  apply moldura_bind; [moldura_passo | intros _].
  apply moldura_bind; [now apply moldura_envia_canais | intros [success canal_id]].
  apply moldura_bind; [|intros _; now apply moldura_espera].
  destruct success; [apply moldura_ret | now apply moldura_envia_usuario].
Qed.

End Moldura.

(** ** The posting loop *)

Section LoopFacts.

Lemma palpites_app (tr tr' : list Evento) :
  palpites (tr ++ tr') = palpites tr ++ palpites tr'.
Proof.
  induction tr as [|ev tr IH]; [reflexivity|].
  destruct ev; cbn [palpites app]; rewrite IH; reflexivity.
Qed.

Lemma sem_palpites_app (tr tr' : list Evento) :
  sem_palpites tr -> sem_palpites tr' -> sem_palpites (tr ++ tr').
Proof. unfold sem_palpites. intros H H'. now rewrite palpites_app, H, H'. Qed.

Lemma so_palpite_app (m : Mensagem) (tr tr' : list Evento) :
  so_palpite m tr -> so_palpite m tr' -> so_palpite m (tr ++ tr').
Proof.
  unfold so_palpite. intros H H' m' Hin. rewrite palpites_app in Hin.
  apply in_app_or in Hin as [Hin|Hin]; auto.
Qed.

Lemma so_palpite_sem (m : Mensagem) (tr : list Evento) :
  sem_palpites tr -> so_palpite m tr.
Proof. unfold sem_palpites, so_palpite. intros -> m' []. Qed.

Lemma estrategia_quieta (pg : option PredictionGenerator) (env : Rede) (m : Momento) :
  quieto (estrategia_alta_assertividade pg env m).
Proof. apply moldura_estrategia; try reflexivity. apply sem_palpites_app. Qed.

Lemma chama_atualizar_quieto (env : Rede) : quieto (chama_atualizar env).
Proof. apply moldura_chama_atualizar; try reflexivity. apply sem_palpites_app. Qed.

Lemma placar_periodico_quieto (e : Entradas) : quieto (placar_periodico e).
Proof. apply moldura_placar_periodico; try reflexivity. apply sem_palpites_app. Qed.

Lemma reinicio_canais_quieto (e : Entradas) (a : Antigos) (canais : list ChatId) :
  quieto (reinicio_canais e a canais).
Proof. apply moldura_reinicio_canais; try reflexivity. apply sem_palpites_app. Qed.

Lemma entrega_so_palpite (e : Entradas) (m : Mensagem) :
  moldura (so_palpite m) (entrega e m).
Proof.
  apply moldura_entrega;
    try (intros; apply so_palpite_sem; reflexivity).
  - apply so_palpite_app.
  - intros c d m' [<-|[]]. reflexivity.
Qed.

(** The scoreboard never raises. *)
Lemma placar_canais_ok (e : Entradas) (p : Placar) (canais : list ChatId) (st : Estado) :
  exists tr, placar_canais e p canais st = (Py.Ok tt, st, tr).
Proof.
  induction canais as [|c rest IH]; cbn [placar_canais]; [now eexists|].
  destruct (envia_placar e c); [now eexists|].
  destruct IH as [tr IH]. unfold regista. mstep. rewrite IH. now eexists.
Qed.

Lemma placar_periodico_ok (e : Entradas) (st : Estado) :
  exists st' tr,
    placar_periodico e st = (Py.Ok tt, st', tr) /\ mesmo_placar st st' /\ sem_palpites tr.
Proof.
  pose proof (placar_periodico_quieto e st) as H.
  unfold placar_periodico in *. mstep. mstep_in H.
  destruct (Qle_bool 600 _).
  - destruct (placar_canais_ok e (placar st) (canal_ids st) st) as [tr E].
    unfold atribui in *. mstep. mstep_in H. rewrite E in *. now eexists _, _.
  - now eexists _, _.
Qed.

End LoopFacts.

Section Limite.

Lemma reinicio_placar_levanta (e : Entradas) (st : Estado) :
  limite_atingido (placar st) = true -> antigos st = None ->
  reinicio_placar e st = (Py.Raise (Py.UnboundLocalError "old_acertos"), st, []).
Proof.
  intros Hl Ha. unfold reinicio_placar. mstep. rewrite Hl, Ha. reflexivity.
Qed.

Lemma reinicio_placar_salta (e : Entradas) (st : Estado) :
  limite_atingido (placar st) = false ->
  reinicio_placar e st = (Py.Ok tt, st, []).
Proof. intros Hl. unfold reinicio_placar. mstep. now rewrite Hl. Qed.

(** One pass at the thresholds: the restart message cannot be built, the
    handler of the pass logs the error and sleeps, and the counters stay. *)
Lemma passo_no_limite (e : Entradas) (st : Estado) :
  limite_atingido (placar st) = true -> antigos st = None ->
  exists st' tr,
    passo e st = (Py.Ok tt, st', tr) /\
    mesmo_placar st st' /\
    sem_palpites tr /\
    In (erro_no_passo (Py.UnboundLocalError "old_acertos")) tr.
Proof.
  intros Hl Ha.
  destruct (placar_periodico_ok e st) as (st1 & tr1 & E & (Hp & Hc & Hn) & Hs).
  unfold passo, corpo, preparo. mstep. rewrite E.
  rewrite reinicio_placar_levanta by congruence.
  unfold regista. mstep.
  eexists _, _. split; [reflexivity|]. split; [now repeat split|]. split.
  - rewrite app_nil_r. apply sem_palpites_app; [exact Hs | reflexivity].
  - unfold erro_no_passo. no_log.
Qed.

End Limite.

(** C2, as the code has it.  Once the counters stand at the thresholds
    (with the locals of the restart message still unbound, as they are
    from the start), no pass resets them: for any number of passes the
    loop keeps running, the counters keep their values, every pass ends
    in the handler with the error on [old_acertos], and no prediction is
    posted. *)
Theorem threshold_reset_never_runs :
  forall (es : list Entradas) (st : Estado),
    limite_atingido (placar st) = true ->
    antigos st = None ->
    exists st' tr,
      enviar_palpite es st = (Py.Ok tt, st', tr) /\
      placar st' = placar st /\
      antigos st' = None /\
      palpites tr = [] /\
      (es <> [] -> In (erro_no_passo (Py.UnboundLocalError "old_acertos")) tr).
Proof.
  induction es as [|e es IH]; intros st Hl Ha.
  - exists st, []. repeat split; congruence.
  - destruct (passo_no_limite e st Hl Ha) as (st1 & tr1 & E & (Hp & Hc & Hn) & Hs & Hin).
    destruct (IH st1) as (st2 & tr2 & E2 & Hp2 & Ha2 & Hs2 & _); try congruence.
    cbn [enviar_palpite]. mstep. rewrite E, E2.
    exists st2, (tr1 ++ tr2). repeat split; try congruence.
    + now apply sem_palpites_app.
    + intros _. apply in_or_app. now left.
Qed.

Lemma threshold_reset_never_runs_witness :
  exists st' tr,
    enviar_palpite [entradas_exemplo 100 8 ["red"; "blue"; "orange"];
                    entradas_exemplo 130 8 ["blue"; "red"; "blue"]] estado_no_limite
    = (Py.Ok tt, st', tr) /\
    placar st' = placar estado_no_limite /\
    antigos st' = None /\
    palpites tr = [] /\
    ([entradas_exemplo 100 8 ["red"; "blue"; "orange"];
      entradas_exemplo 130 8 ["blue"; "red"; "blue"]] <> [] ->
     In (erro_no_passo (Py.UnboundLocalError "old_acertos")) tr).
Proof.
  apply (threshold_reset_never_runs _ estado_no_limite); reflexivity.
Defined.

(** The thresholds of lines 974-975 are within reach of the loop: the run
    above ends on 150 hits and 50 misses in 200 predictions, with nothing
    saved of an earlier scoreboard. *)
Example thresholds_are_reached :
  let st := snd (fst (enviar_palpite corrida_ate_ao_limite (estado_inicial 0))) in
  acertos (placar st) = 150 /\ erros (placar st) = 50 /\ total (placar st) = 200 /\
  antigos st = None /\
  limite_atingido (placar st) = true.
Proof. vm_compute. repeat split; reflexivity. Qed.

Section Pontuacao.

(** The miss branch, lines 1100-1151, on any store. *)
Lemma erro_spec (st : Estado) :
  exists status st',
    erro st = (Py.Ok (status, None), st', []) /\
    acertos (placar st') = acertos (placar st) /\
    erros (placar st') = erros (placar st) + 1 /\
    total (placar st') = total (placar st) /\
    greens_seguidos (placar st') = 0 /\
    consecutive_errors st' = consecutive_errors st /\
    antigos st' = antigos st.
Proof.
  unfold erro, no_placar, atribui. mstep. cbn [contagem_gales set_contagem_gales set_placar].
  destruct (max_gales <=? contagem_gales st + 1); mstep;
    eexists _, _; (split; [reflexivity|]); cbn;
    destruct (max_reds_seguidos (placar st) <? reds_seguidos (placar st) + 1);
    repeat split.
Qed.

End Pontuacao.

(** C1, as the code has it.  When a scored miss brings the count of
    consecutive misses from 4 to 5, the scoring step does assign
    acertos = 0, erros = 5, total = 5 and clears the count; the miss is
    then counted once more by the branch every miss takes, so the message
    of that pass shows acertos = 0 and erros = 6 while total is left at
    5. *)
Theorem fifth_miss_baseline_is_overcounted :
  forall (e : Entradas) (st : Estado) (resultado_real palpite : string),
    consecutive_errors st = Some 4 ->
    truthy (Some resultado_real) = Some resultado_real ->
    Py.dict_get (Py.dict_get resultado_mapa resultado_real []) palpite false = false ->
    exists m st' tr,
      pontuacao e (Some resultado_real) palpite st = (Py.Ok m, st', tr) /\
      consecutive_errors st' = Some 0 /\
      acertos (placar st') = 0 /\
      erros (placar st') = 6 /\
      total (placar st') = 5 /\
      m_acertos m = 0 /\
      m_erros m = 6.
Proof.
  intros e st real palpite Hc Ht Hmiss.
  unfold pontuacao, avalia. rewrite Ht, Hmiss.
  unfold no_placar, atribui. mstep. rewrite Hc. mstep.
  cbn [consecutive_errors set_consecutive_errors Z.leb Z.add Z.compare Pos.add Pos.succ
       Pos.compare Pos.compare_cont].
  mstep.
  match goal with |- context [erro ?s] => destruct (erro_spec s) as
      (status & st' & E & Ha & He & Htot & Hg & Hce & _) end.
  rewrite E. unfold compoe. mstep.
  eexists _, _, _. split; [reflexivity|].
  cbn in Ha, He, Htot, Hce. cbn [m_acertos m_erros].
  repeat split; congruence || lia.
Qed.

Lemma fifth_miss_baseline_is_overcounted_witness :
  exists m st' tr,
    pontuacao (entradas_exemplo 100 8 ["red"]) (Some vermelho) laranja_e_azul
              estado_quatro_erros
    = (Py.Ok m, st', tr) /\
    consecutive_errors st' = Some 0 /\
    acertos (placar st') = 0 /\
    erros (placar st') = 6 /\
    total (placar st') = 5 /\
    m_acertos m = 0 /\
    m_erros m = 6.
Proof.
  apply (fifth_miss_baseline_is_overcounted
           (entradas_exemplo 100 8 ["red"]) estado_quatro_erros vermelho laranja_e_azul);
    reflexivity.
Defined.

(** The same pass, run whole: the message that goes out. *)
Example fifth_miss_message :
  palpites (snd (passo (entradas_exemplo 100 8 ["red"; "blue"; "orange"; "red"; "blue"])
                       estado_quatro_erros))
  = [{| m_status := ERRAMOS_ADAPTANDO;
        m_palpite := laranja_e_azul;
        m_bonus := None;
        m_modo_indicador := false;
        m_acertos := 0;
        m_erros := 6;
        m_taxa := taxa_de 0 |}].
Proof. vm_compute. reflexivity. Qed.

Section Passo.

Lemma preparo_sem_limite (e : Entradas) (st : Estado) :
  limite_atingido (placar st) = false ->
  match preparo e st with
  | (_, st', tr) => mesmo_placar st st' /\ sem_palpites tr
  end.
Proof.
  intros Hl.
  destruct (placar_periodico_ok e st) as (st1 & tr1 & E & R1 & S1).
  unfold preparo, gerar_palpite. mstep. rewrite E.
  assert (Hl1 : limite_atingido (placar st1) = false)
    by (destruct R1 as [-> _]; exact Hl).
  rewrite (reinicio_placar_salta e st1 Hl1).
  pose proof (estrategia_quieta (prediction_generator e) (rede_palpite e)
                (momento_palpite e) st1) as H.
  destruct (estrategia_alta_assertividade _ _ _ st1) as [[[[[p g] d]|ex] st2] tr2];
    destruct H as [R2 S2]; cbn [app];
    (split; [exact (mesmo_placar_trans _ _ _ R1 R2)|]).
  - rewrite app_nil_r. now apply sem_palpites_app.
  - now apply sem_palpites_app.
Qed.

End Passo.

(** C9.  While the module has no name [consecutive_errors], a pass whose
    prediction is scored as a miss ends in the handler of the pass: the
    increment raises [NameError] after the prediction has been counted,
    the error is logged, no prediction message is posted, [acertos] and
    [erros] keep their values and [total] is one more than their sum. *)
Theorem first_scored_miss_raises_name_error :
  forall (e : Entradas) (st st1 st2 : Estado) (tr1 tr2 : list Evento)
         (palpite resultado_real : string) (dados : Resultados),
    consecutive_errors st = None ->
    total (placar st) = acertos (placar st) + erros (placar st) ->
    limite_atingido (placar st) = false ->
    preparo e st = (Py.Ok palpite, st1, tr1) ->
    chama_atualizar (rede_resultado e) (contado st1) = (Py.Ok dados, st2, tr2) ->
    truthy (resultado_atual dados) = Some resultado_real ->
    Py.dict_get (Py.dict_get resultado_mapa resultado_real []) palpite false = false ->
    exists st' tr,
      passo e st = (Py.Ok tt, st', tr) /\
      In (erro_no_passo (Py.NameError "consecutive_errors")) tr /\
      palpites tr = [] /\
      acertos (placar st') = acertos (placar st) /\
      erros (placar st') = erros (placar st) /\
      total (placar st') = acertos (placar st') + erros (placar st') + 1.
Proof.
  intros e st st1 st2 tr1 tr2 palpite real dados Hce Hinv Hl E1 E2 Ht Hm.
  pose proof (preparo_sem_limite e st Hl) as H1. rewrite E1 in H1.
  destruct H1 as [(Hp1 & Hc1 & _) S1].
  pose proof (chama_atualizar_quieto (rede_resultado e) (contado st1)) as H2.
  rewrite E2 in H2. destruct H2 as [(Hp2 & Hc2 & _) S2].
  unfold contado in *.
  unfold passo, corpo, no_placar, atribui. mstep. rewrite E1. mstep. rewrite E2.
  unfold pontuacao, avalia. rewrite Ht, Hm. mstep.
  cbn [consecutive_errors set_placar] in Hc2.
  rewrite Hc2, Hc1, Hce. unfold regista. mstep.
  eexists _, _. split; [reflexivity|].
  split; [unfold erro_no_passo; no_log|].
  split.
  - rewrite !palpites_app. unfold sem_palpites in S1, S2. now rewrite S1, S2.
  - rewrite Hp2. cbn [placar set_placar acertos erros total set_total].
    rewrite Hp1. repeat split. lia.
Qed.

(** The first pass after the module has loaded, with a feed that reports
    a red round while the morning pick is orange-and-blue. *)
Lemma first_scored_miss_raises_name_error_witness :
  exists st' tr,
    passo (entradas_exemplo 100 8 ["red"; "blue"; "orange"; "red"; "blue"])
          (estado_inicial 0)
    = (Py.Ok tt, st', tr) /\
    In (erro_no_passo (Py.NameError "consecutive_errors")) tr /\
    palpites tr = [] /\
    acertos (placar st') = acertos (placar (estado_inicial 0)) /\
    erros (placar st') = erros (placar (estado_inicial 0)) /\
    total (placar st') = acertos (placar st') + erros (placar st') + 1.
Proof.
  eapply (first_scored_miss_raises_name_error
            (entradas_exemplo 100 8 ["red"; "blue"; "orange"; "red"; "blue"])
            (estado_inicial 0) _ _ _ _ laranja_e_azul vermelho).
  - reflexivity.
  - reflexivity.
  - reflexivity.
  - vm_compute. reflexivity.
  - vm_compute. reflexivity.
  - reflexivity.
  - reflexivity.
Defined.

(** Closes a goal [sem_palpites tr] from the silent pieces of [tr]. *)
Ltac cala :=
  unfold sem_palpites in *; rewrite ?palpites_app;
  repeat match goal with
         | H : palpites ?t = [] |- context [palpites ?t] => rewrite H
         end;
  reflexivity.

Section Taxa.

Lemma reinicio_canais_ok (e : Entradas) (a : Antigos) (canais : list ChatId) (st : Estado) :
  exists tr, reinicio_canais e a canais st = (Py.Ok tt, st, tr) /\ sem_palpites tr.
Proof.
  induction canais as [|c rest IH]; cbn [reinicio_canais]; [now eexists|].
  destruct (envia_reinicio e c); [now eexists|].
  destruct IH as [tr [IH S]]. unfold regista. mstep. rewrite IH. now eexists.
Qed.

Lemma reinicio_placar_greens (e : Entradas) (st : Estado) :
  greens_nao_negativo st ->
  match reinicio_placar e st with
  | (_, st', tr) => greens_nao_negativo st' /\ sem_palpites tr
  end.
Proof.
  intros Hg. unfold reinicio_placar. mstep.
  destruct (limite_atingido (placar st)); [|now split].
  destruct (antigos st) as [a|]; cbn [le_local]; mstep; [|now split].
  destruct (old_total a =? 0); mstep; [now split|].
  destruct (reinicio_canais_ok e a (canal_ids st) st) as [tr [E S]].
  rewrite E. unfold no_placar, atribui, regista. mstep.
  split; [unfold greens_nao_negativo; cbn; lia | cala].
Qed.

Lemma preparo_greens (e : Entradas) (st : Estado) :
  greens_nao_negativo st ->
  match preparo e st with
  | (_, st', tr) => greens_nao_negativo st' /\ sem_palpites tr
  end.
Proof.
  intros Hg.
  destruct (placar_periodico_ok e st) as (st1 & tr1 & E & (Hp1 & _) & S1).
  unfold preparo, gerar_palpite. mstep. rewrite E.
  assert (Hg1 : greens_nao_negativo st1) by (unfold greens_nao_negativo; now rewrite Hp1).
  pose proof (reinicio_placar_greens e st1 Hg1) as H2.
  destruct (reinicio_placar e st1) as [[[[]|ex] st2] tr2]; destruct H2 as [Hg2 S2].
  - pose proof (estrategia_quieta (prediction_generator e) (rede_palpite e)
                  (momento_palpite e) st2) as H3.
    destruct (estrategia_alta_assertividade _ _ _ st2) as [[[[[p g] d]|ex] st3] tr3];
      destruct H3 as [(Hp3 & _) S3]; cbn [app];
      (split; [unfold greens_nao_negativo; now rewrite Hp3|]).
    + cala.
    + cala.
  - split; [exact Hg2 | cala].
Qed.

Lemma avalia_greens (e : Entradas) (rr : option string) (palpite : string) (st : Estado) :
  match avalia e rr palpite st with
  | (_, st', tr) => greens_seguidos (placar st') = greens_seguidos (placar st) /\ tr = []
  end.
Proof.
  unfold avalia, no_placar, atribui.
  destruct (truthy rr) as [real|]; [|now split].
  destruct (Py.dict_get _ palpite false); mstep; [now split|].
  destruct (consecutive_errors st) as [n|]; mstep; [|now split].
  cbn [consecutive_errors set_consecutive_errors].
  destruct (5 <=? n + 1); mstep; now split.
Qed.

Lemma acerto_greens (e : Entradas) (st : Estado) :
  greens_nao_negativo st ->
  match acerto e st with
  | (_, st', tr) => greens_nao_negativo st' /\ sem_palpites tr
  end.
Proof.
  unfold greens_nao_negativo. intros Hg. unfold acerto, no_placar, atribui. mstep.
  match goal with |- context [estrategia_alta_assertividade ?a ?b ?c ?s] =>
    pose proof (estrategia_quieta a b c s) as H;
    destruct (estrategia_alta_assertividade a b c s) as [[[[[p g] d]|ex] st1] tr1]
  end; destruct H as [(Hp & _) S]; rewrite Hp; cbn [app];
    (split; [|cala]).
  all: cbn; destruct (max_greens_seguidos (placar st) <? greens_seguidos (placar st) + 1);
    cbn; lia.
Qed.

(** The scoring step posts nothing, keeps the streak non-negative, and
    the message it composes shows the rate of the streak it leaves. *)
Lemma pontuacao_taxa (e : Entradas) (rr : option string) (palpite : string) (st : Estado) :
  greens_nao_negativo st ->
  match pontuacao e rr palpite st with
  | (r, st', tr) =>
    greens_nao_negativo st' /\ sem_palpites tr /\
    forall m, r = Py.Ok m -> m_taxa m = taxa_de (greens_seguidos (placar st'))
  end.
Proof.
  intros Hg. unfold pontuacao. mstep.
  pose proof (avalia_greens e rr palpite st) as Ha.
  destruct (avalia e rr palpite st) as [[[acertou|ex] st1] tr1]; destruct Ha as [Hg1 ->];
    [|split; [unfold greens_nao_negativo; now rewrite Hg1 | split; [reflexivity | discriminate]]].
  assert (Hg1' : greens_nao_negativo st1) by (unfold greens_nao_negativo; now rewrite Hg1).
  assert (Hmarca : match (if acertou then acerto e else erro) st1 with
                   | (_, st', tr) => greens_nao_negativo st' /\ sem_palpites tr
                   end).
  { destruct acertou; [now apply acerto_greens|].
    destruct (erro_spec st1) as (status & st' & E & _ & _ & _ & Hz & _).
    rewrite E. split; [unfold greens_nao_negativo; lia | reflexivity]. }
  destruct ((if acertou then acerto e else erro) st1) as [[[[status bonus]|ex] st2] tr2];
    destruct Hmarca as [Hg2 S2]; cbn [app].
  - unfold compoe. mstep. split; [exact Hg2|]. split.
    + cala.
    + intros m Hm. injection Hm as <-. reflexivity.
  - split; [exact Hg2|]. split; [cala | discriminate].
Qed.

(** One pass from a store with a non-negative streak. *)
Lemma passo_taxa (e : Entradas) (st : Estado) :
  greens_nao_negativo st ->
  match passo e st with
  | (_, st', tr) =>
    greens_nao_negativo st' /\
    forall m, In m (palpites tr) -> m_taxa m = taxa_de (greens_seguidos (placar st'))
  end.
Proof.
  intros Hg. unfold passo, corpo. mstep.
  assert (Hfim : forall st0 tr0 ex,
             greens_nao_negativo st0 -> sem_palpites tr0 ->
             greens_nao_negativo st0 /\
             forall m, In m (palpites (tr0 ++ [erro_no_passo ex; EDorme 30])) ->
                       m_taxa m = taxa_de (greens_seguidos (placar st0))).
  { intros st0 tr0 ex H0 S0. split; [exact H0|]. intros m Hin.
    rewrite palpites_app, S0 in Hin. destruct Hin. }
  pose proof (preparo_greens e st Hg) as H1.
  destruct (preparo e st) as [[[palpite|ex] st1] tr1]; destruct H1 as [Hg1 S1];
    [|unfold regista; mstep; now apply Hfim].
  unfold no_placar at 1. unfold atribui. mstep.
  pose proof (chama_atualizar_quieto (rede_resultado e) (contado st1)) as H2.
  unfold contado in H2.
  destruct (chama_atualizar (rede_resultado e) _) as [[[dados|ex] st2] tr2];
    destruct H2 as [(Hp2 & _) S2];
    [|unfold regista; mstep; apply Hfim;
      [unfold greens_nao_negativo; rewrite Hp2; exact Hg1
      |cala]].
  assert (Hg2 : greens_nao_negativo st2)
    by (unfold greens_nao_negativo; rewrite Hp2; exact Hg1).
  pose proof (pontuacao_taxa e (resultado_atual dados) palpite st2 Hg2) as H3.
  destruct (pontuacao e (resultado_atual dados) palpite st2) as [[[m|ex] st3] tr3];
    destruct H3 as (Hg3 & S3 & Hm);
    [|unfold regista; mstep; apply Hfim;
      [exact Hg3 | cala]].
  specialize (Hm m eq_refl).
  pose proof (entrega_so_palpite e m st3) as H4.
  destruct (entrega e m st3) as [[r st4] tr4]. destruct H4 as [(Hp4 & _) S4].
  assert (Hg4 : greens_nao_negativo st4)
    by (unfold greens_nao_negativo; rewrite Hp4; exact Hg3).
  assert (Hpal : forall tr5, sem_palpites tr5 ->
            forall m', In m' (palpites (tr1 ++ ([] ++ tr2 ++ tr3 ++ tr4) ++ tr5)) ->
                       m_taxa m' = taxa_de (greens_seguidos (placar st4))).
  { intros tr5 S5 m' Hin.
    rewrite !palpites_app in Hin. cbn [palpites app] in Hin.
    unfold sem_palpites in S1, S2, S3, S5. rewrite S1, S2, S3, S5 in Hin.
    cbn [app] in Hin. rewrite app_nil_r in Hin.
    rewrite (S4 m' Hin), Hp4. exact Hm. }
  destruct r as [[]|ex]; cbn [app].
  - split; [exact Hg4|]. intros m' Hin. apply (Hpal [] eq_refl).
    now rewrite app_nil_r.
  - unfold regista. mstep. split; [exact Hg4|].
    intros m' Hin. apply (Hpal [erro_no_passo ex; EDorme 30] eq_refl).
    cbn [app] in *. now rewrite <- !app_assoc in *.
Qed.

Lemma alcancavel_greens (st : Estado) : alcancavel st -> greens_nao_negativo st.
Proof.
  induction 1 as [t|st e r st' tr _ IH E].
  - unfold greens_nao_negativo. cbn. lia.
  - pose proof (passo_taxa e st IH) as H. rewrite E in H. apply H.
Qed.

Lemma taxa_de_limites (g : Z) : 0 <= g -> (50 <= taxa_de g)%Q /\ (taxa_de g <= 99)%Q.
Proof.
  intros Hg. unfold taxa_de.
  destruct (Q.min_spec (inject_Z (g * 2)) 49) as [[Hlt Hmin]|[Hle Hmin]]; rewrite Hmin.
  - split.
    + apply Qle_trans with (50 + inject_Z 0)%Q; [apply Qle_refl|].
      apply Qplus_le_r. rewrite <- Zle_Qle. lia.
    + apply Qle_trans with (50 + 49)%Q; [|apply Qle_refl || (now compute)].
      apply Qplus_le_r. now apply Qlt_le_weak.
  - split; now compute.
Qed.

End Taxa.

(** C10.  For every pass the loop can make, each prediction message it
    posts shows the rate 50 + min(2 g, 49), where g is the streak of
    consecutive hits the pass leaves in the store; the rate lies between
    50 and 99.  The rate is a function of the streak alone: composing the
    message on a store that differs in the other counters gives the same
    rate. *)
Theorem taxa_is_fifty_plus_capped_streak :
  forall (st : Estado) (e : Entradas) (r : Py.Res unit) (st' : Estado)
         (tr : list Evento) (m : Mensagem),
    alcancavel st ->
    passo e st = (r, st', tr) ->
    In m (palpites tr) ->
    let g := greens_seguidos (placar st') in
    m_taxa m = (50 + Qmin (inject_Z (g * 2)) 49)%Q /\
    (50 <= m_taxa m)%Q /\ (m_taxa m <= 99)%Q /\
    forall (p : Placar) (status : Status) (palpite : string) (bonus : option string) m',
      greens_seguidos p = g ->
      fst (fst (compoe status palpite bonus (set_placar p st'))) = Py.Ok m' ->
      m_taxa m' = m_taxa m.
Proof.
  intros st e r st' tr m Halc E Hin g.
  pose proof (passo_taxa e st (alcancavel_greens st Halc)) as H.
  rewrite E in H. destruct H as [Hg Hm]. specialize (Hm m Hin).
  destruct (taxa_de_limites _ Hg) as [Hlo Hhi].
  rewrite Hm. repeat split; try assumption.
  intros p status palpite bonus m' Hp Hc.
  unfold compoe in Hc. mstep_in Hc. cbn in Hc. injection Hc as <-.
  cbn [m_taxa]. now rewrite Hp.
Qed.

(** The first pass after the module has loaded, scored as a hit. *)
Lemma taxa_is_fifty_plus_capped_streak_witness :
  let m := {| m_status := ACERTAMOS;
              m_palpite := laranja_e_azul;
              m_bonus := Some laranja_e_azul;
              m_modo_indicador := false;
              m_acertos := 1;
              m_erros := 0;
              m_taxa := taxa_de 1 |} in
  m_taxa m = (50 + Qmin (inject_Z (1 * 2)) 49)%Q /\
  (50 <= m_taxa m)%Q /\ (m_taxa m <= 99)%Q.
Proof.
  intros m.
  destruct (passo (entradas_exemplo 100 8 ["blue"; "red"; "orange"; "red"; "blue"])
                  (estado_inicial 0)) as [[r st'] tr] eqn:E.
  assert (Hin : In m (palpites tr)).
  { assert (H : palpites
                  (snd (passo (entradas_exemplo 100 8 ["blue"; "red"; "orange"; "red"; "blue"])
                              (estado_inicial 0))) = [m])
      by (vm_compute; reflexivity).
    rewrite E in H. cbn [snd] in H. rewrite H. now left. }
  assert (Hg : greens_seguidos (placar st') = 1).
  { assert (H : greens_seguidos
                  (placar
                     (snd (fst (passo (entradas_exemplo 100 8
                                         ["blue"; "red"; "orange"; "red"; "blue"])
                                      (estado_inicial 0))))) = 1)
      by (vm_compute; reflexivity).
    rewrite E in H. exact H. }
  pose proof (taxa_is_fifty_plus_capped_streak _ _ _ _ _ m (alcancavel_inicio 0) E Hin) as H.
  cbv zeta in H. rewrite Hg in H. destruct H as (H1 & H2 & H3 & _).
  split; [exact H1 | split; [exact H2 | exact H3]].
Defined.

(** ** The prediction picker *)

Section Picker.

Lemma choice_in (seq : list string) (draw : nat) (p : string) :
  choice seq draw = Py.Ok p -> In p seq.
Proof.
  destruct seq as [|x seq]; intros H; [discriminate|].
  change (Py.Ok (nth (draw mod List.length (x :: seq)) (x :: seq) x) = Py.Ok p) in H.
  replace p with (nth (draw mod List.length (x :: seq)) (x :: seq) x) by congruence.
  apply nth_In. apply Nat.mod_upper_bound. discriminate.
Qed.

Lemma choice_ok (seq : list string) (draw : nat) :
  seq <> [] -> exists p, choice seq draw = Py.Ok p.
Proof. destruct seq; [congruence|]. intros _. now eexists. Qed.


End Picker.




(** ** The send helper as a whole *)

Section HelperTodo.

Lemma sem_sucesso_app (tr tr' : list Event) :
  sem_sucesso tr -> sem_sucesso tr' -> sem_sucesso (tr ++ tr').
Proof. unfold sem_sucesso. intros H H'. now rewrite forallb_app, H, H'. Qed.

Lemma envios_app (tr tr' : list Event) : envios (tr ++ tr') = (envios tr + envios tr')%nat.
Proof. unfold envios. now rewrite filter_app, length_app. Qed.


(** One destination: the attempts stop at the first send that goes
    through, there are at most [restantes] of them, and [k] counts them. *)
Lemma tentativas_forma (bot : Bot) (c : ChatId) (restantes attempt k : nat) (backoff : Q) :
  match tentativas bot c restantes attempt k backoff with
  | (Some m, k', tr) =>
    (exists pre a, tr = pre ++ [EvSend c a (SendOk m)] /\ sem_sucesso pre) /\
    (envios tr <= restantes)%nat /\ k' = (k + envios tr)%nat
  | (None, k', tr) =>
    sem_sucesso tr /\ (envios tr <= restantes)%nat /\ k' = (k + envios tr)%nat
  end.
Proof.
  revert attempt k backoff.
  induction restantes as [|r IH]; intros attempt k backoff; cbn [tentativas].
  - repeat split; cbn; lia.
  - destruct (bot k c) as [m|msg] eqn:Eb.
    + split; [exists [], attempt; now split|]. cbn. split; lia.
    + assert (Hstep : forall b' s,
                 match (let '(m, k', tr) := tentativas bot c r (S attempt) (S k) b' in
                        (m, k', EvSend c attempt (SendErr msg) :: EvSleep s :: tr)) with
                 | (Some m, k', tr) =>
                   (exists pre a, tr = pre ++ [EvSend c a (SendOk m)] /\ sem_sucesso pre) /\
                   (envios tr <= S r)%nat /\ k' = (k + envios tr)%nat
                 | (None, k', tr) =>
                   sem_sucesso tr /\ (envios tr <= S r)%nat /\ k' = (k + envios tr)%nat
                 end).
      { intros b' s. specialize (IH (S attempt) (S k) b').
        destruct (tentativas bot c r (S attempt) (S k) b') as [[[m|] k'] tr].
        - destruct IH as ((pre & a & -> & Hpre) & Hn & ->).
          split; [|unfold envios in *; cbn [filter e_envio List.length]; split; lia].
          exists (EvSend c attempt (SendErr msg) :: EvSleep s :: pre), a.
          split; [reflexivity|]. exact Hpre.
        - destruct IH as (Hs & Hn & ->).
          split; [exact Hs|]. unfold envios in *. cbn [filter e_envio List.length]. split; lia. }
      destruct (Py.contains "Too Many Requests: retry after" msg).
      * destruct (rate_limit_wait msg); apply Hstep.
      * destruct (Py.contains "chat not found" (Py.lower msg)); [|apply Hstep].
        split; [reflexivity|]. cbn. split; lia.
Qed.

Lemma destinos_forma (bot : Bot) (chat_ids : list ChatId) (rc : nat) (timeout : Q) (k : nat) :
  match destinos bot chat_ids rc timeout k with
  | (sent, success, tr) =>
    (envios tr <= List.length chat_ids * rc)%nat /\
    if success then
      exists pre c a m, tr = pre ++ [EvSend c a (SendOk m)] /\ sem_sucesso pre /\
                        sent = Some m /\ In c chat_ids
    else sent = None /\ sem_sucesso tr
  end.
Proof.
  revert k. induction chat_ids as [|c rest IH]; intros k; cbn [destinos].
  - split; [cbn; lia|]. now split.
  - pose proof (tentativas_forma bot c rc 0 k timeout) as H.
    destruct (tentativas bot c rc 0 k timeout) as [[[m|] k'] tr].
    + destruct H as ((pre & a & -> & Hpre) & Hn & _).
      split; [cbn [List.length]; lia|].
      exists pre, c, a, m. repeat split; auto. now left.
    + destruct H as (Hs & Hn & _). specialize (IH k').
      destruct (destinos bot rest rc timeout k') as [[sent success] tr'].
      destruct IH as [Hn' IH]. rewrite envios_app.
      split; [cbn [List.length]; lia|].
      destruct success.
      * destruct IH as (pre & c' & a & m & -> & Hpre & -> & Hin).
        exists (tr ++ pre), c', a, m. rewrite app_assoc.
        repeat split; auto; [now apply sem_sucesso_app | now right].
      * destruct IH as [-> Hs']. split; [reflexivity | now apply sem_sucesso_app].
Qed.

End HelperTodo.



Section HelperEsperas.





End HelperEsperas.

(** X2.  The helper makes at most len(chat_ids) * retry_count calls of
    [bot.send_message], for a timeout that is not negative. *)
Theorem helper_bounded_calls :
  forall (bot : Bot) (chat_ids : list ChatId) (retry_count : nat) (timeout : Q),
    (0 <= timeout)%Q ->
    (envios (snd (enviar_mensagem_resiliente bot (ListaChats chat_ids) retry_count timeout))
     <= List.length chat_ids * retry_count)%nat.
Proof.
  intros bot chat_ids rc timeout _. unfold enviar_mensagem_resiliente.
  pose proof (destinos_forma bot chat_ids rc timeout 0) as H.
  destruct (destinos bot chat_ids rc timeout 0) as [[sent success] tr].
  destruct H as [Hn _]. cbn [snd]. rewrite envios_app. cbn. lia.
Qed.

Lemma helper_bounded_calls_witness :
  (envios (snd (enviar_mensagem_resiliente (bot_recusa "Bad Gateway")
                  (ListaChats [CANAL_ID; CANAL_ID_ALT; CANAL_HANDLE]) 3 2))
   <= 3 * 3)%nat.
Proof.
  apply (helper_bounded_calls (bot_recusa "Bad Gateway")
           [CANAL_ID; CANAL_ID_ALT; CANAL_HANDLE] 3 2).
  unfold Qle; cbn; lia.
Defined.



(** ** The feed: cache, trend and label of the source *)

Section FeedMais.

Lemma Qltb_lt (a b : Q) : (a < b)%Q -> Qltb a b = true.
Proof.
  intros H. unfold Qltb. destruct (Qle_bool b a) eqn:E; [|reflexivity].
  apply Qle_bool_iff in E. exfalso. exact (Qlt_not_le _ _ H E).
Qed.

(** Case analysis along a program, one scrutinee at a time. *)
Lemma via_api_locals (env : Rede) (st : FeedSt) :
  match via_api env st with
  | (r, st', _) =>
    data_in_locals st' = (data_in_locals st || api_decodificada env)%bool /\
    soup_in_locals st' = soup_in_locals st /\
    (forall x, r = Py.Ok x -> api_decodificada env = true)
  end.
Proof.
  unfold via_api, api_decodificada, logger, bind_data.
  destruct (api env) as [e|code json]; mstep.
  - rewrite orb_false_r. repeat split. discriminate.
  - destruct json as [data|e], (code =? 200); mstep;
      cbn [data_in_locals soup_in_locals resultados_anteriores];
      rewrite ?orb_false_r, ?orb_true_r;
      try (repeat split; discriminate).
    destruct (json_get data "rounds" (JArr [])) as [rounds|e]; mstep;
      [|repeat split; discriminate].
    destruct (slice_10 rounds) as [rs|e]; mstep; [|repeat split; discriminate].
    destruct (api_rounds rs) as [[|novo rest]|e]; mstep; repeat split; discriminate.
Qed.

Lemma via_scraping_locals (env : Rede) (st : FeedSt) :
  match via_scraping env st with
  | (_, st', _) =>
    data_in_locals st' = data_in_locals st /\
    soup_in_locals st' = (soup_in_locals st || pagina_200 env)%bool
  end.
Proof.
  unfold via_scraping, pagina_200, logger, bind_soup.
  destruct (pagina env) as [e|code cont]; mstep.
  - now rewrite orb_false_r.
  - destruct (code =? 200); mstep; [|now rewrite orb_false_r].
    cbn [data_in_locals soup_in_locals]. rewrite orb_true_r.
    destruct cont as [items|]; mstep; [|now split].
    destruct (map item_emoji (firstn 10 items)); mstep; now split.
Qed.

Lemma simulacao_locals (env : Rede) (st : FeedSt) :
  match simulacao env st with
  | (_, st', _) => st' = st
  end.
Proof. unfold simulacao, logger. destruct (sorteio env). mstep. reflexivity. Qed.

(** Which locals the chain of sources leaves bound. *)
Lemma obtem_locals (env : Rede) (global : Resultados) :
  match obtem env {| resultados_anteriores := global;
                     data_in_locals := false; soup_in_locals := false |} with
  | (_, st', _) =>
    data_in_locals st' = api_decodificada env /\
    (api_decodificada env = false -> soup_in_locals st' = pagina_200 env)
  end.
Proof.
  unfold obtem. mstep.
  set (st0 := {| resultados_anteriores := global |}).
  pose proof (via_api_locals env st0) as H1.
  destruct (via_api env st0) as [[[x|e] st1] l1]; destruct H1 as (Hd1 & Hs1 & Hok).
  - cbn in Hd1. split; [exact Hd1|]. rewrite (Hok x eq_refl). discriminate.
  - unfold logger at 1. mstep.
    pose proof (via_scraping_locals env st1) as H2.
    destruct (via_scraping env st1) as [[[x|e'] st2] l2]; destruct H2 as (Hd2 & Hs2).
    + cbn in Hd1, Hs1. rewrite Hd2, Hs2, Hd1, Hs1. now split.
    + unfold logger at 1 2. mstep.
      pose proof (simulacao_locals env st2) as H3.
      destruct (simulacao env st2) as [[r st3] l3]. subst st3.
      cbn in Hd1, Hs1. rewrite Hd2, Hs2, Hd1, Hs1. now split.
Qed.

Lemma max_key_tres (nv na nl : Z) (janela : list string) :
  nv = ocorrencias vermelho janela -> na = ocorrencias azul janela ->
  nl = ocorrencias laranja janela ->
  max_key (vermelho, nv) [(azul, na); (laranja, nl)] = mais_frequente janela.
Proof.
  intros -> -> ->. unfold mais_frequente. cbn [max_key fst snd].
  destruct (Z.ltb_spec (ocorrencias vermelho janela) (ocorrencias azul janela));
    cbn [snd];
    destruct (Z.ltb_spec (ocorrencias azul janela) (ocorrencias laranja janela));
    destruct (Z.ltb_spec (ocorrencias vermelho janela) (ocorrencias laranja janela));
    destruct (Z.leb_spec (ocorrencias azul janela) (ocorrencias vermelho janela));
    destruct (Z.leb_spec (ocorrencias laranja janela) (ocorrencias vermelho janela));
    destruct (Z.leb_spec (ocorrencias laranja janela) (ocorrencias azul janela));
    cbn [andb fst]; try reflexivity; lia.
Qed.

End FeedMais.

(** X4.  Two refreshes less than ten seconds apart: the second one makes
    no request and writes no log, and returns the dictionary that the
    first one stored. *)
Theorem refresh_within_ten_seconds_is_cached :
  forall (env1 env2 : Rede) (global r1 g1 : Resultados) (logs1 : list LogRec),
    cache_fresco env1 global = false ->
    atualizar_resultados_elephant env1 global = (Py.Ok r1, g1, logs1) ->
    (time_time env2 - time_time env1 < 10)%Q ->
    g1 = r1 /\
    atualizar_resultados_elephant env2 g1 = (Py.Ok r1, r1, []).
Proof.
  intros env1 env2 global r1 g1 logs1 Hc Hrun Hlt.
  destruct (atualizar_expirado env1 global Hc) as (novo & recent & st' & logs & _ & _ & _ & R).
  rewrite R in Hrun. injection Hrun as <- <- _.
  split; [reflexivity|].
  apply atualizar_fresco. unfold cache_fresco. cbn [registo ultima_atualizacao].
  now apply Qltb_lt.
Qed.

Lemma refresh_within_ten_seconds_is_cached_witness :
  exists r1,
    atualizar_resultados_elephant (rede_api 103 ["blue"])
      (snd (fst (atualizar_resultados_elephant (rede_api 100 ["red"; "blue"])
                   (resultados_iniciais 0))))
    = (Py.Ok r1, r1, []) /\
    resultado_atual r1 = Some vermelho.
Proof.
  destruct (atualizar_resultados_elephant (rede_api 100 ["red"; "blue"])
              (resultados_iniciais 0)) as [[r g] logs] eqn:E.
  assert (Hr : fst (fst (atualizar_resultados_elephant (rede_api 100 ["red"; "blue"])
                           (resultados_iniciais 0)))
               = Py.Ok (snd (fst (atualizar_resultados_elephant (rede_api 100 ["red"; "blue"])
                                    (resultados_iniciais 0)))))
    by (vm_compute; reflexivity).
  assert (Ha : resultado_atual
                 (snd (fst (atualizar_resultados_elephant (rede_api 100 ["red"; "blue"])
                              (resultados_iniciais 0)))) = Some vermelho)
    by (vm_compute; reflexivity).
  rewrite E in Hr, Ha. cbn [fst snd] in *. subst r.
  destruct (refresh_within_ten_seconds_is_cached
              (rede_api 100 ["red"; "blue"]) (rede_api 103 ["blue"])
              (resultados_iniciais 0) g g logs) as [_ H].
  - reflexivity.
  - exact E.
  - unfold Qlt; cbn; lia.
  - exists g. split; [exact H | exact Ha].
Defined.

(** X5.  After a refresh past the cache window the stored trend is a
    colour that no colour outnumbers in the stored window; among the
    colours that occur most often it is the first in the order 🔴, 🔵,
    🟠. *)
Theorem refresh_trend_is_most_frequent :
  forall (env : Rede) (global r g : Resultados) (logs : list LogRec),
    cache_fresco env global = false ->
    atualizar_resultados_elephant env global = (Py.Ok r, g, logs) ->
    let janela := ultimos_10 r in
    cor_valida (tendencia r) /\
    (forall c, cor_valida c -> ocorrencias c janela <= ocorrencias (tendencia r) janela) /\
    tendencia r = mais_frequente janela.
Proof.
  intros env global r g logs Hc Hrun.
  destruct (atualizar_expirado env global Hc) as (novo & recent & st' & logs' & _ & _ & _ & R).
  rewrite R in Hrun. injection Hrun as <- _ _.
  cbn [registo ultimos_10 tendencia]. cbv zeta.
  rewrite (max_key_tres _ _ _ recent eq_refl eq_refl eq_refl).
  unfold mais_frequente.
  destruct (Z.leb_spec (ocorrencias azul recent) (ocorrencias vermelho recent));
    destruct (Z.leb_spec (ocorrencias laranja recent) (ocorrencias vermelho recent));
    destruct (Z.leb_spec (ocorrencias laranja recent) (ocorrencias azul recent));
    cbn [andb];
    (split; [unfold cor_valida; auto|]); (split; [|reflexivity]);
    intros c [-> | [-> | ->]]; lia.
Qed.

Lemma refresh_trend_is_most_frequent_witness :
  exists r, fst (fst (atualizar_resultados_elephant (rede_api 100 ["red"; "blue"; "blue"])
                        (resultados_iniciais 0))) = Py.Ok r /\
            tendencia r = azul.
Proof.
  destruct (atualizar_resultados_elephant (rede_api 100 ["red"; "blue"; "blue"])
              (resultados_iniciais 0)) as [[[r|ex] g] logs] eqn:E.
  - exists r. split; [reflexivity|].
    destruct (refresh_trend_is_most_frequent
                (rede_api 100 ["red"; "blue"; "blue"]) (resultados_iniciais 0) r g logs
                eq_refl E) as (_ & _ & H).
    rewrite H.
    assert (Hw : ultimos_10 r = [vermelho; azul; azul]).
    { assert (H0 : option_map ultimos_10
                     (match fst (fst (atualizar_resultados_elephant
                                        (rede_api 100 ["red"; "blue"; "blue"])
                                        (resultados_iniciais 0))) with
                      | Py.Ok x => Some x | Py.Raise _ => None end)
                   = Some [vermelho; azul; azul]) by (vm_compute; reflexivity).
      rewrite E in H0. cbn in H0. now injection H0. }
    rewrite Hw. reflexivity.
  - exfalso.
    assert (H0 : match fst (fst (atualizar_resultados_elephant
                                   (rede_api 100 ["red"; "blue"; "blue"])
                                   (resultados_iniciais 0))) with
                 | Py.Ok _ => true | Py.Raise _ => false end = true)
      by (vm_compute; reflexivity).
    rewrite E in H0. discriminate.
Defined.

(** X6.  After a refresh past the cache window the stored label of the
    source tells which answers were received, not where the window came
    from: it reads "API Elephant Bet" whenever the API answered 200 with
    a body that could be decoded, also when that body held no usable
    round and the window was scraped or simulated; otherwise "Web
    Scraping" whenever the page answered 200; otherwise "Simulação
    (Fallback)". *)
Theorem refresh_source_label :
  forall (env : Rede) (global r g : Resultados) (logs : list LogRec),
    cache_fresco env global = false ->
    atualizar_resultados_elephant env global = (Py.Ok r, g, logs) ->
    fonte r = Some (if api_decodificada env then "API Elephant Bet"
                    else if pagina_200 env then "Web Scraping"
                    else "Simulação (Fallback)").
Proof.
  intros env global r g logs Hc Hrun.
  unfold cache_fresco in Hc.
  unfold atualizar_resultados_elephant, atualizar_resultados_elephant_corpo in Hrun.
  mstep_in Hrun. cbn [resultados_anteriores] in Hrun. rewrite Hc in Hrun.
  unfold logger at 1 in Hrun. mstep_in Hrun.
  set (st0 := {| resultados_anteriores := global |}) in Hrun.
  pose proof (obtem_locals env global) as Hl. fold st0 in Hl.
  destruct (obtem_ok env st0) as (novo & recent & st' & logs' & E & Hj & _).
  rewrite E in Hrun, Hl. destruct Hl as [Hd Hs].
  rewrite (registar_ok env st' novo recent Hj) in Hrun.
  cbn [resultados_anteriores] in Hrun. injection Hrun as <- _ _.
  cbn [registo fonte]. rewrite Hd.
  destruct (api_decodificada env); [reflexivity|]. now rewrite Hs.
Qed.

Lemma refresh_source_label_witness :
  exists r g logs,
    atualizar_resultados_elephant (rede_sem_rodadas 100) (resultados_iniciais 0)
    = (Py.Ok r, g, logs) /\
    fonte r = Some "API Elephant Bet" /\
    (Some (fst (sorteio (rede_sem_rodadas 100))), snd (sorteio (rede_sem_rodadas 100)))
    = (resultado_atual r, ultimos_10 r).
Proof.
  destruct (atualizar_resultados_elephant (rede_sem_rodadas 100) (resultados_iniciais 0))
    as [[[r|ex] g] logs] eqn:E.
  - exists r, g, logs. split; [reflexivity|].
    split.
    + apply (refresh_source_label (rede_sem_rodadas 100) (resultados_iniciais 0) r g logs
               eq_refl E).
    + assert (H0 : match fst (fst (atualizar_resultados_elephant (rede_sem_rodadas 100)
                                     (resultados_iniciais 0))) with
                   | Py.Ok x => (Some (fst (sorteio (rede_sem_rodadas 100))),
                                 snd (sorteio (rede_sem_rodadas 100)))
                                = (resultado_atual x, ultimos_10 x)
                   | Py.Raise _ => False
                   end) by (vm_compute; reflexivity).
      rewrite E in H0. exact H0.
  - exfalso.
    assert (H0 : match fst (fst (atualizar_resultados_elephant (rede_sem_rodadas 100)
                                   (resultados_iniciais 0))) with
                 | Py.Ok _ => true | Py.Raise _ => false end = true)
      by (vm_compute; reflexivity).
    rewrite E in H0. discriminate.
Defined.

(** ** The picker: range of its answers *)

Section PickerMais.

Lemma filtra_incl (u : option string) (p : string) : In p (filtra u) -> In p estrategias.
Proof.
  unfold filtra. destruct u as [u|]; [|auto].
  destruct (mem u estrategias && (1 <? List.length estrategias)%nat)%bool; [|auto].
  generalize estrategias. induction l as [|y l IH]; cbn [list_remove]; [auto|].
  destruct (String.eqb y u); intros H; [now right|].
  destruct H as [<-|H]; [now left | right; auto].
Qed.

Ltac na_lista := unfold estrategias; cbn [In]; auto 8.

(** Every label the three rules return is one of the six. *)
Lemma escolha_in (u : option string) (ultimos : list string) (tend : string) (m : Momento)
      (d : bool) (p : string) :
  escolha u ultimos tend m d = Py.Ok p -> In p estrategias.
Proof.
  unfold escolha.
  destruct (sequencia ultimos) as [c|].
  - repeat match goal with |- context [if ?b then _ else _] => destruct b end;
      intros H; injection H as <-; na_lista.
  - destruct (ausentes ultimos) as [[|a l]|ex]; cbn [bind Py.Monad_Res]; [| |discriminate].
    + unfold por_horario.
      destruct ((6 <=? hora_atual m) && (hora_atual m <? 12))%bool.
      { destruct d; intros H; injection H as <-; na_lista. }
      destruct ((12 <=? hora_atual m) && (hora_atual m <? 18))%bool.
      { destruct (3 <=? List.length ultimos)%nat;
          [|intros H; injection H as <-; na_lista].
        destruct (rev ultimos) as [|u1 [|u2 r]]; try discriminate.
        repeat match goal with |- context [if ?b then _ else _] => destruct b end;
          intros H; injection H as <-; na_lista. }
      destruct ((18 <=? hora_atual m) && (hora_atual m <? 24))%bool.
      { destruct d; [intros H; injection H as <-; na_lista|].
        destruct u as [u|]; [destruct (String.eqb u laranja_e_vermelho)|];
          intros H; injection H as <-; na_lista. }
      destruct d; [intros H; injection H as <-; na_lista|].
      cbv zeta.
      set (palpite := if minuto_atual m <? 20 then laranja_e_azul
                      else if minuto_atual m <? 40 then laranja_e_vermelho else so_laranja).
      assert (Hp : In palpite estrategias).
      { unfold palpite. destruct (minuto_atual m <? 20); [na_lista|].
        destruct (minuto_atual m <? 40); na_lista. }
      destruct u as [u|]; [|intros H; injection H as <-; exact Hp].
      destruct (String.eqb palpite u); [|intros H; injection H as <-; exact Hp].
      destruct (filter _ (filtra (Some u))) as [|x l] eqn:Ef;
        [intros H; injection H as <-; exact Hp|].
      intros H. apply choice_in in H. rewrite <- Ef in H.
      apply filter_In in H as [H _]. now apply (filtra_incl (Some u)).
    + repeat match goal with |- context [if ?b then _ else _] => destruct b end;
        intros H; injection H as <-; na_lista.
Qed.

End PickerMais.

(** X7.  The picker answers within its six labels whenever it answers
    from its own rules or from its emergency choice, and it raises only
    what the fallback of the module [prediction_generator] raises; so
    without that module it never raises.  The values returned beside the
    label are the two globals as the call leaves them.  Each of the six
    labels is scored as a hit against exactly the outcomes whose colour
    it names. *)
Theorem picker_answers_within_six_labels :
  forall (pg : option PredictionGenerator) (env : Rede) (m : Momento) (st : Estado),
    match estrategia_alta_assertividade pg env m st with
    | (Py.Ok (palpite, gales, defesa), st', _) =>
      gales = contagem_gales st' /\ defesa = modo_defensivo st' /\
      (In palpite estrategias \/
       exists g, pg = Some g /\ generate_intelligent_prediction g = Py.Ok palpite)
    | (Py.Raise ex, _, _) =>
      exists g, pg = Some g /\ generate_intelligent_prediction g = Py.Raise ex
    end /\
    forall palpite cor,
      In palpite estrategias -> cor_valida cor ->
      Py.dict_get (Py.dict_get resultado_mapa cor []) palpite false = Py.contains cor palpite.
Proof.
  intros pg env m st. split.
  - unfold estrategia_alta_assertividade.
    remember (choice [laranja_e_azul; laranja_e_vermelho] (random_choice m)) as ch eqn:Ec.
    assert (Hch : exists p, ch = Py.Ok p /\ In p estrategias).
    { destruct (choice_ok [laranja_e_azul; laranja_e_vermelho] (random_choice m)
                  ltac:(discriminate)) as [p Hp].
      exists p. split; [congruence|]. apply choice_in in Hp.
      destruct Hp as [<-|[<-|[]]]; unfold estrategias; cbn [In]; auto 8. }
    destruct Hch as (pe & -> & Hpe). clear Ec.
    mstep.
    destruct (chama_atualizar env st) as [[[dados|ex] st1] tr1]; mstep.
    + unfold atribui, regista. mstep.
      destruct (max_gales <=? contagem_gales st1); mstep;
        match goal with |- context [escolha ?a ?b ?c ?d ?f] =>
          destruct (escolha a b c d f) as [p|ex] eqn:E
        end; mstep;
        try (split; [reflexivity|]; split; [reflexivity|]; left;
             now apply (escolha_in _ _ _ _ _ _ E)).
      all: destruct pg as [g|]; mstep;
        [destruct (generate_intelligent_prediction g) as [p|ex'] eqn:Eg; mstep;
         [split; [reflexivity|]; split; [reflexivity|]; right; now exists g
         |now exists g]
        |split; [reflexivity|]; split; [reflexivity|]; now left].
    + unfold regista. mstep.
      destruct pg as [g|]; mstep;
        [destruct (generate_intelligent_prediction g) as [p|ex'] eqn:Eg; mstep;
         [split; [reflexivity|]; split; [reflexivity|]; right; now exists g
         |now exists g]
        |split; [reflexivity|]; split; [reflexivity|]; now left].
  - intros palpite cor Hin Hc.
    unfold estrategias in Hin. cbn [In] in Hin.
    destruct Hc as [-> | [-> | ->]];
      repeat (destruct Hin as [<-|Hin]; [vm_compute; reflexivity|]); destruct Hin.
Qed.

(** ** The posting loop: invariants and shape of a pass *)

Section Mantem.

Variable P : Estado -> Prop.
Variable T : list Evento -> Prop.
Hypothesis T_nil : T [].
Hypothesis T_app : forall tr tr', T tr -> T tr' -> T (tr ++ tr').
Hypothesis T_log : forall r, T [ELog r].
Hypothesis T_dorme : forall s, (0 <= s)%Q -> T [EDorme s].
Hypothesis P_resultados : forall st v, P st -> P (set_resultados v st).
Hypothesis P_canal_ids : forall st v, P st -> P (set_canal_ids v st).

Lemma mantem_ret {A : Type} (a : A) : mantem P T (ret a).
Proof. intros st H. now split. Qed.

Lemma mantem_raise {A : Type} (e : Py.Exc) : mantem P T (raise e : Loop A).
Proof. intros st H. now split. Qed.

Lemma mantem_lift {A : Type} (r : Py.Res A) : mantem P T (Py.lift r).
Proof. intros st H. now split. Qed.

Lemma mantem_get : mantem P T (get : Loop Estado).
Proof. intros st H. now split. Qed.

Lemma mantem_emit (ev : Evento) : T [ev] -> mantem P T (Py.emit ev).
Proof. intros HT st H. now split. Qed.

Lemma mantem_regista (n : Nivel) (t : string) (c : option Py.Exc) :
  mantem P T (regista n t c).
Proof. apply mantem_emit, T_log. Qed.

Lemma mantem_atribui (f : Estado -> Estado) :
  (forall st, P st -> P (f st)) -> mantem P T (atribui f).
Proof. intros Hf st H. cbn. split; [now apply Hf | exact T_nil]. Qed.

Lemma mantem_bind {A B : Type} (c : Loop A) (k : A -> Loop B) :
  mantem P T c -> (forall a, mantem P T (k a)) -> mantem P T (bind c k).
Proof.
  intros Hc Hk st H. mstep. specialize (Hc st H).
  destruct (c st) as [[[a|e] st1] tr1]; [|exact Hc].
  destruct Hc as [P1 T1]. specialize (Hk a st1 P1).
  destruct (k a st1) as [[r st2] tr2]. destruct Hk as [P2 T2].
  split; [exact P2 | now apply T_app].
Qed.

Lemma mantem_catch {A : Type} (c : Loop A) (h : Py.Exc -> Loop A) :
  mantem P T c -> (forall e, mantem P T (h e)) -> mantem P T (catch c h).
Proof.
  intros Hc Hh st H. mstep. specialize (Hc st H).
  destruct (c st) as [[[a|e] st1] tr1]; [exact Hc|].
  destruct Hc as [P1 T1]. specialize (Hh e st1 P1).
  destruct (h e st1) as [[r st2] tr2]. destruct Hh as [P2 T2].
  split; [exact P2 | now apply T_app].
Qed.

Lemma T_registos (logs : list LogRec) : T (map ELog logs).
Proof.
  induction logs as [|r logs IH]; [exact T_nil|].
  change (map ELog (r :: logs)) with ([ELog r] ++ map ELog logs).
  apply T_app; [apply T_log | exact IH].
Qed.

Lemma mantem_chama_atualizar (env : Rede) : mantem P T (chama_atualizar env).
Proof.
  intros st H. unfold chama_atualizar.
  destruct (atualizar_resultados_elephant env (resultados st)) as [[r g] logs].
  split; [now apply P_resultados | apply T_registos].
Qed.

Lemma mantem_le_local {A : Type} (nome : string) (v : option A) :
  mantem P T (le_local nome v).
Proof. destruct v; [apply mantem_ret | apply mantem_raise]. Qed.

Lemma Q_nonneg (n : positive) : (0 <= inject_Z (Zpos n))%Q.
Proof. unfold Qle. cbn. lia. Qed.

(** Steps along the shape of a program. *)
Ltac mantem_passo :=
  first
    [ apply mantem_regista
    | apply mantem_chama_atualizar
    | apply mantem_le_local
    | apply mantem_emit; solve [apply T_dorme; apply Q_nonneg | apply T_log | auto]
    | apply mantem_atribui; solve [auto]
    | apply mantem_ret
    | apply mantem_raise
    | apply mantem_lift
    | apply mantem_get
    | apply mantem_bind; [|intros ?]
    | apply mantem_catch; [|intros ?] ].

Lemma mantem_placar_canais (e : Entradas) (p : Placar) (canais : list ChatId) :
  (forall c q, T [EPlacar c q]) -> mantem P T (placar_canais e p canais).
Proof.
  intros HT. induction canais as [|c rest IH]; cbn [placar_canais]; [apply mantem_ret|].
  destruct (envia_placar e c); repeat mantem_passo; auto.
Qed.

Lemma mantem_placar_periodico (e : Entradas) :
  (forall c q, T [EPlacar c q]) ->
  (forall st v, P st -> P (set_ultimo_placar v st)) ->
  mantem P T (placar_periodico e).
Proof.
  intros HT HP. unfold placar_periodico. repeat mantem_passo.
  destruct (Qle_bool 600 _); repeat mantem_passo.
  now apply mantem_placar_canais.
Qed.

Lemma mantem_reinicio_canais (e : Entradas) (a : Antigos) (canais : list ChatId) :
  (forall c q, T [EReinicio c q]) -> mantem P T (reinicio_canais e a canais).
Proof.
  intros HT. induction canais as [|c rest IH]; cbn [reinicio_canais]; [apply mantem_ret|].
  destruct (envia_reinicio e c); repeat mantem_passo; auto.
Qed.

Lemma mantem_reinicio_placar (e : Entradas) :
  (forall c q, T [EReinicio c q]) ->
  (forall st a, P st -> P (set_placar placar_zero (set_antigos a st))) ->
  mantem P T (reinicio_placar e).
Proof.
  intros HT Hz. unfold reinicio_placar.
  apply mantem_bind; [apply mantem_get | intros st].
  destruct (limite_atingido (placar st)); [|apply mantem_ret].
  apply mantem_bind; [apply mantem_le_local | intros a].
  apply mantem_bind; [destruct (old_total a =? 0); mantem_passo | intros _].
  apply mantem_catch; [|intros ex; apply mantem_regista].
  apply mantem_bind; [now apply mantem_reinicio_canais | intros _].
  intros s Hs. unfold no_placar, atribui, regista. mstep. cbn [app].
  split; [|apply T_log].
  exact (Hz s _ Hs).
Qed.

Lemma mantem_estrategia (pg : option PredictionGenerator) (env : Rede) (m : Momento) :
  (forall st, P st -> (max_gales <=? contagem_gales st) = true ->
              P (set_contagem_gales 0 (set_modo_defensivo true st))) ->
  mantem P T (estrategia_alta_assertividade pg env m).
Proof.
  intros Hm. unfold estrategia_alta_assertividade.
  apply mantem_catch.
  - apply mantem_bind; [apply mantem_chama_atualizar | intros _].
    intros st H. mstep. unfold atribui, regista. mstep.
    destruct (max_gales <=? contagem_gales st) eqn:E; mstep.
    + cbn [modo_defensivo contagem_gales set_contagem_gales].
      specialize (Hm st H E).
      match goal with
      | |- context [escolha ?a ?b ?c ?d ?f] => destruct (escolha a b c d f) as [p|ex]
      end; cbn [app]; (split; [exact Hm | apply T_log]).
    + match goal with
      | |- context [escolha ?a ?b ?c ?d ?f] => destruct (escolha a b c d f) as [p|ex]
      end; cbn [app]; now split.
  - intros ex. repeat mantem_passo. destruct pg; repeat mantem_passo.
Qed.

Lemma tempo_espera_nonneg (msg : string) (s : Q) :
  tempo_espera msg = Py.Ok s -> (0 <= s)%Q.
Proof.
  unfold tempo_espera. cbn [bind Py.Monad_Res].
  destruct (Py.item _ 1) as [piece|]; [|discriminate].
  destruct (Py.int piece) as [w|]; [|discriminate].
  unfold Py.time_sleep. destruct (w + 2 <? 0) eqn:E; [discriminate|].
  intros H. injection H as <-. apply Z.ltb_ge in E.
  unfold Qle. cbn. lia.
Qed.

Lemma mantem_envia_canais (e : Entradas) (m : Mensagem) (canais : list ChatId)
      (success : bool) (canal_id : option ChatId) :
  (forall c d, T [EPalpite c d m]) ->
  mantem P T (envia_canais e m canais success canal_id).
Proof.
  intros HT. revert success canal_id.
  induction canais as [|c rest IH]; intros success canal_id; cbn [envia_canais];
    [apply mantem_ret|].
  destruct success; [apply mantem_ret|].
  destruct (envia_palpite e c) as [sent|erro_str].
  - repeat mantem_passo; auto.
  - repeat mantem_passo.
    destruct (Py.contains _ erro_str); [|apply IH].
    destruct (tempo_espera erro_str) as [slept|ex] eqn:Ew; repeat mantem_passo; auto.
    + apply mantem_emit, T_dorme. now apply (tempo_espera_nonneg erro_str).
    + destruct (reenvia_palpite e c); repeat mantem_passo; auto.
Qed.

Lemma mantem_envia_usuario (e : Entradas) (m : Mensagem) :
  (forall c d, T [EPalpite c d m]) -> mantem P T (envia_usuario e m).
Proof.
  intros HT. unfold envia_usuario. repeat mantem_passo.
  destruct (PRIMEIRO_USUARIO_ID e); repeat mantem_passo.
  destruct (envia_direto e); repeat mantem_passo; auto.
Qed.

Lemma mantem_espera (e : Entradas) (canal_id : option ChatId) :
  (forall c, T [EEspera c]) -> (forall c, T [EApaga c]) ->
  mantem P T (espera e canal_id).
Proof.
  intros H1 H2. unfold espera. repeat mantem_passo.
  destruct (envia_espera e); repeat mantem_passo; auto.
  destruct (apaga_espera e); repeat mantem_passo; auto.
Qed.

Lemma mantem_entrega (e : Entradas) (m : Mensagem) :
  (forall c d, T [EPalpite c d m]) ->
  (forall c, T [EEspera c]) -> (forall c, T [EApaga c]) ->
  mantem P T (entrega e m).
Proof.
  intros H0 H1 H2. unfold entrega.
  apply mantem_bind; [mantem_passo | intros _].
  apply mantem_bind; [now apply mantem_envia_canais | intros [success canal_id]].
  apply mantem_bind; [|intros _; now apply mantem_espera].
  destruct success; [apply mantem_ret | now apply mantem_envia_usuario].
Qed.

Lemma mantem_preparo (e : Entradas) :
  mantem P T (placar_periodico e) ->
  mantem P T (reinicio_placar e) ->
  (forall pg env m, mantem P T (estrategia_alta_assertividade pg env m)) ->
  mantem P T (preparo e).
Proof.
  intros H1 H2 H3. unfold preparo, gerar_palpite.
  apply mantem_bind; [exact H1 | intros _].
  apply mantem_bind; [exact H2 | intros _].
  apply mantem_bind; [apply H3 | intros [[p g] d]]. apply mantem_ret.
Qed.

(** The scoring step, for a [P] that does not look at what it assigns:
    the counters, the count of misses in a row, the count of pending
    misses and the pattern. *)
Lemma mantem_pontuacao (e : Entradas) (rr : option string) (palpite : string) :
  (forall st p, P st -> P (set_placar p st)) ->
  (forall st v, P st -> P (set_consecutive_errors v st)) ->
  (forall st v, P st -> P (set_contagem_gales v st)) ->
  (forall st v, P st -> P (set_PADRAO_ATUAL v st)) ->
  (forall pg env m, mantem P T (estrategia_alta_assertividade pg env m)) ->
  mantem P T (pontuacao e rr palpite).
Proof.
  intros HP1 HP2 HP3 HP4 He. unfold pontuacao.
  assert (Hat : forall f : Estado -> Estado,
             (forall st, P st -> P (f st)) -> mantem P T (atribui f))
    by (intros f Hf; now apply mantem_atribui).
  apply mantem_bind.
  - unfold avalia. destruct (truthy rr) as [real|]; [|apply mantem_ret].
    apply mantem_bind; [|intros _; apply mantem_ret].
    destruct (Py.dict_get _ palpite false); [apply Hat; auto|].
    apply mantem_bind; [apply mantem_get | intros st].
    destruct (consecutive_errors st) as [n|]; [|apply mantem_raise].
    apply mantem_bind; [apply Hat; auto | intros _].
    destruct (5 <=? n + 1); [|apply mantem_ret].
    unfold no_placar.
    repeat (apply mantem_bind; [apply Hat; auto | intros _]).
    apply Hat; auto.
  - intros acertou.
    apply mantem_bind.
    + destruct acertou.
      * unfold acerto, no_placar.
        repeat (apply mantem_bind; [apply Hat; auto | intros _]).
        apply mantem_bind; [apply He | intros [[p g] d]].
        apply mantem_ret.
      * unfold erro, no_placar.
        repeat (apply mantem_bind; [apply Hat; auto | intros _]).
        apply mantem_bind; [apply mantem_get | intros st].
        destruct (max_gales <=? contagem_gales st);
          repeat (apply mantem_bind; [apply Hat; auto | intros _]);
          apply mantem_ret.
    + intros [status bonus]. unfold compoe.
      apply mantem_bind; [apply mantem_get | intros st].
      apply mantem_ret.
Qed.

(** One pass keeps what its parts keep; [M] is what the scoring step
    promises of the message it composes. *)
Lemma mantem_passo_do_ciclo (e : Entradas) (M : Mensagem -> Prop) :
  mantem P T (preparo e) ->
  (forall st, P st -> P (contado st)) ->
  (forall rr palpite st,
      P st -> match pontuacao e rr palpite st with
              | (r, st', tr) => P st' /\ T tr /\ forall m, r = Py.Ok m -> M m
              end) ->
  (forall m, M m -> mantem P T (entrega e m)) ->
  mantem P T (passo e).
Proof.
  intros H1 H2 H3 H4. unfold passo, corpo.
  apply mantem_catch.
  - apply mantem_bind; [exact H1 | intros palpite].
    apply mantem_bind; [apply mantem_atribui; exact H2 | intros _].
    apply mantem_bind; [apply mantem_chama_atualizar | intros dados].
    intros st Hst. mstep.
    specialize (H3 (resultado_atual dados) palpite st Hst).
    destruct (pontuacao e (resultado_atual dados) palpite st) as [[[m|ex] st1] tr1];
      destruct H3 as (P1 & T1 & Hm); [|now split].
    specialize (H4 m (Hm m eq_refl) st1 P1).
    destruct (entrega e m st1) as [[r st2] tr2]. destruct H4 as [P2 T2].
    split; [exact P2 | now apply T_app].
  - intros ex. repeat mantem_passo.
Qed.

End Mantem.

Lemma alcancavel_mantem (P : Estado -> Prop) :
  (forall t, P (estado_inicial t)) ->
  (forall e, mantem P qualquer (passo e)) ->
  forall st, alcancavel st -> P st.
Proof.
  intros H0 Hp st. induction 1 as [t|st e r st' tr _ IH E]; [apply H0|].
  specialize (Hp e st IH). rewrite E in Hp. apply Hp.
Qed.

Section Coerencia.

Lemma qualquer_app (tr tr' : list Evento) : qualquer tr -> qualquer tr' -> qualquer (tr ++ tr').
Proof. intros _ _. exact I. Qed.


(** Side conditions on the trace, when any trace will do. *)
Ltac lateral :=
  try solve [exact I | exact qualquer_app | intros; exact I | intros; assumption].

Lemma coerente_estrategia (pg : option PredictionGenerator) (env : Rede) (m : Momento) :
  mantem estado_coerente qualquer (estrategia_alta_assertividade pg env m).
Proof. apply mantem_estrategia; lateral. Qed.

Lemma coerente_pontuacao (e : Entradas) (rr : option string) (palpite : string) :
  mantem estado_coerente qualquer (pontuacao e rr palpite).
Proof.
  assert (Havalia : mantem estado_coerente qualquer (avalia e rr palpite)).
  { intros st H. unfold avalia, no_placar, atribui.
    destruct (truthy rr) as [real|]; [|now split].
    destruct (Py.dict_get _ palpite false); mstep; [now split|].
    destruct (consecutive_errors st) as [n|]; mstep; [|now split].
    cbn [consecutive_errors set_consecutive_errors].
    destruct (5 <=? n + 1); mstep; (split; [|exact I]); [|exact H].
    unfold estado_coerente, placar_coerente in *. cbn. lia. }
  assert (Hacerto : mantem estado_coerente qualquer (acerto e)).
  { intros st H. unfold acerto, no_placar, atribui. mstep.
    match goal with |- context [estrategia_alta_assertividade ?a ?b ?c ?s] =>
      pose proof (coerente_estrategia a b c s) as He;
      destruct (estrategia_alta_assertividade a b c s) as [[[[[p g] d]|ex] st1] tr1]
    end.
    all: (assert (He' : estado_coerente st1 /\ qualquer tr1);
          [apply He; unfold estado_coerente, placar_coerente in *; cbn;
           destruct (max_greens_seguidos (placar st) <? greens_seguidos (placar st) + 1) eqn:E;
           cbn; [apply Z.ltb_lt in E|apply Z.ltb_ge in E]; lia
          |destruct He' as [He' _]; now split]). }
  assert (Herro : mantem estado_coerente qualquer erro).
  { intros st H. unfold erro, no_placar, atribui. mstep.
    cbn [contagem_gales set_contagem_gales set_placar].
    destruct (max_gales <=? contagem_gales st + 1); mstep; (split; [|exact I]);
      unfold estado_coerente, placar_coerente in *; cbn;
      destruct (max_reds_seguidos (placar st) <? reds_seguidos (placar st) + 1) eqn:E;
      cbn; (apply Z.ltb_lt in E || apply Z.ltb_ge in E); lia. }
  unfold pontuacao.
  apply mantem_bind; lateral. intros acertou.
  apply mantem_bind; lateral; [destruct acertou; assumption | intros [status bonus]].
  unfold compoe. apply mantem_bind; lateral; [apply mantem_get; lateral | intros st].
  apply mantem_ret; lateral.
Qed.

Lemma coerente_passo (e : Entradas) : mantem estado_coerente qualquer (passo e).
Proof.
  apply (mantem_passo_do_ciclo estado_coerente qualquer) with (M := fun _ => True); lateral.
  - apply mantem_preparo; lateral.
    + apply mantem_placar_periodico; lateral.
    + apply mantem_reinicio_placar; lateral.
      intros st a H. unfold estado_coerente, placar_coerente in *. cbn. lia.
    + apply coerente_estrategia.
  - intros st H. unfold estado_coerente, placar_coerente, contado in *. cbn. lia.
  - intros rr palpite st H. pose proof (coerente_pontuacao e rr palpite st H) as H1.
    destruct (pontuacao e rr palpite st) as [[r st'] tr]. tauto.
  - intros m _. apply mantem_entrega; lateral.
Qed.

End Coerencia.

(** X8.  In every store the loop can reach, no score counter is negative,
    neither streak exceeds its record, and at most one of the streak of
    hits and the streak of misses is running. *)
Theorem scoreboard_stays_coherent :
  forall st : Estado, alcancavel st -> placar_coerente (placar st).
Proof.
  apply (alcancavel_mantem (fun st => placar_coerente (placar st))).
  - intros t. unfold placar_coerente. cbn. lia.
  - apply coerente_passo.
Qed.

Lemma scoreboard_stays_coherent_witness :
  placar_coerente
    (placar (snd (fst (passo (entradas_exemplo 100 8 ["red"; "blue"]) (estado_inicial 0))))).
Proof.
  apply scoreboard_stays_coherent.
  destruct (passo (entradas_exemplo 100 8 ["red"; "blue"]) (estado_inicial 0))
    as [[r st'] tr] eqn:E.
  exact (alcancavel_passo _ _ _ _ _ (alcancavel_inicio 0) E).
Defined.

Section Defesa.


Lemma TD_nil : palpites_sem_defesa [].
Proof. intros m []. Qed.

Lemma TD_app (tr tr' : list Evento) : palpites_sem_defesa tr -> palpites_sem_defesa tr' -> palpites_sem_defesa (tr ++ tr').
Proof.
  unfold palpites_sem_defesa, todo_palpite. intros H H' m Hin. rewrite palpites_app in Hin.
  apply in_app_or in Hin as [Hin|Hin]; auto.
Qed.

Lemma TD_mudo (ev : Evento) :
  match ev with EPalpite _ _ _ => False | _ => True end -> palpites_sem_defesa [ev].
Proof. destruct ev; intros H m0 Hin; cbn in Hin; contradiction. Qed.

(** Side conditions of the lemmas on [mantem], for this invariant. *)
Ltac lateral_defesa :=
  try solve [ exact TD_nil | exact TD_app
            | intros; apply TD_mudo; exact I
            | intros ? ? [? ?]; split; assumption
            | intros ? [? ?]; split; assumption ].

Lemma defesa_estrategia (pg : option PredictionGenerator) (env : Rede) (m : Momento) :
  mantem sem_defesa palpites_sem_defesa (estrategia_alta_assertividade pg env m).
Proof.
  apply mantem_estrategia; lateral_defesa.
  intros st [Hg _] E. rewrite Hg in E. discriminate.
Qed.

Lemma defesa_pontuacao (e : Entradas) (rr : option string) (palpite : string) (st : Estado) :
  sem_defesa st ->
  match pontuacao e rr palpite st with
  | (r, st', tr) => sem_defesa st' /\ palpites_sem_defesa tr /\ forall m, r = Py.Ok m -> mensagem_sem_defesa m
  end.
Proof.
  intros H. unfold pontuacao. mstep.
  assert (Ha : match avalia e rr palpite st with
               | (_, st1, tr1) => sem_defesa st1 /\ tr1 = []
               end).
  { unfold avalia, no_placar, atribui.
    destruct (truthy rr) as [real|]; [|now split].
    destruct (Py.dict_get _ palpite false); mstep; [now split|].
    destruct (consecutive_errors st) as [n|]; mstep; [|now split].
    cbn [consecutive_errors set_consecutive_errors].
    destruct (5 <=? n + 1); mstep; now split. }
  destruct (avalia e rr palpite st) as [[[acertou|ex] st1] tr1]; destruct Ha as [H1 ->];
    [|split; [exact H1 | split; [exact TD_nil | discriminate]]].
  cbn [app].
  assert (Hm : match (if acertou then acerto e else erro) st1 with
               | (r, st2, tr2) =>
                 sem_defesa st2 /\ palpites_sem_defesa tr2 /\
                 forall status bonus, r = Py.Ok (status, bonus) -> status <> ERRAMOS
               end).
  { destruct acertou.
    - unfold acerto, no_placar, atribui. mstep.
      match goal with |- context [estrategia_alta_assertividade ?a ?b ?c ?s] =>
        pose proof (defesa_estrategia a b c s) as He;
        destruct (estrategia_alta_assertividade a b c s) as [[[[[p g] d]|ex] st2] tr2]
      end.
      all: (assert (He' : sem_defesa st2 /\ palpites_sem_defesa tr2);
            [apply He; destruct H1 as [_ Hd]; split; [reflexivity | exact Hd]|]).
      all: destruct He' as [P2 T2]; cbn [app]; rewrite ?app_nil_r;
        split; [exact P2|]; split; [exact T2|].
      + intros status bonus Heq. injection Heq as <- _. discriminate.
      + discriminate.
    - destruct H1 as [Hg Hd]. unfold erro, no_placar, atribui. mstep.
      cbn [contagem_gales set_contagem_gales set_placar]. rewrite Hg.
      change (max_gales <=? 0 + 1) with true. mstep.
      split; [split; [reflexivity | exact Hd]|]. split; [exact TD_nil|].
      intros status bonus Heq. injection Heq as <- _. discriminate. }
  destruct ((if acertou then acerto e else erro) st1) as [[[[status bonus]|ex] st2] tr2];
    destruct Hm as (P2 & T2 & Hs).
  - unfold compoe. mstep. rewrite app_nil_r. split; [exact P2|]. split; [exact T2|].
    intros m Heq. injection Heq as <-. split; [apply P2 | exact (Hs _ _ eq_refl)].
  - split; [exact P2|]. split; [exact T2 | discriminate].
Qed.

Lemma defesa_passo (e : Entradas) : mantem sem_defesa palpites_sem_defesa (passo e).
Proof.
  apply (mantem_passo_do_ciclo sem_defesa palpites_sem_defesa) with (M := mensagem_sem_defesa);
    lateral_defesa.
  - apply mantem_preparo; lateral_defesa.
    + apply mantem_placar_periodico; lateral_defesa.
    + apply mantem_reinicio_placar; lateral_defesa.
    + apply defesa_estrategia.
  - apply defesa_pontuacao.
  - intros m Hm. apply mantem_entrega; lateral_defesa.
    intros c d m' [<-|[]]. exact Hm.
Qed.

End Defesa.

(** X9.  The loop never turns the defensive mode on.  In every store it
    can reach no miss is pending for the picker and the mode is off: a
    miss rotates the pattern and clears the count at once, so the picker
    never finds the count at its limit.  Hence no prediction message
    shows the defensive banner, and the status of a miss is always the
    one that announces a new strategy, never one of the five plain
    texts. *)
Theorem defensive_mode_never_turns_on :
  forall st : Estado,
    alcancavel st ->
    contagem_gales st = 0 /\ modo_defensivo st = false /\
    forall (e : Entradas) (r : Py.Res unit) (st' : Estado) (tr : list Evento) (m : Mensagem),
      passo e st = (r, st', tr) ->
      In m (palpites tr) ->
      m_modo_indicador m = false /\ m_status m <> ERRAMOS.
Proof.
  intros st Halc.
  assert (H : sem_defesa st).
  { revert st Halc. apply alcancavel_mantem; [intros t; now split|].
    intros e st H. pose proof (defesa_passo e st H) as H1.
    destruct (passo e st) as [[r st'] tr]. split; [apply H1 | exact I]. }
  destruct H as [Hg Hd]. split; [exact Hg|]. split; [exact Hd|].
  intros e r st' tr m E Hin.
  pose proof (defesa_passo e st (conj Hg Hd)) as H1. rewrite E in H1.
  destruct H1 as [_ H1]. exact (H1 m Hin).
Qed.

Lemma defensive_mode_never_turns_on_witness :
  let st := snd (fst (passo (entradas_exemplo 100 8 ["red"; "blue"]) (estado_inicial 0))) in
  contagem_gales st = 0 /\ modo_defensivo st = false.
Proof.
  intros st.
  assert (Halc : alcancavel st).
  { unfold st.
    destruct (passo (entradas_exemplo 100 8 ["red"; "blue"]) (estado_inicial 0))
      as [[r st'] tr] eqn:E.
    exact (alcancavel_passo _ _ _ _ _ (alcancavel_inicio 0) E). }
  destruct (defensive_mode_never_turns_on st Halc) as (H1 & H2 & _).
  split; assumption.
Defined.

Section Desfecho.

Variables N F : list Evento -> Prop.
Hypothesis N_nil : N [].
Hypothesis N_app : forall tr tr', N tr -> N tr' -> N (tr ++ tr').
Hypothesis N_log : forall r, N [ELog r].
Hypothesis N_dorme : forall s, (0 <= s)%Q -> N [EDorme s].
Hypothesis F_pre : forall tr tr', N tr -> F tr' -> F (tr ++ tr').


Lemma desfecho_bind {A B : Type} (c : Loop A) (k : A -> Loop B) :
  mantem todo_estado N c -> (forall a, desfecho N F (k a)) -> desfecho N F (bind c k).
Proof.
  intros Hc Hk st. mstep. specialize (Hc st I).
  destruct (c st) as [[[a|e] st1] tr1]; [|apply Hc].
  destruct Hc as [_ N1]. specialize (Hk a st1).
  destruct (k a st1) as [[[b|e] st2] tr2]; [now apply F_pre | now apply N_app].
Qed.

(** A pass ends with the trace of a delivery, or with the entry of the
    handler after a trace of the neutral kind. *)
Lemma passo_desfecho (e : Entradas) :
  mantem todo_estado N (preparo e) ->
  (forall rr palpite, mantem todo_estado N (pontuacao e rr palpite)) ->
  (forall m, desfecho N F (entrega e m)) ->
  (forall tr ex, N tr -> F (tr ++ [erro_no_passo ex; EDorme 30])) ->
  forall st, F (snd (passo e st)).
Proof.
  intros H1 H3 H4 Hh st. unfold passo. mstep.
  assert (Hc : desfecho N F (corpo e)).
  { unfold corpo.
    apply desfecho_bind; [exact H1 | intros palpite].
    apply desfecho_bind; [apply mantem_atribui; auto | intros _].
    apply desfecho_bind; [apply mantem_chama_atualizar; auto | intros dados].
    apply desfecho_bind; [apply H3 | intros m]. apply H4. }
  specialize (Hc st).
  destruct (corpo e st) as [[[[]|ex] st1] tr1]; [exact Hc|].
  unfold regista. mstep. cbn [snd app]. now apply Hh.
Qed.

End Desfecho.

Section Esperas.

Lemma dormido_app (tr tr' : list Evento) : (dormido (tr ++ tr') == dormido tr + dormido tr')%Q.
Proof.
  induction tr as [|ev tr IH]; cbn [app dormido]; [lra|].
  destruct ev; cbn [dormido]; try exact IH. rewrite IH. lra.
Qed.


Lemma NN_app (tr tr' : list Evento) : sono_valido tr -> sono_valido tr' -> sono_valido (tr ++ tr').
Proof. unfold sono_valido. intros H H'. rewrite dormido_app. lra. Qed.

Lemma NN_mudo (ev : Evento) :
  match ev with EDorme _ => False | _ => True end -> sono_valido [ev].
Proof. destruct ev; intros H; try contradiction; unfold sono_valido; cbn; lra. Qed.

Lemma NN_dorme (s : Q) : (0 <= s)%Q -> sono_valido [EDorme s].
Proof. unfold sono_valido. cbn. lra. Qed.

Ltac lateral_nn :=
  try solve [ unfold sono_valido; cbn; lra | exact NN_app | exact NN_dorme
            | intros; apply NN_mudo; exact I | intros; exact I ].

Lemma espera_vinte_e_cinco (e : Entradas) (canal_id : option ChatId) (st : Estado) :
  exists tr, espera e canal_id st = (Py.Ok tt, st, tr) /\ (dormido tr == 25)%Q.
Proof.
  unfold espera, le_local, regista.
  destruct canal_id as [c|]; mstep.
  - destruct (envia_espera e); mstep.
    + destruct (apaga_espera e); mstep; eexists; (split; [reflexivity|]); cbn; lra.
    + eexists; (split; [reflexivity|]); cbn; lra.
  - eexists; (split; [reflexivity|]); cbn; lra.
Qed.

Lemma FF_pre (tr tr' : list Evento) : sono_valido tr -> sono_de_25 tr' -> sono_de_25 (tr ++ tr').
Proof. unfold sono_valido, sono_de_25. intros H H'. rewrite dormido_app. lra. Qed.

Lemma entrega_espera (e : Entradas) (m : Mensagem) : desfecho sono_valido sono_de_25 (entrega e m).
Proof.
  unfold entrega.
  apply desfecho_bind with (N := sono_valido); try exact NN_app; try exact FF_pre;
    [apply mantem_atribui; lateral_nn | intros _].
  apply desfecho_bind with (N := sono_valido); try exact NN_app; try exact FF_pre;
    [apply mantem_envia_canais; lateral_nn | intros [success canal_id]].
  apply desfecho_bind with (N := sono_valido); try exact NN_app; try exact FF_pre.
  - destruct success; [apply mantem_ret; lateral_nn | apply mantem_envia_usuario; lateral_nn].
  - intros _ st. destruct (espera_vinte_e_cinco e canal_id st) as [tr [-> H]].
    unfold sono_de_25. rewrite H. lra.
Qed.

Lemma nn_estrategia (pg : option PredictionGenerator) (env : Rede) (m : Momento) :
  mantem (fun _ => True) sono_valido (estrategia_alta_assertividade pg env m).
Proof. apply mantem_estrategia; lateral_nn. Qed.

Lemma nn_pontuacao (e : Entradas) (rr : option string) (palpite : string) :
  mantem (fun _ => True) sono_valido (pontuacao e rr palpite).
Proof. apply mantem_pontuacao; lateral_nn. apply nn_estrategia. Qed.

Lemma nn_preparo (e : Entradas) : mantem (fun _ => True) sono_valido (preparo e).
Proof.
  apply mantem_preparo; lateral_nn.
  - apply mantem_placar_periodico; lateral_nn.
  - apply mantem_reinicio_placar; lateral_nn.
  - apply nn_estrategia.
Qed.

End Esperas.

(** X10.  Every pass of the loop sleeps for at least 25 seconds in all,
    whether it posts a prediction or ends in its handler, so that the
    loop never spins. *)
Theorem every_pass_sleeps_25_seconds :
  forall (e : Entradas) (st : Estado),
    (25 <= dormido (snd (passo e st)))%Q.
Proof.
  intros e st.
  apply (passo_desfecho (fun tr => 0 <= dormido tr)%Q (fun tr => 25 <= dormido tr)%Q);
    try exact NN_app; try exact FF_pre;
    try apply nn_preparo; try apply nn_pontuacao; try apply entrega_espera.
  all: intros; rewrite ?dormido_app; cbn; lra.
Qed.

Section Postagens.

Lemma postagens_app (tr tr' : list Evento) :
  postagens (tr ++ tr') = postagens tr ++ postagens tr'.
Proof.
  induction tr as [|ev tr IH]; [reflexivity|].
  destruct ev; cbn [postagens app]; rewrite IH; reflexivity.
Qed.


Lemma NP_app (tr tr' : list Evento) : sem_postagens tr -> sem_postagens tr' -> sem_postagens (tr ++ tr').
Proof. unfold sem_postagens. intros H H'. now rewrite postagens_app, H, H'. Qed.

Lemma NP_mudo (ev : Evento) :
  match ev with EPalpite _ _ _ => False | _ => True end -> sem_postagens [ev].
Proof. destruct ev; intros H; try contradiction; reflexivity. Qed.

Ltac lateral_np :=
  try solve [ reflexivity | exact NP_app
            | intros; apply NP_mudo; exact I | intros; exact I ].

Lemma np_estrategia (pg : option PredictionGenerator) (env : Rede) (m : Momento) :
  mantem (fun _ => True) sem_postagens (estrategia_alta_assertividade pg env m).
Proof. apply mantem_estrategia; lateral_np. Qed.

Lemma np_pontuacao (e : Entradas) (rr : option string) (palpite : string) :
  mantem (fun _ => True) sem_postagens (pontuacao e rr palpite).
Proof. apply mantem_pontuacao; lateral_np. apply np_estrategia. Qed.

Lemma np_preparo (e : Entradas) : mantem (fun _ => True) sem_postagens (preparo e).
Proof.
  apply mantem_preparo; lateral_np.
  - apply mantem_placar_periodico; lateral_np.
  - apply mantem_reinicio_placar; lateral_np.
  - apply np_estrategia.
Qed.

(** The loop over the channels posts at most once, in a channel that
    accepts the message after those before it have refused it. *)
Lemma envia_canais_postagens (e : Entradas) (m : Mensagem) (canais : list ChatId)
      (canal_id : option ChatId) (st : Estado) :
  match envia_canais e m canais false canal_id st with
  | (r, _, tr) =>
    exists success ultimo, r = Py.Ok (success, ultimo) /\
      if success then
        exists c, postagens tr = [(c, false)] /\ In c canais /\ canal_aceita e c = true
      else postagens tr = [] /\ forall c, In c canais -> canal_aceita e c = false
  end.
Proof.
  revert canal_id st.
  induction canais as [|c rest IH]; intros canal_id st; cbn [envia_canais].
  - exists false, canal_id. split; [reflexivity|]. split; [reflexivity | intros c []].
  - unfold canal_aceita at 1 2. unfold regista, atribui.
    assert (Hdepois : forall st0,
               exists ultimo, envia_canais e m rest true (Some c) st0
                              = (Py.Ok (true, ultimo), st0, [])).
    { intros st0. destruct rest; cbn [envia_canais]; eexists; reflexivity. }
    destruct (envia_palpite e c) as [sent|erro_str] eqn:E1; mstep.
    + match goal with |- context [envia_canais e m rest true (Some c) ?s] =>
        destruct (Hdepois s) as [u ->] end.
      exists true, u. split; [reflexivity|]. exists c.
      split; [reflexivity|]. split; [now left|].
      unfold canal_aceita. now rewrite E1.
    + destruct (Py.contains "Too Many Requests: retry after" erro_str) eqn:E2.
      * destruct (tempo_espera erro_str) as [slept|ex] eqn:E3; mstep.
        -- destruct (reenvia_palpite e c) as [sent|err] eqn:E4; mstep.
           ++ match goal with |- context [envia_canais e m rest true (Some c) ?s] =>
                destruct (Hdepois s) as [u ->] end.
              exists true, u. split; [reflexivity|]. exists c.
              split; [reflexivity|]. split; [now left|].
              unfold canal_aceita. now rewrite E1, E2, E3, E4.
           ++ specialize (IH (Some c) st).
              destruct (envia_canais e m rest false (Some c) st) as [[r st'] tr].
              destruct IH as (success & ultimo & -> & IH).
              exists success, ultimo. split; [reflexivity|]. cbn [postagens app].
              destruct success.
              ** destruct IH as (c0 & Hp & Hin & Ha). exists c0. repeat split; auto.
                 now right.
              ** destruct IH as [Hp Hn]. split; [exact Hp|].
                 intros c0 [<-|Hin]; [|now apply Hn].
                 unfold canal_aceita. now rewrite E1, E2, E3, E4.
        -- specialize (IH (Some c) st).
           destruct (envia_canais e m rest false (Some c) st) as [[r st'] tr].
           destruct IH as (success & ultimo & -> & IH).
           exists success, ultimo. split; [reflexivity|]. cbn [postagens app].
           destruct success.
           ++ destruct IH as (c0 & Hp & Hin & Ha). exists c0. repeat split; auto.
              now right.
           ++ destruct IH as [Hp Hn]. split; [exact Hp|].
              intros c0 [<-|Hin]; [|now apply Hn].
              unfold canal_aceita. now rewrite E1, E2, E3.
      * specialize (IH (Some c) st).
        destruct (envia_canais e m rest false (Some c) st) as [[r st'] tr].
        destruct IH as (success & ultimo & -> & IH).
        exists success, ultimo. split; [reflexivity|]. cbn [postagens app].
        destruct success.
        -- destruct IH as (c0 & Hp & Hin & Ha). exists c0. repeat split; auto.
           now right.
        -- destruct IH as [Hp Hn]. split; [exact Hp|].
           intros c0 [<-|Hin]; [|now apply Hn].
           unfold canal_aceita. now rewrite E1, E2.
Qed.

Lemma entrega_postagens (e : Entradas) (m : Mensagem) :
  desfecho sem_postagens (fun tr => postagem_unica e (postagens tr)) (entrega e m).
Proof.
  intros st. unfold entrega, atribui. mstep.
  match goal with |- context [envia_canais e m ?l false None ?s] =>
    pose proof (envia_canais_postagens e m l None s) as H;
    destruct (envia_canais e m l false None s) as [[r st1] tr1]
  end.
  destruct H as (success & ultimo & -> & H). mstep.
  assert (Hesp : forall s, match espera e ultimo s with
                           | (r, _, tr) => r = Py.Ok tt /\ postagens tr = []
                           end).
  { intros s. unfold espera, le_local, regista.
    destruct ultimo as [c|]; mstep; [|now split].
    destruct (envia_espera e); mstep; [|now split].
    destruct (apaga_espera e); mstep; now split. }
  destruct success; mstep.
  - destruct H as (c & Hp & Hin & Ha).
    specialize (Hesp st1). destruct (espera e ultimo st1) as [[r st2] tr2].
    destruct Hesp as [-> Hp2]. cbn [app]. rewrite postagens_app, Hp, Hp2.
    cbn. split; assumption.
  - destruct H as [Hp Hn]. unfold envia_usuario, regista. mstep.
    destruct (PRIMEIRO_USUARIO_ID e) as [user_id|] eqn:Eu; mstep.
    + destruct (envia_direto e) as [sent|err]; mstep.
      * specialize (Hesp st1). destruct (espera e ultimo st1) as [[r st2] tr2].
        destruct Hesp as [-> Hp2]. cbn [app].
        rewrite ?postagens_app; cbn [postagens app];
          rewrite ?postagens_app, ?Hp, ?Hp2; cbn [postagens app postagem_unica].
        split; [exists user_id; now split | exact Hn].
      * specialize (Hesp st1). destruct (espera e ultimo st1) as [[r st2] tr2].
        destruct Hesp as [-> Hp2]. cbn [app].
        rewrite ?postagens_app; cbn [postagens app];
          rewrite ?postagens_app, ?Hp, ?Hp2. exact I.
    + specialize (Hesp st1). destruct (espera e ultimo st1) as [[r st2] tr2].
      destruct Hesp as [-> Hp2]. cbn [app].
      rewrite ?postagens_app; cbn [postagens app];
        rewrite ?postagens_app, ?Hp, ?Hp2. exact I.
Qed.

End Postagens.

(** X11.  A pass posts its prediction at most once.  When it goes to a
    channel, this is one of the three channel ids and it accepted the
    message, at once or at the second try after the wait Telegram asked
    for; a direct message to the first user is sent only when all three
    channels have refused the message. *)
Theorem pass_posts_at_most_once :
  forall (e : Entradas) (st : Estado),
    let l := postagens (snd (passo e st)) in
    (List.length l <= 1)%nat /\
    (forall c, In (c, false) l -> In c canais_fixos /\ canal_aceita e c = true) /\
    (forall c, In (c, true) l ->
               (exists user_id, PRIMEIRO_USUARIO_ID e = Some user_id /\ c = ChatInt user_id) /\
               forall c', In c' canais_fixos -> canal_aceita e c' = false).
Proof.
  intros e st l.
  assert (H : postagem_unica e l).
  { unfold l.
    apply (passo_desfecho (fun tr => postagens tr = [])
                          (fun tr => postagem_unica e (postagens tr)));
      try exact NP_app; try apply np_preparo; try apply np_pontuacao;
      try apply entrega_postagens.
    all: try solve [intros; reflexivity | intros; apply NP_mudo; exact I].
    - intros tr tr' Hn Hf. now rewrite postagens_app, Hn.
    - intros tr ex Hn. rewrite postagens_app, Hn. exact I. }
  unfold postagem_unica in H.
  destruct l as [|[c d] [|x l']]; cbn [List.length In].
  - repeat split; try lia; intros c [].
  - destruct d.
    + split; [lia|]. split.
      * intros c0 [Heq|[]]. discriminate.
      * intros c0 [Heq|[]]. now injection Heq as <-.
    + split; [lia|]. split.
      * intros c0 [Heq|[]]. now injection Heq as <-.
      * intros c0 [Heq|[]]. discriminate.
  - destruct d; contradiction.
Qed.

Section Placares.

Lemma placares_app (tr tr' : list Evento) :
  placares (tr ++ tr') = placares tr ++ placares tr'.
Proof.
  induction tr as [|ev tr IH]; [reflexivity|].
  destruct ev; cbn [placares app]; rewrite IH; reflexivity.
Qed.

Lemma placar_canais_placares (e : Entradas) (p : Placar) (canais : list ChatId) (st : Estado) :
  exists tr,
    placar_canais e p canais st = (Py.Ok tt, st, tr) /\
    placares tr = match find (envia_placar e) canais with
                  | Some c => [(c, p)]
                  | None => []
                  end.
Proof.
  induction canais as [|c rest IH]; cbn [placar_canais find]; [now eexists|].
  destruct (envia_placar e c); [now eexists|].
  destruct IH as [tr [IH Hp]]. unfold regista. mstep. rewrite IH.
  eexists. split; [reflexivity | exact Hp].
Qed.

(** A pass is its scoreboard step, which never raises, followed by the
    rest under the handler of the pass. *)
Lemma passo_reparte (e : Entradas) (st : Estado) :
  passo e st = bind (placar_periodico e) (fun _ => depois_do_placar e) st.
Proof.
  destruct (placar_periodico_ok e st) as (st1 & tr1 & E & _).
  unfold passo, corpo, preparo, depois_do_placar, gerar_palpite. mstep. rewrite E.
  destruct (reinicio_placar e st1) as [[[[]|ex] st2] tr2]; mstep.
  - destruct (estrategia_alta_assertividade _ _ _ st2) as [[[[[p g] d]|ex] st3] tr3]; mstep.
    + destruct (no_placar _ st3) as [[[[]|ex] st4] tr4]; mstep.
      * destruct (chama_atualizar _ st4) as [[[dados|ex] st5] tr5]; mstep.
        -- destruct (pontuacao e _ p st5) as [[[m|ex] st6] tr6]; mstep.
           ++ destruct (entrega e m st6) as [[[[]|ex] st7] tr7]; mstep.
              ** now rewrite <- !app_assoc, ?app_nil_r.
              ** destruct (regista _ _ _ st7) as [[[[]|ex'] st8] tr8]; mstep;
                   now rewrite <- !app_assoc, ?app_nil_r.
           ++ destruct (regista _ _ _ st6) as [[[[]|ex'] st8] tr8]; mstep;
                now rewrite <- !app_assoc, ?app_nil_r.
        -- destruct (regista _ _ _ st5) as [[[[]|ex'] st8] tr8]; mstep;
             now rewrite <- !app_assoc, ?app_nil_r.
      * destruct (regista _ _ _ st4) as [[[[]|ex'] st8] tr8]; mstep;
          now rewrite <- !app_assoc, ?app_nil_r.
    + destruct (regista _ _ _ st3) as [[[[]|ex'] st8] tr8]; mstep;
        now rewrite <- !app_assoc, ?app_nil_r.
  - destruct (regista _ _ _ st2) as [[[[]|ex'] st8] tr8]; mstep;
      now rewrite <- !app_assoc, ?app_nil_r.
Qed.

Variable u : Q.

Lemma SP_app (tr tr' : list Evento) : sem_placares tr -> sem_placares tr' -> sem_placares (tr ++ tr').
Proof. unfold sem_placares. intros H H'. now rewrite placares_app, H, H'. Qed.

Lemma SP_mudo (ev : Evento) :
  match ev with EPlacar _ _ => False | _ => True end -> sem_placares [ev].
Proof. destruct ev; intros H; try contradiction; reflexivity. Qed.

Ltac lateral_sp :=
  try solve [ reflexivity | exact SP_app
            | intros; apply SP_mudo; exact I | intros; assumption ].

Lemma sp_estrategia (pg : option PredictionGenerator) (env : Rede) (m : Momento) :
  mantem (ultimo_placar_em u) sem_placares (estrategia_alta_assertividade pg env m).
Proof. apply mantem_estrategia; lateral_sp. Qed.

Lemma depois_do_placar_mantem (e : Entradas) : mantem (ultimo_placar_em u) sem_placares (depois_do_placar e).
Proof.
  unfold depois_do_placar, gerar_palpite.
  apply mantem_catch; lateral_sp.
  - apply mantem_bind; lateral_sp; [apply mantem_reinicio_placar; lateral_sp | intros _].
    apply mantem_bind; lateral_sp; [apply sp_estrategia | intros [[p g] d]].
    apply mantem_bind; lateral_sp; [apply mantem_atribui; lateral_sp | intros _].
    apply mantem_bind; lateral_sp; [apply mantem_chama_atualizar; lateral_sp | intros dados].
    apply mantem_bind; lateral_sp;
      [apply mantem_pontuacao; lateral_sp; apply sp_estrategia | intros m].
    apply mantem_entrega; lateral_sp.
  - intros ex.
    apply mantem_bind; lateral_sp; [apply mantem_regista; lateral_sp|intros _].
    apply mantem_emit; lateral_sp.
Qed.

End Placares.

(** X12.  The scoreboard is due when 600 seconds have passed since it was
    last due.  A pass at which it is due posts it once, in the first
    channel of the current list that accepts it, with the counters as
    they stand before the prediction of the pass is counted; the ten
    minutes start anew whether or not a channel accepted it.  A pass at
    which it is not due posts no scoreboard and leaves the clock of the
    scoreboard alone. *)
Theorem scoreboard_every_ten_minutes :
  forall (e : Entradas) (st : Estado),
    match passo e st with
    | (_, st', tr) =>
      if Qle_bool 600 (agora e - ultimo_placar st) then
        ultimo_placar st' = agora e /\
        placares tr = match find (envia_placar e) (canal_ids st) with
                      | Some c => [(c, placar st)]
                      | None => []
                      end
      else ultimo_placar st' = ultimo_placar st /\ placares tr = []
    end.
Proof.
  intros e st. rewrite passo_reparte. unfold placar_periodico at 1. mstep.
  destruct (Qle_bool 600 (agora e - ultimo_placar st)); mstep.
  - destruct (placar_canais_placares e (placar st) (canal_ids st) st) as [tr1 [E Hp]].
    rewrite E. unfold atribui. mstep.
    pose proof (depois_do_placar_mantem (agora e) e (set_ultimo_placar (agora e) st) eq_refl)
      as H.
    destruct (depois_do_placar e _) as [[r st'] tr]. destruct H as [H1 H2].
    split; [exact H1|]. rewrite !placares_app, H2, Hp, !app_nil_r. reflexivity.
  - pose proof (depois_do_placar_mantem (ultimo_placar st) e st eq_refl) as H.
    destruct (depois_do_placar e st) as [[r st'] tr]. destruct H as [H1 H2].
    split; [exact H1|]. exact H2.
Qed.

(** ** The activity monitor *)

Section Monitor.

Lemma Qltb_iff (a b : Q) : Qltb a b = true <-> (a < b)%Q.
Proof.
  unfold Qltb. split; intros H.
  - destruct (Qle_bool b a) eqn:E; [discriminate|].
    apply Qnot_le_lt. intros Hle. apply Qle_bool_iff in Hle. congruence.
  - destruct (Qle_bool b a) eqn:E; [|reflexivity].
    apply Qle_bool_iff in E. exfalso. exact (Qlt_not_le _ _ H E).
Qed.

Lemma recente_mono (t now x : Q) :
  (t <= now)%Q -> recente now x = true -> recente t x = true.
Proof. unfold recente. rewrite !Qltb_iff. intros. lra. Qed.

Lemma filter_filter {A : Type} (f g : A -> bool) (l : list A) :
  (forall x, f x = true -> g x = true) ->
  filter f (filter g l) = filter f l.
Proof.
  intros H. induction l as [|x l IH]; [reflexivity|]. cbn [filter].
  destruct (g x) eqn:Eg; cbn [filter].
  - now rewrite IH.
  - destruct (f x) eqn:Ef; [|exact IH]. apply H in Ef. congruence.
Qed.

Lemma crescente_cons (a : Q) (l : list Q) : crescente (a :: l) -> crescente l.
Proof. destruct l; [trivial|]. now intros [_ H]. Qed.

Lemma crescente_ultimo (a : Q) (l : list Q) (now : Q) :
  crescente (a :: l ++ [now]) -> (a <= now)%Q.
Proof.
  revert a. induction l as [|b l IH]; intros a; cbn [app crescente].
  - now intros [H _].
  - intros [H1 H2]. apply Qle_trans with b; [exact H1 | now apply IH].
Qed.

(** What the list of restarts of the monitor has to do with the history:
    from the latest clock reading on, both hold the same recent
    restarts. *)
Lemma executa_recentes (ops : list MonOp) :
  forall (m : BotMonitor) (h : list Q) (tl now : Q),
    (forall t, (tl <= t)%Q ->
               filter (recente t) (restart_times m) = filter (recente t) h) ->
    crescente (tl :: map instante ops ++ [now]) ->
    filter (recente now) (restart_times (executa ops m))
    = filter (recente now) (h ++ reinicios ops) /\
    restart_limit (executa ops m) = restart_limit m.
Proof.
  induction ops as [|op ops IH]; intros m h tl now Hinv Hc.
  - cbn [executa reinicios]. rewrite app_nil_r. split; [|reflexivity].
    apply Hinv. cbn in Hc. apply Hc.
  - destruct op as [t|t]; cbn [executa reinicios map instante app] in *.
    + destruct Hc as [Ht Hc].
      destruct (IH (snd (fst (register_restart t m))) (h ++ [t]) t now) as [H1 H2].
      * intros t' Ht'. cbn. rewrite !filter_app. f_equal. apply Hinv. lra.
      * exact Hc.
      * split; [|exact H2]. rewrite H1, <- app_assoc. reflexivity.
    + destruct Hc as [Ht Hc].
      destruct (IH (snd (fst (can_restart t m))) h t now) as [H1 H2].
      * intros t' Ht'. cbn. rewrite filter_filter.
        -- apply Hinv. lra.
        -- intros x. now apply recente_mono.
      * exact Hc.
      * split; [exact H1 | exact H2].
Qed.


Lemma esvazia_spec (pendentes : list string) (m : BotMonitor) :
  esvazia pendentes m
  = (Py.Ok tt, match pendentes with [] => m | _ => set_error_queue [] m end,
     map LogErroCritico pendentes).
Proof.
  revert m. induction pendentes as [|e r IH]; intros m; cbn [esvazia]; [reflexivity|].
  unfold muda. mstep. rewrite IH. cbn [map app]. destruct r; reflexivity.
Qed.

Lemma reporta_fila (errors : list string) (m : BotMonitor) :
  error_queue (reporta errors m) = error_queue m ++ errors.
Proof.
  revert m. induction errors as [|e r IH]; intros m; cbn [reporta].
  - now rewrite app_nil_r.
  - rewrite IH. cbn. now rewrite <- app_assoc.
Qed.

Lemma Qfloor_unico (x : Q) (n : Z) :
  (inject_Z n <= x)%Q -> (x < inject_Z (n + 1))%Q -> Qfloor x = n.
Proof.
  intros Hlo Hhi.
  pose proof (Qfloor_le x) as H1. pose proof (Qlt_floor x) as H2.
  assert (Ha : (inject_Z n < inject_Z (Qfloor x + 1))%Q) by lra.
  assert (Hb : (inject_Z (Qfloor x) < inject_Z (n + 1))%Q) by lra.
  rewrite <- Zlt_Qlt in Ha, Hb. lia.
Qed.

Lemma int_of_time_floor (x : Q) : (0 <= x)%Q -> int_of_time x = Qfloor x.
Proof.
  intros H. unfold int_of_time. destruct x as [n d]. cbn [Qnum Qden Qfloor].
  apply Z.quot_div_nonneg; [|lia]. unfold Qle in H. cbn in H. lia.
Qed.

(** What [divmod] leaves of [x] for a positive whole [y]. *)
Lemma resto_da_divisao (x : Q) (y : positive) :
  (0 < inject_Z (Zpos y))%Q ->
  let r := (x - inject_Z (Zpos y) * inject_Z (Qfloor (x / inject_Z (Zpos y))))%Q in
  (0 <= r)%Q /\ (r < inject_Z (Zpos y))%Q.
Proof.
  intros Hy r.
  pose proof (Qfloor_le (x / inject_Z (Zpos y))) as H1.
  pose proof (Qlt_floor (x / inject_Z (Zpos y))) as H2.
  rewrite inject_Z_plus in H2. change (inject_Z 1) with 1%Q in H2.
  assert (Hdiv : (x == inject_Z (Zpos y) * (x / inject_Z (Zpos y)))%Q)
    by (field; intros H; rewrite H in Hy; now apply Qlt_irrefl in Hy).
  unfold r. set (t := (x / inject_Z (Zpos y))%Q) in *. clearbody t.
  set (q := inject_Z (Qfloor t)) in *. clearbody q.
  split.
  - apply Qle_minus_iff in H1.
    assert (H : (x - inject_Z (Zpos y) * q == inject_Z (Zpos y) * (t + - q))%Q)
      by (rewrite Hdiv at 1; ring).
    rewrite H. apply Qmult_le_0_compat; [now apply Qlt_le_weak | exact H1].
  - assert (H : (inject_Z (Zpos y) - (x - inject_Z (Zpos y) * q)
                 == inject_Z (Zpos y) * (q + 1 + - t))%Q)
      by (rewrite Hdiv at 1; ring).
    apply Qlt_minus_iff. setoid_replace (inject_Z (Zpos y) + - (x - inject_Z (Zpos y) * q))%Q
      with (inject_Z (Zpos y) * (q + 1 + - t))%Q by (rewrite <- H; ring).
    apply Qmult_lt_0_compat; [exact Hy|]. now apply Qlt_minus_iff in H2.
Qed.

Lemma int_of_time_inject (z : Z) : int_of_time (inject_Z z) = z.
Proof. unfold int_of_time, inject_Z. cbn. apply Z.quot_1_r. Qed.

Lemma relatorio_uptime :
  forall (m : BotMonitor) (now now' : Q),
    (last_activity m <= now)%Q ->
    exists r,
      get_status_report now now' m = (Py.Ok r, m, []) /\
      let '(h, mi, s) := uptime r in
      0 <= h /\ 0 <= mi < 60 /\ 0 <= s < 60 /\
      h * 3600 + mi * 60 + s = Qfloor (now - last_activity m).
Proof.
  intros m now now' Hle.
  unfold get_status_report, check_activity, divmod. mstep.
  eexists. split; [reflexivity|]. cbn [uptime].
  set (u := (now - last_activity m)%Q).
  assert (Hu : (0 <= u)%Q) by (unfold u; lra).
  pose proof (resto_da_divisao u 3600 ltac:(reflexivity)) as Hh1. cbv zeta in Hh1.
  change (inject_Z 3600) with 3600%Q in Hh1.
  set (h := Qfloor (u / 3600)) in *.
  set (r := (u - 3600 * inject_Z h)%Q) in *.
  pose proof (resto_da_divisao r 60 ltac:(reflexivity)) as Hm1. cbv zeta in Hm1.
  change (inject_Z 60) with 60%Q in Hm1.
  set (mi := Qfloor (r / 60)) in *.
  set (sq := (r - 60 * inject_Z mi)%Q) in *.
  rewrite !int_of_time_inject, (int_of_time_floor sq) by apply Hm1.
  pose proof (Qfloor_le sq) as Hs1. pose proof (Qlt_floor sq) as Hs2.
  rewrite inject_Z_plus in Hs2. change (inject_Z 1) with 1%Q in Hs2.
  assert (Hh0 : 0 <= h).
  { assert (H : (inject_Z 0 < inject_Z (h + 1))%Q).
    { rewrite inject_Z_plus. change (inject_Z 1) with 1%Q. change (inject_Z 0) with 0%Q.
      unfold r in Hh1. lra. }
    rewrite <- Zlt_Qlt in H. lia. }
  assert (Hmi : 0 <= mi < 60).
  { assert (H1 : (inject_Z 0 < inject_Z (mi + 1))%Q).
    { rewrite inject_Z_plus. change (inject_Z 1) with 1%Q. change (inject_Z 0) with 0%Q.
      unfold sq in Hm1. lra. }
    assert (H2 : (inject_Z mi < inject_Z 60)%Q).
    { change (inject_Z 60) with 60%Q. unfold sq in Hm1. lra. }
    rewrite <- Zlt_Qlt in H1, H2. lia. }
  assert (Hsz : 0 <= Qfloor sq < 60).
  { assert (H1 : (inject_Z 0 < inject_Z (Qfloor sq + 1))%Q).
    { rewrite inject_Z_plus. change (inject_Z 1) with 1%Q. change (inject_Z 0) with 0%Q. lra. }
    assert (H2 : (inject_Z (Qfloor sq) < inject_Z 60)%Q).
    { change (inject_Z 60) with 60%Q. lra. }
    rewrite <- Zlt_Qlt in H1, H2. lia. }
  repeat split; try lia.
  symmetry. apply Qfloor_unico.
  - rewrite !inject_Z_plus, !inject_Z_mult.
    change (inject_Z 3600) with 3600%Q. change (inject_Z 60) with 60%Q.
    unfold sq, r in *. lra.
  - rewrite !inject_Z_plus, !inject_Z_mult.
    change (inject_Z 3600) with 3600%Q. change (inject_Z 60) with 60%Q.
    change (inject_Z 1) with 1%Q.
    unfold sq, r in *. lra.
Qed.


End Monitor.

(** X13.  The monitor allows a restart exactly when fewer than
    [restart_limit] restarts were registered less than an hour before the
    question, whatever restarts and questions came before, as long as
    the clock never went back in between. *)
Theorem can_restart_counts_the_last_hour :
  forall (ops : list MonOp) (m : BotMonitor) (now : Q),
    restart_times m = [] ->
    crescente (map instante ops ++ [now]) ->
    fst (fst (can_restart now (executa ops m)))
    = Py.Ok (Z.of_nat (List.length (filter (recente now) (reinicios ops)))
             <? restart_limit m).
Proof.
  intros ops m now Hm Hc.
  assert (H : filter (recente now) (restart_times (executa ops m))
              = filter (recente now) ([] ++ reinicios ops) /\
              restart_limit (executa ops m) = restart_limit m).
  { destruct ops as [|op ops].
    - cbn. rewrite Hm. now split.
    - apply (executa_recentes (op :: ops) m [] (instante op) now).
      + intros t _. now rewrite Hm.
      + cbn [map app crescente] in *. split; [apply Qle_refl | exact Hc]. }
  destruct H as [H1 H2]. cbn [app] in H1.
  unfold can_restart, muda. mstep. cbn [restart_times set_restart_times restart_limit].
  fold (recente now). now rewrite H1, H2.
Qed.

Lemma can_restart_counts_the_last_hour_witness :
  fst (fst (can_restart 4000
              (executa [OpRestart 100; OpRestart 200; OpCan 300; OpRestart 3000;
                        OpRestart 3100; OpRestart 3200; OpRestart 3900]
                       (bot_monitor_inicial 0))))
  = Py.Ok (4 <? 5).
Proof.
  apply (can_restart_counts_the_last_hour
           [OpRestart 100; OpRestart 200; OpCan 300; OpRestart 3000;
            OpRestart 3100; OpRestart 3200; OpRestart 3900]
           (bot_monitor_inicial 0) 4000).
  - reflexivity.
  - cbn. repeat split; unfold Qle; cbn; lia.
Defined.



(** X15.  Errors reported to the monitor are logged by the next
    [process_errors] once each, oldest first, after those that were
    already waiting, and the queue is empty afterwards. *)
Theorem process_errors_drains_the_queue :
  forall (errors : list string) (m : BotMonitor),
    exists m',
      process_errors (reporta errors m)
      = (Py.Ok tt, m', map LogErroCritico (error_queue m ++ errors)) /\
      error_queue m' = [] /\
      admin_chat_ids m' = admin_chat_ids m /\
      restart_times m' = restart_times m.
Proof.
  intros errors m. unfold process_errors. mstep.
  rewrite esvazia_spec, reporta_fila.
  eexists. split; [reflexivity|].
  assert (Hk : admin_chat_ids (reporta errors m) = admin_chat_ids m /\
               restart_times (reporta errors m) = restart_times m).
  { revert m. induction errors as [|e r IH]; intros m; cbn [reporta]; [now split|].
    destruct (IH (snd (fst (report_error e m)))) as [H1 H2]. now rewrite H1, H2. }
  destruct Hk as [Hk1 Hk2].
  destruct (error_queue m ++ errors) eqn:E.
  - rewrite <- reporta_fila in E. now repeat split.
  - now repeat split.
Qed.

(** X16.  The time of activity that the status report shows is the whole
    number of seconds since the last activity, split into hours, minutes
    below 60 and seconds below 60, as long as the clock has not gone
    back since then. *)
Theorem uptime_splits_the_seconds :
  forall (m : BotMonitor) (now now' : Q),
    (last_activity m <= now)%Q ->
    exists r,
      get_status_report now now' m = (Py.Ok r, m, []) /\
      let '(h, mi, s) := uptime r in
      0 <= h /\ 0 <= mi < 60 /\ 0 <= s < 60 /\
      h * 3600 + mi * 60 + s = Qfloor (now - last_activity m).
Proof. exact relatorio_uptime. Qed.

Lemma uptime_splits_the_seconds_witness :
  exists r,
    get_status_report 3725.5 3726 (bot_monitor_inicial 0)
    = (Py.Ok r, bot_monitor_inicial 0, []) /\
    uptime r = (1, 2, 5).
Proof.
  destruct (uptime_splits_the_seconds (bot_monitor_inicial 0) 3725.5 3726) as (r & E & H).
  - unfold Qle; cbn; lia.
  - exists r. split; [exact E|].
    assert (Hu : option_map uptime
                   (match fst (fst (get_status_report 3725.5 3726 (bot_monitor_inicial 0))) with
                    | Py.Ok x => Some x | Py.Raise _ => None end) = Some (1, 2, 5))
      by (vm_compute; reflexivity).
    rewrite E in Hu. cbn in Hu. now injection Hu.
Defined.

(** ** The polling loop of [main] *)

Section Polling.




End Polling.


(** ** The restart loop *)

Section Arranques.

Lemma arranques_app (t1 t2 : list EvArranque) :
  arranques (t1 ++ t2) = (arranques t1 + arranques t2)%nat.
Proof. unfold arranques. rewrite filter_app, length_app. reflexivity. Qed.

Lemma intervalos_app (t1 t2 : list EvArranque) :
  intervalos (t1 ++ t2) = intervalos t1 ++ intervalos t2.
Proof.
  induction t1 as [|ev t1 IH]; [reflexivity|].
  destruct ev; cbn; rewrite ?IH; reflexivity.
Qed.

Lemma ciclo_arranque_spec (restantes : nat) (mundo : nat -> Arranque) (k : nat)
      (retry_delay : Q) :
  (restantes <= 10)%nat -> (30 <= retry_delay)%Q -> (retry_delay <= 300)%Q ->
  let '(tr, retry_count) := ciclo_arranque restantes mundo k retry_delay in
  let falhas := List.length (intervalos tr) in
  (forall s, In s (intervalos tr) -> (30 <= s)%Q /\ (s <= 300)%Q) /\
  retry_count = 10 - Z.of_nat restantes + Z.of_nat falhas /\
  (falhas <= restantes)%nat /\
  (forall i, (i < falhas)%nat -> exists e, ar_main (mundo (k + i)%nat) = MainErro e) /\
  (arranques tr = if (falhas <? restantes)%nat then S falhas else falhas) /\
  ((falhas < restantes)%nat ->
   (ar_main (mundo (k + falhas)%nat) = MainRegressa /\ ~ dado_por_manual tr) \/
   (ar_main (mundo (k + falhas)%nat) = MainSaida /\ dado_por_manual tr)).
Proof.
  revert k retry_delay.
  induction restantes as [|r IH]; intros k d Hr Hlo Hhi; cbn [ciclo_arranque].
  - cbn. repeat split; try lia; try (intros ? []); intros; lia.
  - destruct (ar_main (mundo k)) as [| |e] eqn:Em.
    + cbn. rewrite Nat.add_0_r. unfold max_retry, dado_por_manual.
      repeat split; try lia; try (intros ? []); try (intros; lia).
      intros _. left. split; [exact Em|]. cbn. intros [H|[]]. discriminate.
    + cbn. rewrite Nat.add_0_r. unfold max_retry, dado_por_manual.
      repeat split; try lia; try (intros ? []); try (intros; lia).
      intros _. right. split; [exact Em|]. cbn. auto.
    + assert (Hd : (30 <= Qmin (d * 1.5) 300)%Q /\ (Qmin (d * 1.5) 300 <= 300)%Q).
      { split; [apply Q.min_glb; lra|apply Q.le_min_r]. }
      specialize (IH (S k) (Qmin (d * 1.5) 300) ltac:(lia) (proj1 Hd) (proj2 Hd)).
      destruct (ciclo_arranque r mundo (S k) (Qmin (d * 1.5) 300)) as [tr rc].
      cbv zeta in IH. destruct IH as (H1 & H2 & H3 & H4 & H5 & H6).
      cbn [app intervalos List.length].
      change (arranques (GMain :: ?x)) with (S (arranques x)).
      split.
      { intros s [<-|Hs]; [split; assumption|auto]. }
      split; [lia|]. split; [lia|].
      split.
      { intros [|i] Hi.
        - rewrite Nat.add_0_r. eauto.
        - replace (k + S i)%nat with (S k + i)%nat by lia. apply H4. lia. }
      split.
      { unfold arranques in *. cbn [filter List.length]. rewrite H5.
        change (S (List.length (intervalos tr)) <? S r)%nat
          with (List.length (intervalos tr) <? r)%nat.
        destruct (_ <? r)%nat; reflexivity. }
      intros Hlt.
      replace (k + S (List.length (intervalos tr)))%nat
        with (S k + List.length (intervalos tr))%nat by lia.
      destruct (H6 ltac:(lia)) as [[Ha Hb]|[Ha Hb]]; [left|right]; (split; [exact Ha|]).
      * unfold dado_por_manual in *. cbn. intros [H|[H|[H|[H|[H|H]]]]];
          try discriminate. auto.
      * unfold dado_por_manual in *. cbn. auto 10.
Qed.

End Arranques.

(** X18.  Run as a program, the script calls [main()] at most ten
    times, again only after a call that raised an exception, and waits
    between 30 and 300 seconds before each new call.  It leaves through
    [sys.exit(1)] exactly when ten calls have raised.  A call left
    through [SystemExit], as when the polling loop gives up, is not
    followed by another: it is logged as a manual shutdown and the
    script ends normally. *)
Theorem script_restarts_only_after_an_exception (flask : bool) (mundo : nat -> Arranque) :
  let '(tr, fim) := script flask mundo in
  let falhas := List.length (intervalos tr) in
  (arranques tr <= 10)%nat /\
  (forall s, In s (intervalos tr) -> (30 <= s)%Q /\ (s <= 300)%Q) /\
  (forall i, (i < falhas)%nat -> exists e, ar_main (mundo i) = MainErro e) /\
  (fim = Exit1 <-> falhas = 10%nat) /\
  (fim = Regressa ->
   arranques tr = S falhas /\
   ((ar_main (mundo falhas) = MainRegressa /\ ~ dado_por_manual tr) \/
    (ar_main (mundo falhas) = MainSaida /\ dado_por_manual tr))).
Proof.
  unfold script.
  pose proof (ciclo_arranque_spec 10 mundo 0 30 ltac:(lia) ltac:(lra) ltac:(lra)) as H.
  destruct (ciclo_arranque 10 mundo 0 30) as [tr rc].
  cbv zeta in H. destruct H as (H1 & H2 & H3 & H4 & H5 & H6).
  cbn [Nat.add] in H4, H6.
  assert (Hi : forall pre pos,
             intervalos pre = [] -> intervalos pos = [] ->
             intervalos (pre ++ [GLog LogIniciando] ++ tr ++ pos) = intervalos tr).
  { intros pre pos Ha Hb. rewrite !intervalos_app, Ha, Hb. cbn. apply app_nil_r. }
  assert (Ha : forall pre pos,
             arranques pre = 0%nat -> arranques pos = 0%nat ->
             arranques (pre ++ [GLog LogIniciando] ++ tr ++ pos) = arranques tr).
  { intros pre pos Hx Hy. rewrite !arranques_app, Hx, Hy. cbn. lia. }
  assert (Hm : forall pre pos,
             ~ In (GLog LogEncerradoManualmente) pre ->
             ~ In (GLog LogEncerradoManualmente) pos ->
             (dado_por_manual (pre ++ [GLog LogIniciando] ++ tr ++ pos)
              <-> dado_por_manual tr)).
  { intros pre pos Hx Hy. unfold dado_por_manual. rewrite !in_app_iff. cbn.
    split; [intros [H|[[H|[]]|[H|H]]]; try discriminate; tauto|tauto]. }
  unfold max_retry in *.
  set (pre := if flask then [] else [GLog LogFlaskIndisponivel]).
  assert (Hpre : intervalos pre = [] /\ arranques pre = 0%nat /\
                 ~ In (GLog LogEncerradoManualmente) pre).
  { unfold pre. destruct flask; cbn; repeat split; try tauto.
    intros [H|[]]. discriminate. }
  destruct Hpre as (Hp1 & Hp2 & Hp3).
  destruct (Z.leb_spec 10 rc) as [Hrc|Hrc].
  - rewrite Hi, Ha by (assumption || reflexivity).
    assert (Hf : List.length (intervalos tr) = 10%nat) by lia.
    rewrite Hf in H5. cbn in H5.
    split; [lia|]. split; [exact H1|]. split; [exact H4|].
    split; [tauto|]. discriminate.
  - rewrite Hi, Ha by (assumption || reflexivity).
    assert (Hf : (List.length (intervalos tr) < 10)%nat) by lia.
    assert (E : (List.length (intervalos tr) <? 10)%nat = true) by (apply Nat.ltb_lt, Hf).
    rewrite E in H5.
    split; [lia|]. split; [exact H1|]. split; [exact H4|].
    split; [split; [discriminate|lia]|].
    intros _. split; [exact H5|].
    rewrite Hm by (assumption || (cbn; tauto)).
    apply H6, Hf.
Qed.

(** ** Reactions *)

Section Reacoes.

Lemma soma_em_valor (l : list (string * Z)) (k : string) (c : Z) (e : string) :
  valor_em (soma_em l k c) e = valor_em l e + (if String.eqb k e then c else 0).
Proof.
  unfold valor_em. induction l as [|[k' v'] l IH]; cbn.
  - destruct (String.eqb k e); lia.
  - destruct (String.eqb k' k) eqn:Ek; cbn.
    + apply String.eqb_eq in Ek. subst k'.
      destruct (String.eqb k e); lia.
    + destruct (String.eqb k' e) eqn:Ee; [|exact IH].
      apply String.eqb_eq in Ee. subst k'.
      rewrite String.eqb_sym, Ek. lia.
Qed.

Lemma soma_em_chaves (l : list (string * Z)) (k : string) (c : Z) (e : string) :
  In e (map fst (soma_em l k c)) <-> e = k \/ In e (map fst l).
Proof.
  induction l as [|[k' v'] l IH]; cbn.
  - intuition.
  - destruct (String.eqb k' k) eqn:Ek; cbn.
    + apply String.eqb_eq in Ek. subst k'. intuition.
    + rewrite IH. intuition.
Qed.

Lemma soma_em_nodup (l : list (string * Z)) (k : string) (c : Z) :
  NoDup (map fst l) -> NoDup (map fst (soma_em l k c)).
Proof.
  induction l as [|[k' v'] l IH]; cbn; intros H.
  - constructor; [intros []|constructor].
  - inversion H as [|? ? Hn Hl]; subst.
    destruct (String.eqb k' k) eqn:Ek; cbn.
    + constructor; assumption.
    + constructor; [|auto].
      rewrite soma_em_chaves. intros [->|Hin]; [|contradiction].
      rewrite String.eqb_refl in Ek. discriminate.
Qed.

Lemma soma_mensagem (r acc : list (string * Z)) (e : string) :
  valor_em (fold_left (fun a ec => soma_em a (fst ec) (snd ec)) r acc) e
  = valor_em acc e + soma_de r e.
Proof.
  revert acc. induction r as [|[k v] r IH]; intros acc; cbn.
  - unfold soma_de. cbn. lia.
  - rewrite IH, soma_em_valor. unfold soma_de. cbn.
    destruct (String.eqb k e); cbn; lia.
Qed.

Lemma soma_mensagem_nodup (r acc : list (string * Z)) :
  NoDup (map fst acc) ->
  NoDup (map fst (fold_left (fun a ec => soma_em a (fst ec) (snd ec)) r acc)).
Proof.
  revert acc. induction r as [|[k v] r IH]; intros acc H; cbn; [exact H|].
  apply IH, soma_em_nodup, H.
Qed.

Lemma soma_reacoes_de (d : Mensagens) (acc : list (string * Z)) (e : string) :
  valor_em
    (fold_left
       (fun all_reactions kv =>
          fold_left (fun a ec => soma_em a (fst ec) (snd ec))
                    (reactions (snd kv)) all_reactions) d acc) e
  = valor_em acc e + total_de d e.
Proof.
  revert acc. induction d as [|kv d IH]; intros acc; cbn.
  - unfold total_de. cbn. lia.
  - rewrite IH, soma_mensagem. unfold total_de. cbn. lia.
Qed.

Lemma soma_reacoes_nodup_de (d : Mensagens) (acc : list (string * Z)) :
  NoDup (map fst acc) ->
  NoDup (map fst
    (fold_left
       (fun all_reactions kv =>
          fold_left (fun a ec => soma_em a (fst ec) (snd ec))
                    (reactions (snd kv)) all_reactions) d acc)).
Proof.
  revert acc. induction d as [|kv d IH]; intros acc H; cbn; [exact H|].
  apply IH, soma_mensagem_nodup, H.
Qed.

Lemma soma_reacoes_total (d : Mensagens) (e : string) :
  valor_em (soma_reacoes d) e = total_de d e.
Proof.
  unfold soma_reacoes. rewrite soma_reacoes_de. reflexivity.
Qed.

Lemma soma_reacoes_nodup (d : Mensagens) : NoDup (map fst (soma_reacoes d)).
Proof. apply soma_reacoes_nodup_de. constructor. Qed.

Lemma nodup_procura (l : list (string * Z)) (e : string) (n : Z) :
  NoDup (map fst l) -> (In (e, n) l <-> dict_get_opt l e = Some n).
Proof.
  induction l as [|[k v] l IH]; cbn; intros H.
  - split; [intros []|discriminate].
  - inversion H as [|? ? Hn Hl]; subst.
    destruct (String.eqb k e) eqn:Ek.
    + apply String.eqb_eq in Ek. subst k. split.
      * intros [Heq|Hin]; [congruence|].
        exfalso. apply Hn. change e with (fst (e, n)). apply in_map, Hin.
      * intros Heq. left. congruence.
    + rewrite <- (IH Hl). split; [|auto].
      intros [Heq|Hin]; [|exact Hin].
      injection Heq as -> _. rewrite String.eqb_refl in Ek. discriminate.
Qed.

Lemma insere_perm (x : string * Z) (l : list (string * Z)) :
  Permutation (x :: l) (insere x l).
Proof.
  induction l as [|y l IH]; cbn; [reflexivity|].
  destruct (snd x <? snd y); [|reflexivity].
  rewrite perm_swap. apply perm_skip, IH.
Qed.

Lemma sorted_reverse_perm (l : list (string * Z)) : Permutation l (sorted_reverse l).
Proof.
  induction l as [|x l IH]; cbn; [constructor|].
  rewrite <- insere_perm. apply perm_skip, IH.
Qed.

Lemma insere_decrescente (x : string * Z) (l : list (string * Z)) :
  decrescente l -> decrescente (insere x l).
Proof.
  unfold decrescente. induction l as [|y l IH]; cbn; intros H.
  - constructor; constructor.
  - inversion H as [|? ? Hl Hy]; subst.
    destruct (snd x <? snd y) eqn:E.
    + apply Z.ltb_lt in E. constructor; [auto|].
      rewrite Forall_forall in *. intros z Hz.
      apply (Permutation_in _ (Permutation_sym (insere_perm x l))) in Hz.
      destruct Hz as [<-|Hz]; [lia|auto].
    + apply Z.ltb_ge in E. constructor; [exact H|].
      constructor; [exact E|].
      rewrite Forall_forall in *. intros z Hz. specialize (Hy z Hz). lia.
Qed.

Lemma sorted_reverse_decrescente (l : list (string * Z)) : decrescente (sorted_reverse l).
Proof.
  induction l as [|x l IH]; cbn; [constructor|].
  apply insere_decrescente, IH.
Qed.

Lemma filter_decrescente (f : string * Z -> bool) (l : list (string * Z)) :
  decrescente l -> decrescente (filter f l).
Proof.
  unfold decrescente. induction l as [|x l IH]; cbn; intros H; [constructor|].
  inversion H as [|? ? Hl Hx]; subst.
  destruct (f x); [|auto].
  constructor; [auto|].
  rewrite Forall_forall in *. intros z Hz. apply filter_In in Hz. apply Hx, Hz.
Qed.

Lemma filter_nodup_chaves (f : string * Z -> bool) (l : list (string * Z)) :
  NoDup (map fst l) -> NoDup (map fst (filter f l)).
Proof.
  induction l as [|x l IH]; cbn; intros H; [constructor|].
  inversion H as [|? ? Hn Hl]; subst.
  destruct (f x); cbn; [|auto].
  constructor; [|auto].
  intros Hin. apply Hn. apply in_map_iff in Hin. destruct Hin as (y & Hy & Hin).
  apply filter_In in Hin. apply in_map_iff. exists y. tauto.
Qed.

Lemma estatisticas (d : Mensagens) (linhas : list (string * Z)) :
  texto_reacoes d = TEstatisticas linhas ->
  decrescente linhas /\
  NoDup (map fst linhas) /\
  forall e n, In (e, n) linhas <-> 0 < n /\ n = total_de d e.
Proof.
  unfold texto_reacoes. destruct d as [|kv d]; [discriminate|].
  set (dd := kv :: d).
  pose proof (soma_reacoes_nodup dd) as Hnd.
  pose proof (soma_reacoes_total dd) as Htot.
  destruct (soma_reacoes dd) as [|x all] eqn:Eall; [discriminate|].
  rewrite <- Eall in *. clear Eall x all.
  destruct (_ =? 0); [discriminate|].
  intros [= <-].
  pose proof (sorted_reverse_perm (soma_reacoes dd)) as Hp.
  assert (Hnd' : NoDup (map fst (sorted_reverse (soma_reacoes dd))))
    by (eapply Permutation_NoDup; [apply Permutation_map, Hp|exact Hnd]).
  split; [apply filter_decrescente, sorted_reverse_decrescente|].
  split; [apply filter_nodup_chaves, Hnd'|].
  intros e n. rewrite filter_In. cbn [snd].
  rewrite Z.ltb_lt.
  assert (Hin : In (e, n) (sorted_reverse (soma_reacoes dd)) <->
                dict_get_opt (soma_reacoes dd) e = Some n).
  { rewrite <- (nodup_procura _ e n Hnd). split; intros H.
    - eapply Permutation_in; [apply Permutation_sym, Hp|exact H].
    - eapply Permutation_in; [apply Hp|exact H]. }
  rewrite Hin. specialize (Htot e). unfold valor_em in Htot.
  destruct (dict_get_opt (soma_reacoes dd) e) as [v|].
  - split.
    + intros [Heq Hn]. injection Heq as Heq. split; [exact Hn|lia].
    + intros [Hn Heq]. split; [f_equal; lia|exact Hn].
  - split; [intros [Heq _]; discriminate|].
    intros [Hn Heq]. lia.
Qed.

Lemma reactions_cmd_envia (now : Q) (user_id : Z) (resposta : SendResult) (w : Mundo)
      (t : Texto) (ok : bool) :
  In (AEnvia user_id t ok) (snd (reactions_cmd now user_id resposta w)) ->
  t = TReacoes (texto_reacoes (prediction_messages w)).
Proof.
  unfold reactions_cmd, no_bot_monitor, register_activity, muda.
  destruct resposta; cbn; intros [H|[]]; congruence.
Qed.

End Reacoes.

(** X19.  The statistics that /reactions sends list the reactions by
    falling count, each reaction once, and a reaction is listed with a
    count exactly when that count is above zero and is the sum of what
    every stored message counts for it. *)
Theorem reactions_are_ranked_totals
        (now : Q) (user_id : Z) (resposta : SendResult) (w : Mundo)
        (ok : bool) (linhas : list (string * Z)) :
  In (AEnvia user_id (TReacoes (TEstatisticas linhas)) ok)
     (snd (reactions_cmd now user_id resposta w)) ->
  decrescente linhas /\
  NoDup (map fst linhas) /\
  forall e n, In (e, n) linhas <-> 0 < n /\ n = total_de (prediction_messages w) e.
Proof.
  intros H. apply reactions_cmd_envia in H. injection H as H.
  apply estatisticas. symmetry. exact H.
Qed.

Lemma reactions_are_ranked_totals_witness :
  exists linhas,
    linhas = [("💰", 6); ("👍", 3)] /\
    decrescente linhas /\
    NoDup (map fst linhas) /\
    forall e n, In (e, n) linhas <-> 0 < n /\ n = total_de mensagens_exemplo e.
Proof.
  eexists. split; [reflexivity|].
  apply (reactions_are_ranked_totals
           0 7 (SendOk {| message_id := 1 |})
           (set_prediction_messages mensagens_exemplo (mundo_inicial 0)) true).
  vm_compute. left. reflexivity.
Defined.

Section Reage.

Lemma emoji_nao_vazio (tipo emoji : string) :
  dict_get_opt REACTION_EMOJIS tipo = Some emoji -> String.eqb emoji "" = false.
Proof.
  unfold REACTION_EMOJIS. cbn [dict_get_opt].
  repeat match goal with
         | |- context [if ?b then _ else _] => destruct b
         end; intros H; try discriminate; injection H as <-; reflexivity.
Qed.

Lemma soma_um_spec (r : list (string * Z)) (emoji : string) (n : Z) :
  dict_get_opt r emoji = Some n ->
  exists r',
    soma_um r emoji = Py.Ok r' /\
    dict_item r' emoji = Py.Ok (n + 1) /\
    dict_get_opt r' emoji = Some (n + 1) /\
    forall e, e <> emoji -> dict_get_opt r' e = dict_get_opt r e.
Proof.
  induction r as [|[k v] r IH]; cbn; [discriminate|].
  destruct (String.eqb k emoji) eqn:Ek.
  - intros [= ->]. eexists. split; [reflexivity|]. cbn. rewrite ?Ek.
    repeat split. intros e He.
    apply String.eqb_eq in Ek. subst k.
    destruct (String.eqb emoji e) eqn:Ee; [|reflexivity].
    apply String.eqb_eq in Ee. congruence.
  - intros H. destruct (IH H) as (r' & -> & H1 & H2 & H3).
    eexists. split; [reflexivity|]. cbn. rewrite ?Ek.
    repeat split; try assumption.
    intros e He. destruct (String.eqb k e); [reflexivity|auto].
Qed.

Lemma reage_spec (d : Mensagens) (message_id : Z) (emoji : string) (n : Z) :
  contagem_de d message_id emoji = Some n ->
  exists d' r',
    tem_mensagem message_id d = true /\
    reage d message_id emoji = Py.Ok d' /\
    reacoes_de d' message_id = Py.Ok r' /\
    dict_item r' emoji = Py.Ok (n + 1) /\
    contagem_de d' message_id emoji = Some (n + 1) /\
    forall mid e, mid <> message_id \/ e <> emoji -> contagem_de d' mid e = contagem_de d mid e.
Proof.
  unfold contagem_de. induction d as [|[k v] d IH]; cbn; [discriminate|].
  destruct (k =? message_id) eqn:Ek.
  - intros H. destruct (soma_um_spec _ _ _ H) as (r' & -> & H1 & H2 & H3).
    exists ((k, {| prediction := prediction v; reactions := r' |}) :: d), r'.
    cbn. rewrite ?Ek. repeat split; try assumption.
    intros mid e Hne. apply Z.eqb_eq in Ek. subst k.
    destruct (message_id =? mid) eqn:Em; [|reflexivity].
    apply Z.eqb_eq in Em. subst mid. cbn. apply H3.
    destruct Hne as [Hne|Hne]; [congruence|exact Hne].
  - intros H. destruct (IH H) as (d' & r' & H0 & -> & H1 & H2 & H3 & H4).
    exists ((k, v) :: d'), r'.
    cbn. rewrite ?Ek. repeat split; try assumption.
    intros mid e Hne. destruct (k =? mid); [reflexivity|auto].
Qed.

End Reage.

(** X20.  A reaction of one of the eight types to a stored message
    raises that message's count for the reaction by exactly one and
    leaves every other count as it was; the user is told the new count.
    When Telegram refuses the answer the count has gone up all the
    same. *)
Theorem reaction_counts_exactly_once
        (call : Callback) (d : Mensagens) (tipo emoji : string) (n : Z) :
  Py.item (Py.split "_" (cb_data call)) 1 = Py.Ok tipo ->
  dict_get_opt REACTION_EMOJIS tipo = Some emoji ->
  contagem_de d (cb_message_id call) emoji = Some n ->
  exists r d' tr,
    handle_reaction call d = (r, d', tr) /\
    contagem_de d' (cb_message_id call) emoji = Some (n + 1) /\
    (forall mid e, mid <> cb_message_id call \/ e <> emoji ->
                   contagem_de d' mid e = contagem_de d mid e) /\
    (if cb_responde call
     then r = Py.Ok tt /\ hd_error tr = Some (RResponde (cb_id call) emoji (n + 1))
     else r = Py.Raise Py.RequestException /\ tr = []).
Proof.
  intros Htipo Hemoji Hn.
  destruct (reage_spec _ _ _ _ Hn) as (d' & r' & Htem & Hreage & Hr' & Hitem & Hc & Hout).
  unfold handle_reaction. rewrite Htipo. mstep. rewrite Htem, Hemoji.
  rewrite (emoji_nao_vazio _ _ Hemoji). rewrite Hreage. mstep.
  rewrite Hr'. mstep. rewrite Hitem. mstep.
  destruct (cb_responde call); mstep.
  - destruct (cb_edita call); mstep; eexists _, d', _;
      (split; [reflexivity|]); repeat split; assumption.
  - eexists _, d', _. split; [reflexivity|]. repeat split; assumption.
Qed.

Lemma reaction_counts_exactly_once_witness :
  exists r d' tr,
    handle_reaction {| cb_id := "q"; cb_message_id := 10; cb_chat_id := 7;
                       cb_data := "reaction_money"; cb_text := "t";
                       cb_responde := false; cb_edita := true |}
                    mensagens_exemplo = (r, d', tr) /\
    contagem_de d' 10 "💰" = Some 6 /\
    contagem_de d' 11 "💰" = Some 1 /\
    r = Py.Raise Py.RequestException.
Proof.
  destruct (reaction_counts_exactly_once
              {| cb_id := "q"; cb_message_id := 10; cb_chat_id := 7;
                 cb_data := "reaction_money"; cb_text := "t";
                 cb_responde := false; cb_edita := true |}
              mensagens_exemplo "money" "💰" 5)
    as (r & d' & tr & H & Hc & Hout & Hr);
    [vm_compute; reflexivity | vm_compute; reflexivity | vm_compute; reflexivity |].
  exists r, d', tr. split; [exact H|]. split; [exact Hc|].
  split; [|exact (proj1 Hr)].
  rewrite (Hout 11 "💰"); [vm_compute; reflexivity|].
  left. discriminate.
Defined.

(** ** Commands *)

Section Comandos.

Lemma mem_Z_app (x : Z) (l : list Z) : mem_Z x (l ++ [x]) = true.
Proof.
  unfold mem_Z. rewrite existsb_app. cbn. rewrite Z.eqb_refl.
  rewrite orb_true_r. reflexivity.
Qed.

Lemma start_cmd_primeiro (user_id : Z) (username : option string)
      (boas_vindas simples : SendResult) (w : Mundo) :
  primeiro_usuario_id (snd (fst (start_cmd user_id username boas_vindas simples w)))
  = match primeiro_usuario_id w with
    | Some u => Some u
    | None => Some user_id
    end.
Proof.
  unfold start_cmd, altera, anota, envia. mstep.
  destruct (primeiro_usuario_id w) eqn:E; mstep;
    destruct boas_vindas; mstep; try destruct simples; mstep; cbn; try rewrite E; reflexivity.
Qed.

Lemma relatorio_regressa (now now' : Q) (m : BotMonitor) :
  exists r, get_status_report now now' m = (Py.Ok r, m, []).
Proof.
  unfold get_status_report, check_activity. mstep.
  destruct (divmod _ 3600) as [hours remainder].
  destruct (divmod remainder 60) as [minutes seconds].
  mstep. eexists. reflexivity.
Qed.

End Comandos.

(** X21.  /status never sends the notice of registration for alerts: by
    the time it asks whether the sender is among the administrators it
    has entered the sender there.  When the status text goes through,
    the sender is an administrator afterwards; when it does not, the
    command raises and the administrators are as they were. *)
Theorem status_never_sends_the_registration_notice
        (ms : MundoStatus) (chat_id from_user_id : Z) (w : Mundo) :
  exists r w' tr,
    status_cmd ms chat_id from_user_id w = (r, w', tr) /\
    (forall c t, In (c, t) (enviados tr) -> t <> TRegistadoParaAlertas) /\
    match ms_envia_status ms with
    | SendOk _ => r = Py.Ok tt /\ mem_Z from_user_id (admin_chat_ids (bot_monitor w')) = true
    | SendErr _ => r = Py.Raise Py.RequestException /\
                   admin_chat_ids (bot_monitor w') = admin_chat_ids (bot_monitor w)
    end.
Proof.
  destruct (relatorio_regressa (ms_agora_relatorio ms) (ms_agora_atividade ms)
              (set_last_activity (ms_agora ms) (bot_monitor w))) as [rel Hrel].
  unfold status_cmd, no_bot_monitor, register_activity, register_admin, muda, anota, envia.
  mstep. cbn [bot_monitor set_bot_monitor]. rewrite Hrel.
  mstep. cbn [bot_monitor set_bot_monitor estado].
  destruct (ms_psutil ms) as [rec|ex]; mstep;
    (destruct (ms_envia_status ms) as [m|err]; mstep;
     cbn [bot_monitor set_bot_monitor set_last_activity admin_chat_ids estado];
     [ destruct (mem_Z from_user_id (admin_chat_ids (bot_monitor w))) eqn:Em; mstep;
       cbn [bot_monitor set_bot_monitor set_last_activity set_admin_chat_ids
            admin_chat_ids negb];
       rewrite ?Em, ?mem_Z_app; cbn [negb]; mstep
     | ]);
    (eexists _, _, _; split; [reflexivity|]; split;
     [ cbn; intros c t H;
       repeat match type of H with
              | _ \/ _ => destruct H as [H|H]
              | False => destruct H
              | (_, _) = (_, _) => injection H as <- <-
              end;
       destruct (0 <? total (placar (estado w))); discriminate
     | split; [reflexivity|];
       cbn [bot_monitor set_bot_monitor set_last_activity set_admin_chat_ids admin_chat_ids];
       rewrite ?Em, ?mem_Z_app; reflexivity ]).
Qed.

(** X22.  However many /start commands arrive and whatever Telegram does
    with the welcomes, the user registered for direct messages is the
    one who was registered before, or else the sender of the first
    /start. *)
Theorem first_start_registers_the_user (chamadas : list Start) (w : Mundo) :
  primeiro_usuario_id (varios_start chamadas w)
  = match primeiro_usuario_id w with
    | Some u => Some u
    | None => option_map s_user_id (hd_error chamadas)
    end.
Proof.
  revert w. induction chamadas as [|c resto IH]; intros w; cbn [varios_start].
  - destruct (primeiro_usuario_id w); reflexivity.
  - rewrite IH, start_cmd_primeiro.
    destruct (primeiro_usuario_id w); reflexivity.
Qed.

(** X23.  The time online that /status shows is counted from the
    command's own call of [register_activity]: it is the whole number of
    seconds between that call and the report, whatever the time the bot
    has run. *)
Theorem status_uptime_counts_from_the_command
        (ms : MundoStatus) (chat_id from_user_id : Z) (w : Mundo)
        (t a e : Z) (taxa : Q) (gs : Z) (rel : StatusReport) (rec : option Recursos) :
  (ms_agora ms <= ms_agora_relatorio ms)%Q ->
  In (chat_id, TStatus t a e taxa gs rel rec)
     (enviados (snd (status_cmd ms chat_id from_user_id w))) ->
  let '(h, mi, s) := uptime rel in
  0 <= h /\ 0 <= mi < 60 /\ 0 <= s < 60 /\
  h * 3600 + mi * 60 + s = Qfloor (ms_agora_relatorio ms - ms_agora ms).
Proof.
  intros Hle.
  destruct (relatorio_uptime (set_last_activity (ms_agora ms) (bot_monitor w))
              (ms_agora_relatorio ms) (ms_agora_atividade ms) Hle) as (rel0 & Hrel & Hup).
  cbn [last_activity set_last_activity] in Hup.
  unfold status_cmd, no_bot_monitor, register_activity, register_admin, muda, anota, envia.
  mstep. cbn [bot_monitor set_bot_monitor]. rewrite Hrel.
  mstep. cbn [bot_monitor set_bot_monitor estado].
  assert (Hfim : forall x : Z * Texto,
             x = (chat_id, TStatus t a e taxa gs rel rec) ->
             (exists rec', x = (chat_id,
                                if 0 <? total (placar (estado w))
                                then TStatus (total (placar (estado w)))
                                             (acertos (placar (estado w)))
                                             (erros (placar (estado w)))
                                             (taxa_de (greens_seguidos (placar (estado w))))
                                             (greens_seguidos (placar (estado w))) rel0 rec'
                                else TStatusVazio rec')) ->
             let '(h, mi, s) := uptime rel in
             0 <= h /\ 0 <= mi < 60 /\ 0 <= s < 60 /\
             h * 3600 + mi * 60 + s = Qfloor (ms_agora_relatorio ms - ms_agora ms)).
  { intros x -> [rec' H]. destruct (0 <? total (placar (estado w))); [|discriminate].
    injection H as _ _ _ _ _ -> _. exact Hup. }
  destruct (ms_psutil ms) as [rc|ex]; mstep;
    (destruct (ms_envia_status ms) as [m|err]; mstep;
     cbn [bot_monitor set_bot_monitor set_last_activity admin_chat_ids estado];
     [ destruct (mem_Z from_user_id (admin_chat_ids (bot_monitor w))) eqn:Em; mstep;
       cbn [bot_monitor set_bot_monitor set_last_activity set_admin_chat_ids
            admin_chat_ids negb];
       rewrite ?Em, ?mem_Z_app; cbn [negb]; mstep
     | ]);
    cbn [snd app enviados In map];
    intros H;
    repeat match type of H with
           | _ \/ _ => destruct H as [H|H]
           | False => destruct H
           end;
    (eapply Hfim; [exact H|eexists; reflexivity]).
Qed.

Lemma status_uptime_counts_from_the_command_witness :
  exists rel,
    In (7, TStatus 16 7 9 50 0 rel None)
       (enviados (snd (status_cmd status_exemplo 7 8
                                  (set_estado estado_quatro_erros (mundo_inicial 0))))) /\
    uptime rel = (0, 0, 0) /\
    let '(h, mi, s) := uptime rel in
    0 <= h /\ 0 <= mi < 60 /\ 0 <= s < 60 /\
    h * 3600 + mi * 60 + s = Qfloor (ms_agora_relatorio status_exemplo - ms_agora status_exemplo).
Proof.
  eexists. split; [vm_compute; left; reflexivity|].
  split; [vm_compute; reflexivity|].
  apply (status_uptime_counts_from_the_command
           status_exemplo 7 8 (set_estado estado_quatro_erros (mundo_inicial 0))
           16 7 9 50 0 _ None).
  - vm_compute. discriminate.
  - vm_compute. left. reflexivity.
Defined.

Section Animacao.

Variable a : Animacao.
Variable chat_id : Z.

Lemma choice_dois (n : nat) :
  exists p, choice [laranja_e_azul; laranja_e_vermelho] n = Py.Ok p /\
            In p [laranja_e_azul; laranja_e_vermelho].
Proof.
  destruct (choice_ok [laranja_e_azul; laranja_e_vermelho] n ltac:(discriminate)) as [p Hp].
  exists p. split; [exact Hp|]. exact (choice_in _ _ _ Hp).
Qed.

(** The last resort answers, changes no global, and what it answers is
    a pick of the last resort. *)
Lemma protecao_total_spec (e : Py.Exc) (w : Mundo) :
  exists r tr, protecao_total a chat_id e w = (Py.Ok r, w, tr) /\ de_emergencia r.
Proof.
  unfold protecao_total, anota, envia, de_emergencia.
  destruct (choice_dois (an_choice_emergencia a)) as (p & Hp & Hin).
  mstep. destruct (an_problema a); mstep.
  - rewrite Hp. mstep. destruct (an_emergencia a); mstep.
    + eexists _, _. split; [reflexivity|]. exists p. auto.
    + eexists _, _. split; [reflexivity|]. exists laranja_e_azul. cbn. auto.
  - eexists _, _. split; [reflexivity|]. exists laranja_e_azul. cbn. auto.
Qed.

(** The animation changes the globals only through the monitor and the
    picker, and what it returns is what the picker returned. *)
Lemma animacao_spec (w : Mundo) :
  match animacao a chat_id w with
  | (Py.Ok r, w', _) =>
    (exists st' tr0,
        estrategia_alta_assertividade (an_pg a) (an_rede a) (an_momento a) (estado w)
        = (Py.Ok r, st', tr0) /\ estado w' = st') /\
    prediction_messages w' = prediction_messages w /\
    primeiro_usuario_id w' = primeiro_usuario_id w
  | (Py.Raise _, w', _) =>
    prediction_messages w' = prediction_messages w /\
    primeiro_usuario_id w' = primeiro_usuario_id w
  end.
Proof.
  unfold animacao, palpite_final, update_text_safely, dorme, anota, no_bot_monitor,
    no_estado, register_activity, muda.
  mstep. cbn [estado set_bot_monitor].
  destruct (estrategia_alta_assertividade (an_pg a) (an_rede a) (an_momento a) (estado w))
    as [[[[[p g] d]|e] st'] tr0] eqn:E;
    destruct (an_inicial a) as [msg|err]; mstep; cbn [estado set_bot_monitor]; rewrite E;
    mstep.
  - repeat split; eauto.
  - repeat split; eauto.
  - destruct (an_pg a) as [pg|]; mstep.
    + destruct (an_gerador a); mstep; repeat split.
    + destruct (choice_dois (an_choice a)) as (p & -> & _). mstep. repeat split.
  - repeat split.
Qed.

Lemma gerar_spec (w : Mundo) :
  exists r w' tr,
    gerar_palpite_com_animacao a chat_id w = (Py.Ok r, w', tr) /\
    ((exists st' tr0,
         estrategia_alta_assertividade (an_pg a) (an_rede a) (an_momento a) (estado w)
         = (Py.Ok r, st', tr0)) \/
     de_emergencia r) /\
    prediction_messages w' = prediction_messages w /\
    primeiro_usuario_id w' = primeiro_usuario_id w.
Proof.
  unfold gerar_palpite_com_animacao. mstep.
  pose proof (animacao_spec w) as H.
  destruct (animacao a chat_id w) as [[[r|e] w1] tr1].
  - destruct H as ((st' & tr0 & H & _) & Hp & Hu).
    eexists _, _, _. split; [reflexivity|]. split; [left; eauto|]. auto.
  - destruct (protecao_total_spec e w1) as (r & tr & -> & Hr).
    eexists _, _, _. split; [reflexivity|]. split; [right; exact Hr|]. exact H.
Qed.

End Animacao.

(** X24.  The animated pick never raises.  What it returns is the triple
    the picker returned, or else, and so whenever the picker raised, one
    of the two double bets with no gale and no defensive mode.  The
    stored predictions and the registered user are left as they
    were. *)
Theorem animated_pick_always_answers (a : Animacao) (chat_id : Z) (w : Mundo) :
  exists r w' tr,
    gerar_palpite_com_animacao a chat_id w = (Py.Ok r, w', tr) /\
    ((exists st' tr0,
         estrategia_alta_assertividade (an_pg a) (an_rede a) (an_momento a) (estado w)
         = (Py.Ok r, st', tr0)) \/
     de_emergencia r) /\
    prediction_messages w' = prediction_messages w /\
    primeiro_usuario_id w' = primeiro_usuario_id w.
Proof. exact (gerar_spec a chat_id w). Qed.

(** X25.  When the feed reports an outcome, the thread of /palpite never
    gets to send its prediction: the triple that the animated pick
    returned has no [startswith], so the scoring raises AttributeError,
    the user is sent the error text instead, and nothing is stored for
    reactions. *)
Theorem palpite_command_breaks_on_a_known_outcome
        (mp : MundoPalpite) (user_id : Z) (w : Mundo)
        (r : string * Z * bool) (w1 : Mundo) (tr1 : list Acao)
        (dados : Resultados) (st2 : Estado) (tr2 : list Evento) (resultado_real : string) :
  gerar_palpite_com_animacao (mp_animacao mp) user_id w = (Py.Ok r, w1, tr1) ->
  chama_atualizar (mp_rede mp) (estado w1) = (Py.Ok dados, st2, tr2) ->
  truthy (resultado_atual dados) = Some resultado_real ->
  gerar_palpite_thread mp user_id w
  = (if aceite (mp_envia_erro mp) then Py.Ok tt else Py.Raise Py.RequestException,
     set_estado st2 w1,
     tr1 ++ map APicker tr2
         ++ [AEnvia user_id (TErroPalpite Py.AttributeError) (aceite (mp_envia_erro mp))]) /\
  prediction_messages (set_estado st2 w1) = prediction_messages w.
Proof.
  intros Hg Hc Ht.
  destruct (gerar_spec (mp_animacao mp) user_id w) as (r' & w' & tr' & Hg' & _ & Hp & _).
  rewrite Hg in Hg'. injection Hg' as <- <- <-.
  split; [|exact Hp].
  unfold gerar_palpite_thread. mstep. rewrite Hg.
  destruct r as [[p g] d]. unfold no_estado. mstep. rewrite Hc. mstep. rewrite Ht.
  unfold compara, startswith, envia. mstep.
  destruct (mp_envia_erro mp); mstep; cbn [aceite];
    rewrite ?app_nil_r, <- ?app_assoc; reflexivity.
Qed.

Lemma palpite_command_breaks_on_a_known_outcome_witness :
  exists w' tr,
    gerar_palpite_thread palpite_exemplo 7 (mundo_inicial 0)
    = (Py.Ok tt, w', tr ++ [AEnvia 7 (TErroPalpite Py.AttributeError) true]) /\
    prediction_messages w' = [].
Proof.
  destruct (gerar_palpite_com_animacao (mp_animacao palpite_exemplo) 7 (mundo_inicial 0))
    as [[[r|e] w1] tr1] eqn:Hg;
    [|exfalso;
      assert (H : match fst (fst (gerar_palpite_com_animacao
                                    (mp_animacao palpite_exemplo) 7 (mundo_inicial 0))) with
                  | Py.Ok _ => true
                  | Py.Raise _ => false
                  end = true) by (vm_compute; reflexivity);
      rewrite Hg in H; discriminate].
  destruct (chama_atualizar (mp_rede palpite_exemplo) (estado w1))
    as [[[dados|e] st2] tr2] eqn:Hc;
    [|exfalso;
      assert (H : match fst (fst (chama_atualizar
                                    (mp_rede palpite_exemplo)
                                    (estado (snd (fst (gerar_palpite_com_animacao
                                                         (mp_animacao palpite_exemplo) 7
                                                         (mundo_inicial 0))))))) with
                  | Py.Ok _ => true
                  | Py.Raise _ => false
                  end = true) by (vm_compute; reflexivity);
      rewrite Hg in H; cbn [fst snd] in H; rewrite Hc in H; discriminate].
  assert (Ht : truthy (resultado_atual dados) = Some azul).
  { assert (H : match fst (fst (chama_atualizar
                                  (mp_rede palpite_exemplo)
                                  (estado (snd (fst (gerar_palpite_com_animacao
                                                       (mp_animacao palpite_exemplo) 7
                                                       (mundo_inicial 0))))))) with
                | Py.Ok d => truthy (resultado_atual d)
                | Py.Raise _ => None
                end = Some azul) by (vm_compute; reflexivity).
    rewrite Hg in H. cbn [fst snd] in H. rewrite Hc in H. exact H. }
  destruct (palpite_command_breaks_on_a_known_outcome
              palpite_exemplo 7 (mundo_inicial 0) r w1 tr1 dados st2 tr2 azul Hg Hc Ht)
    as [H Hp].
  exists (set_estado st2 w1), (tr1 ++ map APicker tr2).
  split; [rewrite H, <- app_assoc; reflexivity|exact Hp].
Defined.
